(** * Job orchestration and provider routing of the video generator

    A shallow embedding of the orchestration core:
    - [src/storage/db.py]                    ([Module Db]),
    - [src/video_clients/unified_client.py]  ([Module Router]),
    - [src/scripts/worker/generate_worker.py] ([Module Worker]),
    - [src/video_clients/velo_client.py]     ([Module Velo]),
    - [src/scripts/check_veo_operation.py]   ([Module VeoOp]),
    - the persona records of [src/storage/db.py] ([Module Personas]),
    - [src/scripts/api/core_api.py]          ([Module Api]),
    - [src/generate_video.py]                ([Module Cli]).

    Python dictionaries whose iteration order is irrelevant are [gmap]s;
    dictionaries nested inside values, and the provider registry (whose
    insertion order the router observes), are association lists.
    Exceptions are explicit: a computation returns [Ok] or [Raise], and the
    state reached before a raise is kept, as in Python.  [print] calls are
    not modelled.  What the code leaves to its surroundings is a parameter:
    the [json] module, clock, ids and the outcome of the worker's import
    ([Json], [Host]), the texts of the interpreter's own [TypeError]s
    ([Interpreter]), the file system ([Disk]) and the web framework
    ([Web]). *)

From stdpp Require Import base strings list gmap pretty.

Set Warnings "-register-all".

Open Scope string_scope.
Open Scope Z_scope.

(** ** Python values and exceptions *)

Module Py.

(** Python values; [VFloat m e] is the float [m * 10^e] and
    [VDatetime iso] the [datetime] whose [isoformat()] is [iso]. *)
Inductive value : Type :=
| VNone
| VBool (b : bool)
| VInt (n : Z)
| VFloat (m e : Z)
| VStr (s : string)
| VList (xs : list value)
| VDict (kvs : list (string * value))
| VDatetime (iso : string).

(** An exception: its class and [str(e)]. *)
Record exn : Type := Exn { exn_class : string; exn_msg : string }.

Inductive res (A : Type) : Type :=
| Ok (a : A)
| Raise (e : exn).
Arguments Ok {A} a.
Arguments Raise {A} e.

Definition is_ok {A} (r : res A) : bool :=
  match r with Ok _ => true | Raise _ => false end.

#[global] Instance res_ret : MRet res := @Ok.
#[global] Instance res_bind : MBind res :=
  fun A B k r => match r with Ok a => k a | Raise e => Raise e end.
#[global] Instance res_fmap : FMap res :=
  fun A B f r => match r with Ok a => Ok (f a) | Raise e => Raise e end.

(** Truthiness, as used by [if x:] and [not x]. *)
Definition truthy (v : value) : bool :=
  match v with
  | VNone => false
  | VBool b => b
  | VInt n => negb (n =? 0)
  | VFloat m _ => negb (m =? 0)
  | VStr s => negb (String.eqb s "")
  | VList xs => match xs with [] => false | _ => true end
  | VDict kvs => match kvs with [] => false | _ => true end
  | VDatetime _ => true
  end.

Definition str_truthy (s : string) : bool := negb (String.eqb s "").

Definition type_name (v : value) : string :=
  match v with
  | VNone => "NoneType"
  | VBool _ => "bool"
  | VInt _ => "int"
  | VFloat _ _ => "float"
  | VStr _ => "str"
  | VList _ => "list"
  | VDict _ => "dict"
  | VDatetime _ => "datetime.datetime"
  end.

(** *** Strings *)

(** [sub in s] *)
Fixpoint contains (sub s : string) : bool :=
  String.prefix sub s ||
  match s with
  | EmptyString => false
  | String _ s' => contains sub s'
  end.

(** [s.split(sep)] for a non-empty separator: a left-to-right scan for
    non-overlapping occurrences; [skip] counts the characters of a matched
    separator that are still to be passed over, [cur] is the piece being
    collected. *)
Fixpoint split_go (sep : string) (skip : nat) (s cur : string) : list string :=
  match s with
  | EmptyString => [cur]
  | String c s' =>
      match skip with
      | S k => split_go sep k s' cur
      | O =>
          if String.prefix sep s
          then cur :: split_go sep (String.length sep - 1) s' ""
          else split_go sep 0 s' (cur +:+ String c "")
      end
  end.

Definition split (sep s : string) : list string := split_go sep 0 s "".

(** [s.split(sep)[-1]] *)
Definition split_last (sep s : string) : string := List.last (split sep s) "".

(** [list(s)]: the one-character strings of [s]. *)
Fixpoint chars (s : string) : list string :=
  match s with
  | EmptyString => []
  | String c s' => String c "" :: chars s'
  end.

(** *** Dictionaries nested in values: association lists *)

Fixpoint assoc_get (kvs : list (string * value)) (k : string) : option value :=
  match kvs with
  | [] => None
  | (k', v) :: rest => if String.eqb k' k then Some v else assoc_get rest k
  end.

Definition assoc_has (kvs : list (string * value)) (k : string) : bool :=
  match assoc_get kvs k with Some _ => true | None => false end.

(** *** Operators on values, with the exceptions Python raises *)

Definition type_error (msg : string) : exn := Exn "TypeError" msg.
Definition key_error (k : string) : exn := Exn "KeyError" ("'" +:+ k +:+ "'").
Definition attribute_error (v : value) (attr : string) : exn :=
  Exn "AttributeError"
      ("'" +:+ type_name v +:+ "' object has no attribute '" +:+ attr +:+ "'").

Definition is_str (v : value) (k : string) : bool :=
  match v with VStr s => String.eqb s k | _ => false end.

(** [k in v] for a string [k]. *)
Definition py_in (k : string) (v : value) : res bool :=
  match v with
  | VDict kvs => Ok (assoc_has kvs k)
  | VList xs => Ok (existsb (fun x => is_str x k) xs)
  | VStr s => Ok (contains k s)
  | _ => Raise (type_error ("argument of type '" +:+ type_name v +:+ "' is not iterable"))
  end.

(** [v[k]] for a string [k]. *)
Definition getitem (v : value) (k : string) : res value :=
  match v with
  | VDict kvs =>
      match assoc_get kvs k with
      | Some x => Ok x
      | None => Raise (key_error k)
      end
  | VList _ => Raise (type_error "list indices must be integers or slices, not str")
  | VStr _ => Raise (type_error "string indices must be integers")
  | _ => Raise (type_error ("'" +:+ type_name v +:+ "' object is not subscriptable"))
  end.

(** [v.get(k, default)] *)
Definition get_method (v : value) (k : string) (dflt : value) : res value :=
  match v with
  | VDict kvs => Ok (default dflt (assoc_get kvs k))
  | _ => Raise (attribute_error v "get")
  end.

(** [for x in v] *)
Definition iter (v : value) : res (list value) :=
  match v with
  | VList xs => Ok xs
  | VDict kvs => Ok (map (fun kv => VStr (fst kv)) kvs)
  | VStr s => Ok (map VStr (chars s))
  | _ => Raise (type_error ("'" +:+ type_name v +:+ "' object is not iterable"))
  end.

(** [v.isoformat()] *)
Definition isoformat (v : value) : res value :=
  match v with
  | VDatetime iso => Ok (VStr iso)
  | _ => Raise (attribute_error v "isoformat")
  end.

(** [v[0]] *)
Definition getitem0 (v : value) : res value :=
  match v with
  | VList (x :: _) => Ok x
  | VList [] => Raise (Exn "IndexError" "list index out of range")
  | VStr (String c _) => Ok (VStr (String c ""))
  | VStr EmptyString => Raise (Exn "IndexError" "string index out of range")
  | VDict _ => Raise (Exn "KeyError" "0")
  | _ => Raise (type_error ("'" +:+ type_name v +:+ "' object is not subscriptable"))
  end.

End Py.

(** The [json] module is an external collaborator: [json.dumps] and
    [json.loads] are taken as an interface. *)
Class Json : Type := {
  json_dumps : Py.value -> string;
  json_loads : string -> Py.res Py.value;
}.

(** ** [src/storage/db.py]: the job store *)

Module Db.
Import Py.

(** What driver and server make of a statement whose text the model
    does not read: it ran and left the table as given, the server raised
    (the transaction is failed from then on), or the driver raised before
    anything was sent. *)
Inductive verdict : Type :=
| Applied (rows : list (gmap string value))
| ServerError
| DriverError.

(** The PostgreSQL connection held in [self.connection], as far as the
    job table is concerned.  A row maps column names to cell values, an
    unset column is NULL; a cell is the Python value the driver returns
    for it, and the table keeps a bound parameter as the cell (no column
    type converts it).  [columns] are the table's columns, under the
    names that address them when written bare in a statement.  [adapts] is
    the driver's adaptation of Python values to SQL parameters;
    [failed_tx] records that a statement failed on the server and nothing
    rolled the transaction back, after which the server refuses every
    statement.
    [foreign_update sets job_id rows] is the verdict on an [UPDATE] whose
    [SET] list, built from the keys of [sets], is not a list of names.
    Uniqueness constraints are not modelled. *)
Record pg_connection : Type := PgConnection {
  online : bool;
  failed_tx : bool;
  adapts : value -> bool;
  columns : list string;
  table : list (gmap string value);
  foreign_update : gmap string value -> value -> list (gmap string value) -> verdict;
}.

Definition set_table (c : pg_connection) (t : list (gmap string value)) : pg_connection :=
  PgConnection (online c) (failed_tx c) (adapts c) (columns c) t (foreign_update c).

Definition abort_tx (c : pg_connection) : pg_connection :=
  PgConnection (online c) true (adapts c) (columns c) (table c) (foreign_update c).

(** A text the server can only read as a name, and reads as it is
    written: lower-case ASCII letters, digits and underscores, the first
    not a digit (the server folds capitals, so a key with one is not
    taken as written). *)
Definition name_start (ch : Ascii.ascii) : bool :=
  let n := Ascii.nat_of_ascii ch in
  ((97 <=? n) && (n <=? 122) || (n =? 95))%nat.

Definition name_part (ch : Ascii.ascii) : bool :=
  let n := Ascii.nat_of_ascii ch in
  name_start ch || ((48 <=? n) && (n <=? 57))%nat.

Fixpoint name_parts (s : string) : bool :=
  match s with
  | EmptyString => true
  | String ch rest => name_part ch && name_parts rest
  end.

Definition is_identifier (k : string) : bool :=
  match k with
  | EmptyString => false
  | String ch rest => name_start ch && name_parts rest
  end.

(** [DatabaseClient]; [connection = None] is the mock database. *)
Record client : Type := Client { connection : option pg_connection }.

(** SQL [a = b] on cells: NULL equals nothing. *)
Definition sql_eq (a b : value) : bool :=
  match a, b with
  | VStr x, VStr y => String.eqb x y
  | VInt x, VInt y => x =? y
  | VBool x, VBool y => Bool.eqb x y
  | _, _ => false
  end.

Definition cell (row : gmap string value) (col : string) : value :=
  default VNone (row !! col).

Definition has_id (job_id : value) (row : gmap string value) : bool :=
  sql_eq (cell row "id") job_id.

Definition all_adapted (c : pg_connection) (params : gmap string value) : bool :=
  bool_decide (map_Forall (fun _ v => adapts c v = true) params).

Definition known_columns (c : pg_connection) (params : gmap string value) : bool :=
  bool_decide (map_Forall (fun k _ => k ∈ columns c) params).

(** What a statement needs before it touches the table: [Some c'] when
    it is refused, [c'] being the connection after the refusal. *)
Definition refused (c : pg_connection) (params : gmap string value)
    (job_id : option value) : option pg_connection :=
  if negb (all_adapted c params && from_option (adapts c) true job_id) then Some c
  else if negb (online c) || failed_tx c then Some c
  else if negb (known_columns c params) then Some (abort_tx c)
  else match job_id with
       | Some _ => if bool_decide ("id" ∈ columns c) then None else Some (abort_tx c)
       | None => None
       end.

(** Every key of [sets] is a column or at least a name, so that
    [", ".join(f"{key} = %s" ...)] is a list of assignments. *)
Definition plain_keys (c : pg_connection) (sets : gmap string value) : bool :=
  bool_decide (map_Forall (fun k _ => k ∈ columns c ∨ is_identifier k = true) sets).

(** [cursor.execute(f"UPDATE generation_jobs SET {...} WHERE id = %s", values)];
    the flag is [false] when [execute] raises.  The keys of [sets] are
    written into the statement as they are: with a key that is not a name
    the statement is whatever the text then says. *)
Definition execute_update (c : pg_connection) (sets : gmap string value)
    (job_id : value) : bool * pg_connection :=
  if plain_keys c sets
  then match refused c sets (Some job_id) with
       | Some c' => (false, c')
       | None =>
           if bool_decide (sets = ∅) then (false, abort_tx c)
           else (true, set_table c
                         (map (fun row => if has_id job_id row then sets ∪ row else row)
                              (table c)))
       end
  else if negb (all_adapted c sets && adapts c job_id) then (false, c)
  else if negb (online c) || failed_tx c then (false, c)
  else match foreign_update c sets job_id (table c) with
       | Applied rows => (true, set_table c rows)
       | ServerError => (false, abort_tx c)
       | DriverError => (false, c)
       end.

(** [cursor.execute("INSERT INTO generation_jobs (...) VALUES (...)")] *)
Definition execute_insert (c : pg_connection) (row : gmap string value)
    : bool * pg_connection :=
  match refused c row None with
  | Some c' => (false, c')
  | None => (true, set_table c (table c ++ [row]))
  end.

(** [cursor.execute("SELECT * FROM generation_jobs WHERE id = %s")]
    followed by [fetchone()]. *)
Definition execute_select (c : pg_connection) (job_id : value)
    : res (option (gmap string value)) * pg_connection :=
  match refused c ∅ (Some job_id) with
  | Some c' => (Raise (Exn "Error" "database error"), c')
  | None => (Ok (head (filter (fun row => has_id job_id row = true) (table c))), c)
  end.

Section WithJson.
Context `{Json}.

(** The parameters [update_generation_job] binds: [json.dumps] for the
    two JSON columns, the value itself otherwise. *)
Definition bind_update (key : string) (v : value) : value :=
  if bool_decide (key ∈ ["persona_ids"; "parameters"])
  then VStr (json_dumps v) else v.

Definition update_generation_job (self : client) (job_id : value)
    (updates : gmap string value) : bool * client :=
  match connection self with
  | Some c =>
      let '(ok, c') := execute_update c (map_imap (fun k v => Some (bind_update k v)) updates) job_id in
      (ok, Client (Some c'))
  | None => (true, self)
  end.

Definition lookup_key (d : gmap string value) (k : string) : res value :=
  match d !! k with
  | Some v => Ok v
  | None => Raise (key_error k)
  end.

(** The row [create_generation_job] inserts; a missing key of
    [job_data] is a [KeyError]. *)
Definition insert_row (job_data : gmap string value) : res (gmap string value) :=
  id ← lookup_key job_data "id";
  ty ← lookup_key job_data "type";
  personas ← lookup_key job_data "persona_ids";
  prompt ← lookup_key job_data "prompt";
  params ← lookup_key job_data "parameters";
  status ← lookup_key job_data "status";
  created ← lookup_key job_data "created_at";
  Ok (<["id" := id]> (<["type" := ty]>
      (<["persona_ids" := VStr (json_dumps personas)]> (<["prompt" := prompt]>
      (<["parameters" := VStr (json_dumps params)]> (<["status" := status]>
      (<["created_at" := created]> ∅))))))).

(** [create_generation_job]: the exception is re-raised to the caller. *)
Definition create_generation_job (self : client) (job_data : gmap string value)
    : res value * client :=
  match connection self with
  | Some c =>
      match insert_row job_data with
      | Ok row =>
          let '(ok, c') := execute_insert c row in
          (if ok then lookup_key job_data "id" else Raise (Exn "Error" "database error"),
           Client (Some c'))
      | Raise e => (Raise e, self)
      end
  | None => (lookup_key job_data "id", self)
  end.

(** [json.loads(cell) if cell else default] *)
Definition loads_or (v dflt : value) : res value :=
  if truthy v
  then match v with
       | VStr s => json_loads s
       | _ => Raise (type_error "the JSON object must be str, bytes or bytearray")
       end
  else Ok dflt.

(** [cell.isoformat() if cell else None] *)
Definition isoformat_or_none (v : value) : res value :=
  if truthy v then isoformat v else Ok VNone.

(** [_format_job_result], reading the columns the source assumes
    ([id, type, persona_ids, prompt, parameters, status, created_at])
    by name. *)
Definition _format_job_result (row : gmap string value) : res (gmap string value) :=
  personas ← loads_or (cell row "persona_ids") (VList []);
  params ← loads_or (cell row "parameters") (VDict []);
  created ← isoformat_or_none (cell row "created_at");
  Ok (<["id" := cell row "id"]> (<["type" := cell row "type"]>
      (<["persona_ids" := personas]> (<["prompt" := cell row "prompt"]>
      (<["parameters" := params]> (<["status" := cell row "status"]>
      (<["created_at" := created]> ∅))))))).

(** [_generate_mock_job]; [now] is [datetime.utcnow().isoformat()]. *)
Definition _generate_mock_job (job_id : value) (now : string) : gmap string value :=
  <["id" := job_id]> (<["type" := VStr "video"]>
  (<["persona_ids" := VList [VStr "persona_1"]]>
  (<["prompt" := VStr "Generate a sample video"]>
  (<["parameters" := VDict [("quality", VStr "hd"); ("duration", VInt 30)]]>
  (<["status" := VStr "completed"]> (<["created_at" := VStr now]> ∅)))))).

Definition get_generation_job (self : client) (job_id : value) (now : string)
    : option (gmap string value) * client :=
  match connection self with
  | Some c =>
      let '(r, c') := execute_select c job_id in
      (match r with
       | Ok (Some row) =>
           match _format_job_result row with
           | Ok job => Some job
           | Raise _ => None
           end
       | _ => None
       end, Client (Some c'))
  | None => (Some (_generate_mock_job job_id now), self)
  end.

(** The status cell of the first row stored under [job_id]. *)
Definition job_status (self : client) (job_id : value) : option value :=
  match connection self with
  | Some c =>
      match head (filter (fun row => has_id job_id row = true) (table c)) with
      | Some row => Some (cell row "status")
      | None => None
      end
  | None => None
  end.

End WithJson.
End Db.

(** The texts of the interpreter's [TypeError]s name the callee, and how
    they name it depends on the interpreter and on the path the module
    was imported under.  [callee_str f] is what a call site prints for the
    function whose qualified name is [f] ([module.f()] from CPython 3.9
    on), [function_str f] what the binding of its arguments prints ([f()]
    from CPython 3.10 on). *)
Class Interpreter : Type := {
  callee_str : string -> string;
  function_str : string -> string;
}.

(** ** [src/video_clients/unified_client.py]: the provider router *)

Module Router.
Import Py.

(** A provider adapter ([SoraClient], [VeloClient]).  [api_key] is what
    [hasattr(client, 'api_key') and client.api_key] inspects;
    [client_generate script kwargs] is the outcome of
    [await client.generate_video(script, **kwargs)], a remote call. *)
Record provider_client : Type := ProviderClient {
  api_key : option string;
  client_generate : gmap string value -> gmap string value -> res (gmap string value);
}.

(** [UnifiedVideoClient]; [providers] keeps the insertion order of the
    Python dictionary. *)
Record t : Type := UnifiedVideoClient {
  preferred_provider : string;
  providers : list (string * provider_client);
  fallback_order : list string;
}.

Fixpoint find_client (ps : list (string * provider_client)) (name : string)
    : option provider_client :=
  match ps with
  | [] => None
  | (n, c) :: rest => if String.eqb n name then Some c else find_client rest name
  end.

(** [name in self.providers] *)
Definition registered (self : t) (name : string) : bool :=
  match find_client (providers self) name with Some _ => true | None => false end.

Definition provider_names (self : t) : list string := map fst (providers self).

Definition has_api_key (c : provider_client) : bool :=
  match api_key c with Some k => str_truthy k | None => false end.

(** The loop over [self.fallback_order] in [_select_provider]. *)
Fixpoint auto_select (self : t) (order : list string) : option string :=
  match order with
  | [] => None
  | p :: rest =>
      match find_client (providers self) p with
      | Some c =>
          if has_api_key c then Some p
          else if String.eqb p "sora" then Some p
          else auto_select self rest
      | None => auto_select self rest
      end
  end.

Definition _select_provider (self : t) (requested_provider : option string)
    : option string :=
  if match requested_provider with
     | Some r => str_truthy r && registered self r
     | None => false
     end
  then requested_provider
  else if negb (String.eqb (preferred_provider self) "auto")
          && registered self (preferred_provider self)
  then Some (preferred_provider self)
  else match auto_select self (fallback_order self) with
       | Some p => Some p
       | None => head (provider_names self)
       end.

Definition requested_truthy (requested : option string) : bool :=
  match requested with Some r => str_truthy r | None => false end.

Definition _get_selection_reason (self : t) (selected : string)
    (requested : option string) : string :=
  match requested with
  | Some r =>
      if str_truthy r
      then if String.eqb r selected
           then "User requested " +:+ selected
           else "User requested " +:+ r +:+ " but " +:+ selected
                +:+ " was selected due to availability"
      else if String.eqb (preferred_provider self) selected
           then "Preferred provider " +:+ selected
           else "Auto-selected " +:+ selected +:+ " based on availability"
  | None =>
      if String.eqb (preferred_provider self) selected
      then "Preferred provider " +:+ selected
      else "Auto-selected " +:+ selected +:+ " based on availability"
  end.

(** [d.setdefault(k, v)] *)
Definition setdefault (k : string) (v : value) (d : gmap string value)
    : gmap string value :=
  match d !! k with Some _ => d | None => <[k := v]> d end.

Definition _optimize_for_provider (provider : string) (kwargs : gmap string value)
    : gmap string value :=
  if String.eqb provider "velo"
  then setdefault "aspect_ratio" (VStr "16:9") (setdefault "temperature" (VFloat 7 (-1)) kwargs)
  else if String.eqb provider "sora"
  then setdefault "style" (VStr "natural") kwargs
  else kwargs.

(** The keyword arguments a provider is called with. *)
Definition call_kwargs (provider : string) (quality format : value)
    (kwargs : gmap string value) : gmap string value :=
  <["format" := format]> (<["quality" := quality]> (_optimize_for_provider provider kwargs)).

Definition result_success (r : gmap string value) : bool :=
  truthy (default VNone (r !! "success")).

Definition all_failed_result (failed_provider : string) (remaining : list string)
    : gmap string value :=
  <["success" := VBool false]>
 (<["error" := VStr ("All providers failed. Last error from " +:+ failed_provider)]>
 (<["attempted_providers" := VList (map VStr (failed_provider :: remaining))]> ∅)).

(** The [for provider in remaining_providers] loop of [_try_fallback];
    [None] when the loop runs to its end. *)
Fixpoint fallback_loop (self : t) (script : gmap string value) (failed_provider : string)
    (quality format : value) (kwargs : gmap string value) (remaining : list string)
    : option (gmap string value) :=
  match remaining with
  | [] => None
  | provider :: rest =>
      match find_client (providers self) provider with
      | Some client =>
          match client_generate client script (call_kwargs provider quality format kwargs) with
          | Ok result =>
              if result_success result
              then Some (<["provider_selection_reason" :=
                             VStr ("Fallback to " +:+ provider +:+ " after "
                                   +:+ failed_provider +:+ " failed")]>
                        (<["selected_provider" := VStr provider]>
                        (<["original_provider" := VStr failed_provider]>
                        (<["fallback_used" := VBool true]> result))))
              else fallback_loop self script failed_provider quality format kwargs rest
          | Raise _ => fallback_loop self script failed_provider quality format kwargs rest
          end
      | None => fallback_loop self script failed_provider quality format kwargs rest
      end
  end.

Definition remaining_providers (self : t) (failed_provider : string) : list string :=
  filter (fun p => negb (String.eqb p failed_provider) && registered self p = true)
         (fallback_order self).

Section WithInterpreter.
Context `{Interpreter}.

(** [self._try_fallback(script, selected_provider, quality, format, **kwargs)]:
    [kwargs] are the extra options [generate_video] was called with (Python
    binds [script], [provider], [quality], [format] and [self] to its
    parameters, so they are never among them); an option named
    [failed_provider] meets the argument given by position. *)
Definition fallback_argument_error : exn :=
  type_error (function_str "UnifiedVideoClient._try_fallback"
              +:+ " got multiple values for argument 'failed_provider'").

Definition _try_fallback (self : t) (script : gmap string value) (failed_provider : string)
    (quality format : value) (kwargs : gmap string value) : res (gmap string value) :=
  match kwargs !! "failed_provider" with
  | Some _ => Raise fallback_argument_error
  | None =>
      let remaining := remaining_providers self failed_provider in
      match fallback_loop self script failed_provider quality format kwargs remaining with
      | Some result => Ok result
      | None => Ok (all_failed_result failed_provider remaining)
      end
  end.

Definition no_provider_result (self : t) : gmap string value :=
  <["success" := VBool false]>
 (<["error" := VStr "No video generation providers available"]>
 (<["available_providers" := VList (map VStr (provider_names self))]> ∅)).

Definition generation_failed_result (selected : string) (e : exn) : gmap string value :=
  <["success" := VBool false]>
 (<["error" := VStr ("Video generation failed: " +:+ exn_msg e)]>
 (<["provider" := VStr selected]> ∅)).

(** [generate_video]; the call of [_try_fallback] stands in the
    [except] block, so what it raises reaches the caller. *)
Definition generate_video (self : t) (script : gmap string value)
    (provider : option string) (quality format : value) (kwargs : gmap string value)
    : res (gmap string value) :=
  match _select_provider self provider with
  | None => Ok (no_provider_result self)
  | Some selected =>
      if negb (str_truthy selected) then Ok (no_provider_result self)
      else
        let attempt :=
          match find_client (providers self) selected with
          | Some client =>
              result ← client_generate client script
                         (call_kwargs selected quality format kwargs);
              Ok (<["provider_selection_reason" :=
                      VStr (_get_selection_reason self selected provider)]>
                 (<["selected_provider" := VStr selected]>
                 (<["unified_client_version" := VStr "1.0.0"]> result)))
          | None => Raise (key_error selected)
          end in
        match attempt with
        | Ok result => Ok result
        | Raise e =>
            match provider with
            | None =>
                if (1 <? length (providers self))%nat
                then _try_fallback self script selected quality format kwargs
                else Ok (generation_failed_result selected e)
            | Some _ => Ok (generation_failed_result selected e)
            end
        end
  end.

End WithInterpreter.
End Router.

(** ** [src/scripts/worker/generate_worker.py]: queue and worker *)

(** What the worker takes from its host: [repr] of a value that is not a
    string, [str(uuid.uuid4())] and [datetime.utcnow().isoformat()] (the
    [n]-th reading of each), and the outcome of
    [from ..video_clients import UnifiedVideoClient] followed by
    [UnifiedVideoClient()]: the router constructed, or the exception of an
    import that does not resolve (the module lies in [scripts/worker], and
    there is no [scripts/video_clients]). *)
Class Host : Type := {
  py_repr : Py.value -> string;
  uuid4 : nat -> string;
  utcnow : nat -> string;
  import_video_client : Py.res Router.t;
}.

Module Worker.
Import Py.

(** The Redis client: the list [generation_queue], head first, and
    whether the server answers.  [lpush] adds at the head and [brpop]
    takes from the tail. *)
Record redis : Type := Redis {
  reachable : bool;
  generation_queue : list string;
}.

(** One call of [_update_job_status]: the job id and the [updates]
    dictionary it built. *)
Definition status_write : Type := value * gmap string value.

(** [GenerationWorker].  [uuid_reads] and [clock_reads] count the
    readings taken from the host; [status_writes] is the history of
    [_update_job_status] calls, oldest first. *)
Record t : Type := GenerationWorker {
  redis_client : option redis;
  db_client : option Db.client;
  video_client : option Router.t;
  is_running : bool;
  worker_id : string;
  job_queue : list value;
  uuid_reads : nat;
  clock_reads : nat;
  status_writes : list status_write;
}.

Definition set_redis (w : t) (r : option redis) : t :=
  GenerationWorker r (db_client w) (video_client w) (is_running w) (worker_id w)
    (job_queue w) (uuid_reads w) (clock_reads w) (status_writes w).
Definition set_db (w : t) (d : option Db.client) : t :=
  GenerationWorker (redis_client w) d (video_client w) (is_running w) (worker_id w)
    (job_queue w) (uuid_reads w) (clock_reads w) (status_writes w).
Definition set_video (w : t) (v : option Router.t) : t :=
  GenerationWorker (redis_client w) (db_client w) v (is_running w) (worker_id w)
    (job_queue w) (uuid_reads w) (clock_reads w) (status_writes w).
Definition set_running (w : t) (b : bool) : t :=
  GenerationWorker (redis_client w) (db_client w) (video_client w) b (worker_id w)
    (job_queue w) (uuid_reads w) (clock_reads w) (status_writes w).
Definition set_queue (w : t) (q : list value) : t :=
  GenerationWorker (redis_client w) (db_client w) (video_client w) (is_running w)
    (worker_id w) q (uuid_reads w) (clock_reads w) (status_writes w).
Definition tick_uuid (w : t) : t :=
  GenerationWorker (redis_client w) (db_client w) (video_client w) (is_running w)
    (worker_id w) (job_queue w) (S (uuid_reads w)) (clock_reads w) (status_writes w).
Definition tick_clock (w : t) : t :=
  GenerationWorker (redis_client w) (db_client w) (video_client w) (is_running w)
    (worker_id w) (job_queue w) (uuid_reads w) (S (clock_reads w)) (status_writes w).
Definition log_write (w : t) (x : status_write) : t :=
  GenerationWorker (redis_client w) (db_client w) (video_client w) (is_running w)
    (worker_id w) (job_queue w) (uuid_reads w) (clock_reads w) (status_writes w ++ [x]).

(** *** Computations of the worker: state and exceptions *)

Definition M (A : Type) : Type := t -> res A * t.

#[global] Instance M_ret : MRet M := fun A a w => (Ok a, w).
#[global] Instance M_bind : MBind M := fun A B k m w =>
  match m w with
  | (Ok a, w') => k a w'
  | (Raise e, w') => (Raise e, w')
  end.

Definition raise {A} (e : exn) : M A := fun w => (Raise e, w).
Definition lift {A} (r : res A) : M A := fun w => (r, w).
Definition get : M t := fun w => (Ok w, w).
Definition modify (f : t -> t) : M unit := fun w => (Ok tt, f w).

(** [try: body  except Exception as e: handler e] *)
Definition try_except {A} (body : M A) (handler : exn -> M A) : M A := fun w =>
  match body w with
  | (Ok a, w') => (Ok a, w')
  | (Raise e, w') => handler e w'
  end.

Definition dict_value (d : gmap string value) : value := VDict (map_to_list d).

(** [items.pop()] from the tail. *)
Definition pop_tail {A} (items : list A) : option (list A * A) :=
  match reverse items with
  | [] => None
  | x :: rest => Some (reverse rest, x)
  end.

Section WithHost.
Context `{Json} `{Host} `{Interpreter}.

Definition py_str (v : value) : string :=
  match v with VStr s => s | _ => py_repr v end.

Definition read_clock : M string := fun w => (Ok (utcnow (clock_reads w)), tick_clock w).
Definition read_uuid : M string := fun w => (Ok (uuid4 (uuid_reads w)), tick_uuid w).

(** [await self.redis_client.lpush("generation_queue", item)] *)
Definition lpush (item : string) : M unit := fun w =>
  match redis_client w with
  | Some r =>
      if reachable r
      then (Ok tt, set_redis w (Some (Redis true (item :: generation_queue r))))
      else (Raise (Exn "ConnectionError" "Error connecting to Redis"), w)
  | None => (Raise (attribute_error VNone "lpush"), w)
  end.

(** [await self.redis_client.brpop("generation_queue", timeout=1)];
    [None] is the timeout on an empty list. *)
Definition brpop : M (option string) := fun w =>
  match redis_client w with
  | Some r =>
      if reachable r
      then match pop_tail (generation_queue r) with
           | Some (rest, item) => (Ok (Some item), set_redis w (Some (Redis true rest)))
           | None => (Ok None, w)
           end
      else (Raise (Exn "ConnectionError" "Error connecting to Redis"), w)
  | None => (Raise (attribute_error VNone "brpop"), w)
  end.

Definition append_mock_queue (job : value) : M unit :=
  modify (fun w => set_queue w (job_queue w ++ [job])).

Definition _add_to_queue (job_data : gmap string value) : M unit :=
  try_except
    (w ← get;
     match redis_client w with
     | Some _ =>
         lpush (json_dumps (dict_value job_data));;
         lift (Db.lookup_key job_data "id");;
         mret tt
     | None =>
         append_mock_queue (dict_value job_data);;
         lift (Db.lookup_key job_data "id");;
         mret tt
     end)
    (fun _ => append_mock_queue (dict_value job_data)).

(** [await self.db_client.create_generation_job(job_data)] *)
Definition db_create (db : Db.client) (job_data : gmap string value) : M unit := fun w =>
  let '(r, db') := Db.create_generation_job db job_data in
  (match r with Ok _ => Ok tt | Raise e => Raise e end, set_db w (Some db')).

(** [await self.db_client.update_generation_job(job_id, updates)] *)
Definition db_update (db : Db.client) (job_id : value) (updates : gmap string value)
    : M bool := fun w =>
  let '(ok, db') := Db.update_generation_job db job_id updates in
  (Ok ok, set_db w (Some db')).

Definition new_job_data (job_id now : string)
    (job_type persona_ids prompt parameters : value) : gmap string value :=
  <["id" := VStr job_id]> (<["type" := job_type]> (<["persona_ids" := persona_ids]>
 (<["prompt" := prompt]> (<["parameters" := parameters]> (<["status" := VStr "queued"]>
 (<["created_at" := VStr now]> (<["worker_id" := VNone]> (<["progress" := VInt 0]>
 (<["current_step" := VStr "queued"]> (<["result_url" := VNone]>
 (<["error_message" := VNone]> ∅))))))))))).

Definition queue_generation_job (job_type persona_ids prompt parameters : value)
    : M string :=
  job_id ← read_uuid;
  now ← read_clock;
  let job_data := new_job_data job_id now job_type persona_ids prompt parameters in
  w ← get;
  match db_client w with
  | Some db => try_except (db_create db job_data) (fun _ => mret tt)
  | None => mret tt
  end;;
  _add_to_queue job_data;;
  mret job_id.

Definition _get_from_redis_queue : M (option value) :=
  try_except
    (w ← get;
     match redis_client w with
     | Some _ =>
         job_json ← brpop;
         match job_json with
         | Some s => job ← lift (json_loads s); mret (Some job)
         | None => mret None
         end
     | None => mret None
     end)
    (fun _ => mret None).

(** [if self.job_queue: return self.job_queue.pop(0)], else [None]. *)
Definition pop_mock_queue : M (option value) := fun w =>
  match job_queue w with
  | job :: rest => (Ok (Some job), set_queue w rest)
  | [] => (Ok None, w)
  end.

Definition _get_next_job : M (option value) :=
  try_except
    (w ← get;
     job_data ← match redis_client w with
                | Some _ => _get_from_redis_queue
                | None => mret None
                end;
     match job_data with
     | Some job => if truthy job then mret (Some job) else pop_mock_queue
     | None => pop_mock_queue
     end)
    (fun _ => mret None).

(** The [updates] dictionary of [_update_job_status]. *)
Definition build_updates (worker now status : string) (progress : Z)
    (current_step : string) (result_url : value)
    (result_data : option (gmap string value)) (error_message : value)
    : gmap string value :=
  let base :=
    <["status" := VStr status]> (<["progress" := VInt progress]>
   (<["current_step" := VStr current_step]> (<["updated_at" := VStr now]>
   (<["worker_id" := VStr worker]> ∅)))) in
  let with_url := if truthy result_url then <["result_url" := result_url]> base else base in
  let with_data :=
    match result_data with
    | Some d => if bool_decide (d = ∅) then with_url
                else <["result_data" := dict_value d]> with_url
    | None => with_url
    end in
  if truthy error_message then <["error_message" := error_message]> with_data
  else with_data.

Definition _update_job_status (job_id : value) (status : string) (progress : Z)
    (current_step : string) (result_url : value)
    (result_data : option (gmap string value)) (error_message : value) : M unit :=
  try_except
    (now ← read_clock;
     w ← get;
     let updates := build_updates (worker_id w) now status progress current_step
                      result_url result_data error_message in
     modify (fun w => log_write w (job_id, updates));;
     match db_client w with
     | Some db => db_update db job_id updates;; mret tt
     | None => mret tt
     end)
    (fun _ => mret tt).

(** The call
    [self.video_client.generate_video(script=..., provider=..., quality=..., **parameters)].
    A key of [parameters] that repeats a keyword of the call is a
    [TypeError] at the call site, for the first such key; after that a key
    [self] meets the bound receiver when the arguments are bound.
    Otherwise [format] and the remaining [kwargs] are what the router
    receives. *)
Fixpoint duplicate_keyword (kvs : list (string * value)) : option string :=
  match kvs with
  | [] => None
  | (k, _) :: rest =>
      if bool_decide (k ∈ ["script"; "provider"; "quality"]) then Some k
      else duplicate_keyword rest
  end.

Definition keyword_error (k : string) : exn :=
  type_error (callee_str "UnifiedVideoClient.generate_video"
              +:+ " got multiple values for keyword argument '" +:+ k +:+ "'").

Definition receiver_error : exn :=
  type_error (function_str "UnifiedVideoClient.generate_video"
              +:+ " got multiple values for argument 'self'").

Definition merge_keywords (kvs : list (string * value))
    : res (value * gmap string value) :=
  match duplicate_keyword kvs with
  | Some k => Raise (keyword_error k)
  | None =>
      if assoc_has kvs "self" then Raise receiver_error
      else
        Ok (default (VStr "mp4") (assoc_get kvs "format"),
            list_to_map (filter (fun kv => negb (String.eqb (fst kv) "format") = true) kvs))
  end.

Definition build_script (prompt duration persona_ids : value) : gmap string value :=
  <["prompt" := prompt]>
 (<["scenes" := VList [VDict [("description", prompt); ("duration", duration)]]]>
 (<["duration" := duration]> (<["persona_ids" := persona_ids]> ∅))).

(** [if not self.video_client:] import the router and construct one. *)
Definition ensure_video_client : M unit :=
  w ← get;
  match video_client w with
  | Some _ => mret tt
  | None =>
      client ← lift import_video_client;
      modify (fun w => set_video w (Some client))
  end.

(** [await self.video_client.generate_video(script=script, provider=None,
    quality="hd", format=format, **kwargs)], the call as the merge of the
    keywords leaves it. *)
Definition call_video_client (script : gmap string value) (format : value)
    (kwargs : gmap string value) : M (gmap string value) :=
  w ← get;
  match video_client w with
  | Some client =>
      lift (Router.generate_video client script None (VStr "hd") format kwargs)
  | None => raise (attribute_error VNone "generate_video")
  end.

Definition _process_video_job (job : value) : M (gmap string value) :=
  ensure_video_client;;
  prompt ← lift (getitem job "prompt");
  parameters ← lift (getitem job "parameters");
  duration ← lift (get_method parameters "duration" (VInt 30));
  persona_ids ← lift (getitem job "persona_ids");
  let script := build_script prompt duration persona_ids in
  job_id ← lift (getitem job "id");
  _update_job_status job_id "processing" 30 "Generating video" VNone None VNone;;
  '(format, kwargs) ← lift (match parameters with
                            | VDict kvs => merge_keywords kvs
                            | _ => Raise (attribute_error parameters "get")
                            end);
  result ← call_video_client script format kwargs;
  job_id ← lift (getitem job "id");
  _update_job_status job_id "processing" 90 "Finalizing" VNone None VNone;;
  mret result.

(** The [try] block of [_process_job]. *)
Definition process_attempt (job job_id job_type : value) : M unit :=
  _update_job_status job_id "processing" 10 "Starting generation" VNone None VNone;;
  result ← (if is_str job_type "video" then _process_video_job job
            else raise (Exn "ValueError" ("Unknown job type: " +:+ py_str job_type)));
  if Router.result_success result
  then _update_job_status job_id "completed" 100 "Generation completed"
         (default VNone (result !! "video_url")) (Some result) VNone
  else _update_job_status job_id "failed" 0 "Generation failed" VNone None
         (default (VStr "Unknown error") (result !! "error")).

Definition _process_job (job : value) : M unit :=
  job_id ← lift (getitem job "id");
  job_type ← lift (getitem job "type");
  try_except
    (process_attempt job job_id job_type)
    (fun e => _update_job_status job_id "failed" 0 "Processing error" VNone None
                (VStr (exn_msg e))).

(** One turn of the [while self.is_running] loop of [start_worker]; the
    two [asyncio.sleep] calls leave the state as it is. *)
Definition worker_iteration : M unit :=
  try_except
    (job ← _get_next_job;
     match job with
     | Some j => if truthy j then _process_job j else mret tt
     | None => mret tt
     end)
    (fun _ => mret tt).

(** How a bounded run of the loop ended: the condition [self.is_running]
    was found false, or the turns allowed were used up with the loop
    still running. *)
Inductive loop_end : Type := Stopped | StillRunning.

Fixpoint worker_loop (turns : nat) : M loop_end :=
  match turns with
  | O => w ← get; mret (if is_running w then StillRunning else Stopped)
  | S n =>
      w ← get;
      if is_running w then worker_iteration;; worker_loop n else mret Stopped
  end.

Definition start_worker (turns : nat) : M loop_end :=
  modify (fun w => set_running w true);; worker_loop turns.

Definition stop_worker : M unit := modify (fun w => set_running w false).

(** [await self.db_client.get_generation_job(job_id)]; the mock
    database reads the clock. *)
Definition db_get (db : Db.client) (job_id : value)
    : M (option (gmap string value)) := fun w =>
  let '(r, db') := Db.get_generation_job db job_id (utcnow (clock_reads w)) in
  (Ok r, match Db.connection db with
         | Some _ => set_db w (Some db')
         | None => tick_clock w
         end).

Definition mock_status (job_id : string) : gmap string value :=
  <["id" := VStr job_id]> (<["status" := VStr "completed"]> (<["progress" := VInt 100]>
 (<["current_step" := VStr "completed"]>
 (<["result_url" := VStr ("https://mock-results.com/" +:+ job_id +:+ ".mp4")]> ∅)))).

Definition get_job_status (job_id : string) : M (option (gmap string value)) :=
  try_except
    (w ← get;
     match db_client w with
     | Some db => db_get db (VStr job_id)
     | None => mret (Some (mock_status job_id))
     end)
    (fun _ => mret None).

Definition cancel_job (job_id : string) : M bool :=
  try_except
    (w ← get;
     match db_client w with
     | Some db =>
         now ← read_clock;
         db_update db (VStr job_id)
           (<["status" := VStr "cancelled"]> (<["current_step" := VStr "cancelled"]>
           (<["updated_at" := VStr now]> ∅)));;
         mret true
     | None => mret true
     end)
    (fun _ => mret false).

End WithHost.
End Worker.

(** ** [src/video_clients/velo_client.py]: decoding a provider response *)

(** What decoding takes from its host: [base64.b64decode], the file
    system ([store name bytes] is [false] when [open] or [write] raises)
    and the timestamp of [datetime.now()]. *)
Class Disk : Type := {
  b64decode : string -> Py.res string;
  store : string -> string -> bool;
  timestamp : string;
}.

Module Velo.
Import Py.

(** The first [Some] a loop body returns, with the exceptions it raises. *)
Fixpoint first_return {A} (body : value -> res (option A)) (xs : list value)
    : res (option A) :=
  match xs with
  | [] => Ok None
  | x :: rest =>
      r ← body x;
      match r with
      | Some a => Ok (Some a)
      | None => first_return body rest
      end
  end.

(** [if k1 in v: return v[k1]  elif k2 in v: return v[k2]] *)
Definition return_either (k1 k2 : string) (v : value) : res (option value) :=
  b1 ← py_in k1 v;
  if (b1 : bool) then Some <$> getitem v k1
  else b2 ← py_in k2 v;
       if (b2 : bool) then Some <$> getitem v k2 else Ok None.

Definition part_url (part : value) : res (option value) :=
  b1 ← py_in "videoUrl" part;
  if (b1 : bool) then Some <$> getitem part "videoUrl"
  else b2 ← py_in "fileData" part;
       if (b2 : bool)
       then file_data ← getitem part "fileData";
            Some <$> get_method file_data "fileUri" (VStr "")
       else Ok None.

Definition candidate_url (candidate : value) : res (option value) :=
  b ← py_in "content" candidate;
  if (b : bool)
  then content ← getitem candidate "content";
       parts ← get_method content "parts" (VList []);
       items ← iter parts;
       first_return part_url items
  else Ok None.

(** The [try] block of [_extract_video_url_from_response], up to the
    placeholder: [Ok (Some url)] when a [return] is reached. *)
Definition find_video_url (response : value) : res (option value) :=
  has_predictions ← py_in "predictions" response;
  found ← (if (has_predictions : bool)
           then predictions ← getitem response "predictions";
                items ← iter predictions;
                first_return (return_either "videoUrl" "video_uri") items
           else Ok None);
  match found with
  | Some url => Ok (Some url)
  | None =>
      has_candidates ← py_in "candidates" response;
      found ← (if (has_candidates : bool)
               then candidates ← getitem response "candidates";
                    items ← iter candidates;
                    first_return candidate_url items
               else Ok None);
      match found with
      | Some url => Ok (Some url)
      | None => return_either "videoUrl" "video_uri" response
      end
  end.

(** The placeholder built from [uuid.uuid4().hex]. *)
Definition placeholder_url (hex : string) : string :=
  "https://storage.googleapis.com/velo-generated-videos/"
  +:+ String.substring 0 12 hex +:+ ".mp4".

Definition _extract_video_url_from_response (response : value) (hex : string) : value :=
  match find_video_url response with
  | Ok (Some url) => url
  | Ok None => VStr (placeholder_url hex)
  | Raise _ => VStr (placeholder_url hex)
  end.

Section WithDisk.
Context `{Disk}.

(** The [try] block of [_save_video_from_response]. *)
Definition save_video (response : value) : res (option string) :=
  predictions ← get_method response "predictions" (VList []);
  if negb (truthy predictions) then Ok None
  else
    prediction ← getitem0 predictions;
    generated_samples ← get_method prediction "generatedSamples" (VList []);
    if negb (truthy generated_samples) then Ok None
    else
      sample ← getitem0 generated_samples;
      video_data ← get_method sample "video" (VDict []);
      base64_video ← get_method video_data "bytesBase64Encoded" VNone;
      if negb (truthy base64_video) then Ok None
      else
        video_bytes ← match base64_video with
                      | VStr s => b64decode s
                      | _ => Raise (type_error "argument should be a bytes-like object or ASCII string")
                      end;
        let filename := "veo_video_" +:+ timestamp +:+ ".mp4" in
        if store filename video_bytes then Ok (Some filename)
        else Raise (Exn "OSError" "cannot write the video file").

Definition _save_video_from_response (response : value) : option string :=
  match save_video response with
  | Ok r => r
  | Raise _ => None
  end.

(** The result dictionaries of [_call_velo_api]; [now] is [time.time()]
    and [video_hex] the [uuid4().hex] of the video id. *)
Definition common_fields (model_name : string) (script : gmap string value)
    (prompt : string) (now : value) : gmap string value :=
  <["success" := VBool true]> (<["provider" := VStr "velo"]>
 (<["model" := VStr model_name]>
 (<["duration" := default (VInt 8) (script !! "duration")]>
 (<["prompt" := VStr prompt]> (<["generated_at" := now]> ∅))))).

Definition video_id (video_hex : string) : value :=
  VStr ("velo_" +:+ String.substring 0 8 video_hex).

Definition is_list (v : value) : bool :=
  match v with VList _ => true | _ => false end.

(** The inline asset of a response, as [_call_velo_api] looks for it. *)
Definition inline_asset (result : value) : res (option string) :=
  has_predictions ← py_in "predictions" result;
  if (has_predictions : bool)
  then predictions ← getitem result "predictions";
       if is_list predictions
       then Ok (match _save_video_from_response result with
                | Some path => if str_truthy path then Some path else None
                | None => None
                end)
       else Ok None
  else Ok None.

(** [_call_velo_api] from [result = response.json()] on. *)
Definition decode_result (model_name : string) (script : gmap string value)
    (prompt : string) (now : value) (video_hex url_hex : string) (result : value)
    : res (gmap string value) :=
  asset ← inline_asset result;
  match asset with
  | Some video_path =>
      Ok (<["video_id" := video_id video_hex]> (<["video_path" := VStr video_path]>
            (common_fields model_name script prompt now)))
  | None =>
      has_name ← py_in "name" result;
      if (has_name : bool)
      then operation_id ← getitem result "name";
           Ok (<["status" := VStr "processing"]> (<["operation_id" := operation_id]>
              (<["message" := VStr "Video generation in progress. Use operation_id to check status."]>
                 (common_fields model_name script prompt now))))
      else
        let video_url := _extract_video_url_from_response result url_hex in
        Ok (<["video_id" := video_id video_hex]> (<["video_url" := video_url]>
           (<["api_response" := result]> (common_fields model_name script prompt now))))
  end.

End WithDisk.
End Velo.

(** ** [src/scripts/check_veo_operation.py]: polling an operation *)

Module VeoOp.
Import Py.

(** The environment variables the script reads. *)
Record environ : Type := Environ {
  GOOGLE_ACCESS_TOKEN : option string;
  VEO_MODEL : option string;
}.

Record request : Type := Request {
  url : string;
  authorization : string;
  operationName : string;
}.

(** An HTTP response: the status code, [response.json()] and
    [response.text]. *)
Record response : Type := Response {
  status_code : Z;
  json : res value;
  text : string;
}.

Definition model_name (env : environ) : string :=
  default "veo-3.1-generate-preview" (VEO_MODEL env).

Definition operation_name (operation_id : string) : string :=
  if contains "/operations/" operation_id
  then split_last "/operations/" operation_id
  else operation_id.

Definition full_operation_path (env : environ) (operation_id : string) : string :=
  if String.prefix "projects/" operation_id then operation_id
  else "projects/your-project-id/locations/us-central1/publishers/google/models/"
       +:+ model_name env +:+ "/operations/" +:+ operation_id.

Definition fetch_url (env : environ) : string :=
  "https://us-central1-aiplatform.googleapis.com/v1/projects/your-project-id/locations/us-central1/publishers/google/models/"
  +:+ model_name env +:+ ":fetchPredictOperation".

(** The walk over a completed operation's [response]; only its
    exceptions matter, the rest is printing and the saved file. *)
Definition inspect_sample (sample : value) : res unit :=
  video ← get_method sample "video" (VDict []);
  _ ← get_method video "uri" (VStr "");
  video' ← get_method sample "video" (VDict []);
  _ ← get_method video' "gcsUri" (VStr "");
  Ok tt.

Fixpoint for_each (body : value -> res unit) (xs : list value) : res unit :=
  match xs with
  | [] => Ok tt
  | x :: rest => body x;; for_each body rest
  end.

Definition inspect_prediction (pred : value) : res unit :=
  b ← py_in "generatedSamples" pred;
  if (b : bool)
  then samples ← getitem pred "generatedSamples";
       items ← iter samples;
       for_each inspect_sample items
  else Ok tt.

Definition inspect_done (result : value) : res unit :=
  has_response ← py_in "response" result;
  (if (has_response : bool)
   then response_data ← getitem result "response";
        predictions ← get_method response_data "predictions" (VList []);
        items ← iter predictions;
        for_each inspect_prediction items
   else Ok tt);;
  has_error ← py_in "error" result;
  (if (has_error : bool) then getitem result "error";; Ok tt else Ok tt).

(** What the script makes of the response it ends up with: the parsed
    operation, or [None]. *)
Definition conclude (r : response) : option value :=
  if status_code r =? 200
  then match (result ← json r;
              done ← get_method result "done" (VBool false);
              (if truthy done then inspect_done result
               else py_in "metadata" result;; Ok tt);;
              Ok result) with
       | Ok result => Some result
       | Raise _ => None
       end
  else None.

(** The outcome of a run: the value returned, the requests sent (oldest
    first) and the service afterwards. *)
Record run (service : Type) : Type := Run {
  returned : option value;
  sent : list request;
  service_after : service;
}.
Arguments Run {service}.
Arguments returned {service}.
Arguments sent {service}.
Arguments service_after {service}.

Section WithService.
(** The remote service: [post s req] is the outcome of
    [await client.post(...)] in state [s], a response or a transport
    exception, and the state afterwards. *)
Context {service : Type} (post : service -> request -> res response * service).

Definition check_operation_status (env : environ) (s : service)
    (operation_id : string) : run service :=
  match GOOGLE_ACCESS_TOKEN env with
  | None => Run None [] s
  | Some access_token =>
      if negb (str_truthy access_token) then Run None [] s
      else
        let req name := Request (fetch_url env) ("Bearer " +:+ access_token) name in
        let first := req (full_operation_path env operation_id) in
        match post s first with
        | (Raise _, s1) => Run None [first] s1
        | (Ok r1, s1) =>
            if status_code r1 =? 404
            then
              let second := req (operation_name operation_id) in
              match post s1 second with
              | (Raise _, s2) => Run None [first; second] s2
              | (Ok r2, s2) => Run (conclude r2) [first; second] s2
              end
            else Run (conclude r1) [first] s1
        end
  end.

End WithService.
End VeoOp.

(** ** [src/storage/db.py]: the persona records *)

Module Personas.
Import Py.

(** [DatabaseClient] as far as the [personas] table is concerned: the
    connection's [table] holds the persona rows. *)
Record client : Type := Client { connection : option Db.pg_connection }.

(** [cursor.execute("DELETE FROM personas WHERE id = %s")]; the flag is
    [false] when [execute] raises. *)
Definition execute_delete (c : Db.pg_connection) (persona_id : value)
    : bool * Db.pg_connection :=
  match Db.refused c ∅ (Some persona_id) with
  | Some c' => (false, c')
  | None =>
      (true, Db.set_table c
               (filter (fun row => Db.has_id persona_id row = false) (Db.table c)))
  end.

Section WithJson.
Context `{Json}.

(** The row [create_persona] inserts; [now] is the ISO text of
    [datetime.utcnow()], the timestamp that is the default of
    [created_at]. *)
Definition insert_row (persona_data : gmap string value) (now : string)
    : res (gmap string value) :=
  id ← Db.lookup_key persona_data "id";
  name ← Db.lookup_key persona_data "name";
  Ok (<["id" := id]> (<["name" := name]>
     (<["description" := default (VStr "") (persona_data !! "description")]>
     (<["consent_status" := default (VStr "pending") (persona_data !! "consent_status")]>
     (<["created_at" := default (VDatetime now) (persona_data !! "created_at")]>
     (<["metadata" := VStr (json_dumps (default (VDict []) (persona_data !! "metadata")))]>
        ∅)))))).

(** [create_persona]: the exception is re-raised to the caller. *)
Definition create_persona (self : client) (persona_data : gmap string value)
    (now : string) : res value * client :=
  match connection self with
  | Some c =>
      match insert_row persona_data now with
      | Ok row =>
          let '(ok, c') := Db.execute_insert c row in
          (if ok then Db.lookup_key persona_data "id"
           else Raise (Exn "Error" "database error"),
           Client (Some c'))
      | Raise e => (Raise e, self)
      end
  | None => (Db.lookup_key persona_data "id", self)
  end.

(** [_format_persona_result], reading the columns the source assumes
    ([id, name, description, consent_status, created_at, metadata]) by
    name. *)
Definition _format_persona_result (row : gmap string value) : res (gmap string value) :=
  created ← Db.isoformat_or_none (Db.cell row "created_at");
  metadata ← Db.loads_or (Db.cell row "metadata") (VDict []);
  Ok (<["id" := Db.cell row "id"]> (<["name" := Db.cell row "name"]>
     (<["description" := Db.cell row "description"]>
     (<["consent_status" := Db.cell row "consent_status"]>
     (<["created_at" := created]> (<["metadata" := metadata]> ∅)))))).

(** [_generate_mock_persona]; [now] is [datetime.utcnow().isoformat()]. *)
Definition _generate_mock_persona (persona_id now : string) : gmap string value :=
  <["id" := VStr persona_id]> (<["name" := VStr ("Mock Persona " +:+ persona_id)]>
 (<["description" := VStr "A mock persona for testing"]>
 (<["consent_status" := VStr "approved"]> (<["created_at" := VStr now]>
 (<["metadata" := VDict [("files", VList []); ("embeddings_generated", VBool true)]]>
    ∅))))).

Definition get_persona (self : client) (persona_id now : string)
    : option (gmap string value) * client :=
  match connection self with
  | Some c =>
      let '(r, c') := Db.execute_select c (VStr persona_id) in
      (match r with
       | Ok (Some row) =>
           match _format_persona_result row with
           | Ok persona => Some persona
           | Raise _ => None
           end
       | _ => None
       end, Client (Some c'))
  | None => (Some (_generate_mock_persona persona_id now), self)
  end.

(** The parameters [update_persona] binds: [json.dumps] for [metadata]. *)
Definition bind_update (key : string) (v : value) : value :=
  if String.eqb key "metadata" then VStr (json_dumps v) else v.

Definition update_persona (self : client) (persona_id : string)
    (updates : gmap string value) : bool * client :=
  match connection self with
  | Some c =>
      let '(ok, c') :=
        Db.execute_update c (map_imap (fun k v => Some (bind_update k v)) updates)
          (VStr persona_id) in
      (ok, Client (Some c'))
  | None => (true, self)
  end.

Definition delete_persona (self : client) (persona_id : string) : bool * client :=
  match connection self with
  | Some c =>
      let '(ok, c') := execute_delete c (VStr persona_id) in
      (ok, Client (Some c'))
  | None => (true, self)
  end.

End WithJson.
End Personas.

(** ** [src/scripts/api/core_api.py]: the job endpoints *)

(** [str(e)] of an [HTTPException], which the web framework defines. *)
Class Web : Type := {
  http_exception_str : Z -> string -> string;
}.

Module Api.
Import Py.

Record VideoGenerationRequest : Type := Request {
  persona_ids : list string;
  prompt : string;
  provider : option string;
  quality : string;
  duration : Z;
}.

(** What an endpoint answers: the body returned, or the [HTTPException]
    raised. *)
Inductive reply : Type :=
| Reply (body : gmap string value)
| HTTPException (status_code : Z) (detail : string).

Definition optional (o : option string) : value :=
  match o with Some s => VStr s | None => VNone end.

(** The [parameters] dictionary the endpoint builds. *)
Definition job_parameters (request : VideoGenerationRequest) : value :=
  VDict [("provider", optional (provider request));
         ("quality", VStr (quality request));
         ("duration", VInt (duration request))].

Section WithHost.
Context `{Json} `{Host} `{Web}.

(** [POST /generate/video] *)
Definition generate_video (request : VideoGenerationRequest) (w : Worker.t)
    : reply * Worker.t :=
  match Worker.queue_generation_job (VStr "video")
          (VList (map VStr (persona_ids request))) (VStr (prompt request))
          (job_parameters request) w with
  | (Ok job_id, w') =>
      (Reply (<["job_id" := VStr job_id]> (<["status" := VStr "queued"]>
             (<["message" := VStr "Video generation job queued successfully"]> ∅))), w')
  | (Raise e, w') => (HTTPException 500 (exn_msg e), w')
  end.

(** [GET /generate/jobs/{job_id}] *)
Definition get_job_status (job_id : string) (w : Worker.t) : reply * Worker.t :=
  match Worker.get_job_status job_id w with
  | (Ok (Some status), w') =>
      if bool_decide (status = ∅) then (HTTPException 404 "Job not found", w')
      else (Reply status, w')
  | (Ok None, w') => (HTTPException 404 "Job not found", w')
  | (Raise e, w') => (HTTPException 500 (exn_msg e), w')
  end.

(** [DELETE /generate/jobs/{job_id}]; the [HTTPException] raised inside
    the [try] is caught by [except Exception] and wrapped again. *)
Definition cancel_job (job_id : string) (w : Worker.t) : reply * Worker.t :=
  match Worker.cancel_job job_id w with
  | (Ok true, w') => (Reply (<["message" := VStr "Job cancelled successfully"]> ∅), w')
  | (Ok false, w') =>
      (HTTPException 500 (http_exception_str 500 "Failed to cancel job"), w')
  | (Raise e, w') => (HTTPException 500 (exn_msg e), w')
  end.

End WithHost.
End Api.

(** ** [src/generate_video.py]: the command line *)

Module Cli.
Import Py.

(** The id printed after "Check status with":
    [operation_id.split('/')[-1] if '/' in operation_id else operation_id]. *)
Definition short_id (operation_id : value) : res value :=
  has_slash ← py_in "/" operation_id;
  if (has_slash : bool)
  then match operation_id with
       | VStr s => Ok (VStr (split_last "/" s))
       | _ => Raise (attribute_error operation_id "split")
       end
  else Ok operation_id.

Section WithInterpreter.
Context `{Interpreter}.

(** [generate_video_from_prompt]: the result returned and the id printed,
    if one is; [client] is what [UnifiedVideoClient()] constructs. *)
Definition generate_video_from_prompt (client : Router.t) (prompt : string)
    (duration : value) : res (gmap string value * option value) :=
  let script := <["prompt" := VStr prompt]> (<["duration" := duration]> ∅) in
  result ← Router.generate_video client script (Some "velo") (VStr "hd") (VStr "mp4") ∅;
  if Router.result_success result
  then
    let operation_id := default VNone (result !! "operation_id") in
    if truthy operation_id
    then printed ← short_id operation_id; Ok (result, Some printed)
    else Ok (result, None)
  else Ok (result, None).

End WithInterpreter.
End Cli.

(** ** Concrete hosts, stores and providers *)

Module Scenario.
Import Py.

Definition quote : string := String (Ascii.ascii_of_nat 34) "".

Definition join (sep : string) (parts : list string) : string :=
  match parts with
  | [] => ""
  | p :: rest => fold_left (fun acc x => acc +:+ sep +:+ x) rest p
  end.

(** JSON text of a value (strings are not escaped, floats are printed as
    mantissa and exponent, a timestamp as its ISO text). *)
Fixpoint render (v : value) : string :=
  match v with
  | VNone => "null"
  | VBool b => if b then "true" else "false"
  | VInt n => pretty n
  | VFloat m e => pretty m +:+ "e" +:+ pretty e
  | VStr s => quote +:+ s +:+ quote
  | VList xs => "[" +:+ join ", " (map render xs) +:+ "]"
  | VDict kvs =>
      "{" +:+ join ", " (map (fun kv => quote +:+ fst kv +:+ quote +:+ ": " +:+ render (snd kv)) kvs)
      +:+ "}"
  | VDatetime iso => quote +:+ iso +:+ quote
  end.

Definition mock_sora : Router.provider_client :=
  Router.ProviderClient None (fun script _ =>
    Ok (<["success" := VBool true]> (<["provider" := VStr "sora"]>
       (<["video_url" := VStr "https://mock-openai-sora.com/videos/mock_sora_1.mp4"]> ∅)))).

Definition failing (msg : string) : Router.provider_client :=
  Router.ProviderClient (Some "key") (fun _ _ => Raise (Exn "RuntimeError" msg)).

Definition rejecting (msg : string) : Router.provider_client :=
  Router.ProviderClient (Some "key") (fun _ _ =>
    Ok (<["success" := VBool false]> (<["error" := VStr msg]>
       (<["provider" := VStr "velo"]> ∅)))).

Definition keyless_velo : Router.provider_client :=
  Router.ProviderClient None (fun _ _ =>
    Ok (<["success" := VBool true]> (<["provider" := VStr "velo"]>
       (<["video_url" := VStr "https://mock-velo-storage.googleapis.com/mock_velo_1.mp4"]> ∅)))).

(** The router [UnifiedVideoClient()] builds without credentials. *)
Definition mock_router : Router.t :=
  Router.UnifiedVideoClient "auto" [("sora", mock_sora); ("velo", keyless_velo)]
    ["velo"; "sora"].

(** Both providers raise. *)
Definition broken_router : Router.t :=
  Router.UnifiedVideoClient "auto"
    [("sora", failing "sora: service unavailable"); ("velo", failing "velo: quota exceeded")]
    ["velo"; "sora"].

(** Velo answers with a failure of its own. *)
Definition rejecting_router : Router.t :=
  Router.UnifiedVideoClient "auto"
    [("sora", mock_sora); ("velo", rejecting "Velo API error (429): quota exceeded")]
    ["velo"; "sora"].

Definition json : Json := {|
  json_dumps := render;
  json_loads := fun _ => Raise (Exn "JSONDecodeError" "Expecting value");
|}.

(** The worker's module as this repository lays it out: the relative
    import of the video clients does not resolve. *)
Definition host : Host := {|
  py_repr := render;
  uuid4 := fun n => "job-" +:+ pretty n;
  utcnow := fun n => "2025-01-01T00:00:0" +:+ pretty n;
  import_video_client :=
    Raise (Exn "ModuleNotFoundError" "No module named 'scripts.video_clients'");
|}.

(** CPython 3.11 with the router imported as
    [video_clients.unified_client]. *)
Definition interpreter : Interpreter := {|
  callee_str := fun f => "video_clients.unified_client." +:+ f +:+ "()";
  function_str := fun f => f +:+ "()";
|}.

(** A job table with the columns the worker writes; the driver adapts
    everything but dictionaries. *)
Definition job_columns : list string :=
  ["id"; "type"; "persona_ids"; "prompt"; "parameters"; "status"; "created_at";
   "progress"; "current_step"; "updated_at"; "worker_id"; "result_url";
   "result_data"; "error_message"].

Definition no_dicts (v : value) : bool :=
  match v with VDict _ => false | _ => true end.

(** A server for which every [UPDATE] that is not a list of assignments
    is a syntax error. *)
Definition syntax_errors (sets : gmap string value) (job_id : value)
    (rows : list (gmap string value)) : Db.verdict := Db.ServerError.

Definition cancelled_row : gmap string value :=
  <["id" := VStr "job-1"]> (<["type" := VStr "video"]> (<["status" := VStr "cancelled"]>
 (<["current_step" := VStr "cancelled"]> (<["progress" := VInt 30]> ∅)))).

Definition cancelled_store : Db.client :=
  Db.Client (Some (Db.PgConnection true false no_dicts job_columns [cancelled_row]
                     syntax_errors)).

Definition offline_store : Db.client :=
  Db.Client (Some (Db.PgConnection false false no_dicts job_columns [] syntax_errors)).

Definition late_failure : gmap string value :=
  Worker.build_updates "worker-1" "2025-01-01T00:00:09" "failed" 0 "Generation failed"
    VNone None (VStr "Velo API error (429): quota exceeded").

Definition idle_worker (r : option Worker.redis) (d : option Db.client)
    (v : option Router.t) : Worker.t :=
  Worker.GenerationWorker r d v false "worker-1" [] 0 0 [].

Definition lake_job (params : list (string * value)) : value :=
  VDict [("id", VStr "job-1"); ("type", VStr "video"); ("persona_ids", VList []);
         ("prompt", VStr "a calm lake at sunrise"); ("parameters", VDict params);
         ("status", VStr "queued")].

Definition disk : Disk := {|
  b64decode := fun s => Ok s;
  store := fun _ _ => true;
  timestamp := "20250101_000000";
|}.

(** A service that knows the operation [abc-123] under its short name
    only; its state counts the requests received. *)
Definition short_form_only (n : nat) (req : VeoOp.request)
    : res VeoOp.response * nat :=
  (Ok (if String.eqb (VeoOp.operationName req) "abc-123"
       then VeoOp.Response 200
              (Ok (VDict [("name", VStr "abc-123"); ("done", VBool false)])) "{}"
       else VeoOp.Response 404 (Raise (Exn "JSONDecodeError" "Expecting value"))
              "Not Found"),
   S n).

Definition token_env : VeoOp.environ := VeoOp.Environ (Some "ya29.token") None.

(** A worker fed from memory with one job as [core_api] submits them: the
    provider, quality and duration are all among the parameters. *)
Definition api_job : value :=
  lake_job [("provider", VNone); ("quality", VStr "hd"); ("duration", VInt 8)].

Definition busy_worker : Worker.t :=
  Worker.GenerationWorker None None (Some mock_router) true "worker-1" [api_job] 0 0 [].

Definition cancelled_connection : Db.pg_connection :=
  Db.PgConnection true false no_dicts job_columns [cancelled_row] syntax_errors.

Definition redis_down_worker : Worker.t :=
  idle_worker (Some (Worker.Redis false [])) None None.

Definition api_job_error : exn :=
  Exn "TypeError"
    "video_clients.unified_client.UnifiedVideoClient.generate_video() got multiple values for keyword argument 'provider'".

Definition dequeued_worker : Worker.t :=
  Worker.GenerationWorker None None (Some mock_router) true "worker-1" [] 0 0 [].

Definition offline_worker : Worker.t := idle_worker None (Some offline_store) None.

End Scenario.

(** ** Further stores, queues and responses *)

Module Cases.
Import Py Scenario.

Definition lake_personas : value := VList [VStr "persona_1"].
Definition lake_parameters : value := VDict [("duration", VInt 8)].

(** The record of the first submission on a fresh host. *)
Definition first_job : gmap string value :=
  Worker.new_job_data "job-0" "2025-01-01T00:00:00" (VStr "video") lake_personas
    (VStr "a calm lake at sunrise") lake_parameters.

(** The row [create_generation_job] inserts for it. *)
Definition first_row : gmap string value :=
  <["id" := VStr "job-0"]> (<["type" := VStr "video"]>
 (<["persona_ids" := VStr (render lake_personas)]>
 (<["prompt" := VStr "a calm lake at sunrise"]>
 (<["parameters" := VStr (render lake_parameters)]> (<["status" := VStr "queued"]>
 (<["created_at" := VStr "2025-01-01T00:00:00"]> ∅)))))).

(** The same submission with the creation time as a timestamp, and its
    row. *)
Definition stamped_job : gmap string value :=
  <["created_at" := VDatetime "2025-01-01T00:00:00"]> first_job.

Definition stamped_row : gmap string value :=
  <["created_at" := VDatetime "2025-01-01T00:00:00"]> first_row.

(** An item pushed to the Redis list by another client: it has no type. *)
Definition untyped_job : value := VDict [("id", VStr "job-3")].

(** A [json] module that reads back the texts it wrote for the values
    below and rejects every other text. *)
Definition known_values : list value :=
  [lake_personas; lake_parameters; VDict []; lake_job []; Worker.dict_value first_job;
   untyped_job].

Definition json : Json := {|
  json_dumps := render;
  json_loads := fun s =>
    match find (fun v => String.eqb (render v) s) known_values with
    | Some v => Ok v
    | None => Raise (Exn "JSONDecodeError" "Expecting value")
    end;
|}.

Definition web : Web := {|
  http_exception_str := fun code detail => pretty code +:+ ": " +:+ detail;
|}.

Definition completed_row : gmap string value :=
  <["id" := VStr "job-1"]> (<["type" := VStr "video"]> (<["status" := VStr "completed"]>
 (<["current_step" := VStr "Generation completed"]> (<["progress" := VInt 100]> ∅)))).

Definition running_row : gmap string value :=
  <["id" := VStr "job-2"]> (<["type" := VStr "video"]> (<["status" := VStr "processing"]>
 (<["current_step" := VStr "Generating video"]> (<["progress" := VInt 30]> ∅)))).

Definition completed_connection : Db.pg_connection :=
  Db.PgConnection true false no_dicts job_columns [completed_row] syntax_errors.

Definition two_jobs_connection : Db.pg_connection :=
  Db.PgConnection true false no_dicts job_columns [completed_row; running_row] syntax_errors.

(** A key that is no name: written into the statement it comments the
    [WHERE] clause out.  The server below runs what it is sent, so every
    row is rewritten. *)
Definition injected_key : string := "status = 'cancelled' --".

Definition unguarded (sets : gmap string value) (job_id : value)
    (rows : list (gmap string value)) : Db.verdict :=
  if bool_decide (dom sets = {[injected_key]})
  then Db.Applied (map (fun row => <["status" := VStr "cancelled"]> row) rows)
  else Db.ServerError.

Definition unguarded_connection : Db.pg_connection :=
  Db.PgConnection true false no_dicts job_columns [completed_row; running_row] unguarded.

Definition empty_connection : Db.pg_connection :=
  Db.PgConnection true false no_dicts job_columns [] syntax_errors.

Definition finished_worker : Worker.t :=
  idle_worker None (Some (Db.Client (Some completed_connection))) None.

Definition mock_database_worker : Worker.t :=
  idle_worker None (Some (Db.Client None)) None.

Definition progress_update : gmap string value :=
  Worker.build_updates "worker-1" "2025-01-01T00:00:05" "processing" 90 "Finalizing"
    VNone None VNone.


Definition untyped_redis_worker : Worker.t :=
  Worker.GenerationWorker (Some (Worker.Redis true [render untyped_job])) None
    (Some mock_router) true "worker-1" [] 0 0 [].

Definition garbled_redis_worker : Worker.t :=
  Worker.GenerationWorker (Some (Worker.Redis true ["{not json"])) None None false
    "worker-1" [lake_job []] 0 0 [].

Definition silent_redis_worker : Worker.t :=
  Worker.GenerationWorker (Some (Worker.Redis false [])) None None false
    "worker-1" [lake_job []] 0 0 [].

Definition lake_request : Api.VideoGenerationRequest :=
  Api.Request ["persona_1"] "a calm lake at sunrise" None "hd" 8.

(** Velo holds a key and raises; Sora answers. *)
Definition velo_down_router : Router.t :=
  Router.UnifiedVideoClient "auto"
    [("sora", mock_sora); ("velo", failing "velo: quota exceeded")] ["velo"; "sora"].

Definition sora_result : gmap string value :=
  <["success" := VBool true]> (<["provider" := VStr "sora"]>
 (<["video_url" := VStr "https://mock-openai-sora.com/videos/mock_sora_1.mp4"]> ∅)).

Definition velo_rejection : gmap string value :=
  <["success" := VBool false]> (<["error" := VStr "Velo API error (429): quota exceeded"]>
 (<["provider" := VStr "velo"]> ∅)).

(** An operation that finished with an error. *)
Definition failed_operation : list (string * value) :=
  [("name", VStr "abc-123"); ("done", VBool true);
   ("error", VDict [("code", VInt 3); ("message", VStr "Unsupported aspect ratio")])].

Definition operation_reply : list (string * value) :=
  [("name", VStr "projects/p1/locations/us-central1/publishers/google/models/veo/operations/abc-123")].

Definition inline_reply : list (string * value) :=
  [("predictions",
    VList [VDict [("generatedSamples",
                   VList [VDict [("video", VDict [("bytesBase64Encoded", VStr "AAAAIGZ0eXA=")])]])]]);
   ("name", VStr "operations/abc-123")].

Definition url_reply : list (string * value) :=
  [("videoUrl", VStr "https://storage.googleapis.com/bucket/lake.mp4")].

Definition persona_columns : list string :=
  ["id"; "name"; "description"; "consent_status"; "created_at"; "metadata"].

Definition ada : gmap string value :=
  <["id" := VStr "p-1"]> (<["name" := VStr "Ada"]> ∅).

Definition ada_row : gmap string value :=
  <["id" := VStr "p-1"]> (<["name" := VStr "Ada"]> (<["description" := VStr ""]>
 (<["consent_status" := VStr "rejected"]> ∅))).

Definition no_personas : Db.pg_connection :=
  Db.PgConnection true false no_dicts persona_columns [] syntax_errors.

Definition one_persona : Db.pg_connection :=
  Db.PgConnection true false no_dicts persona_columns [ada_row] syntax_errors.

Definition audio_job : value :=
  VDict [("id", VStr "job-7"); ("type", VStr "audio")].

End Cases.

(** * Statements *)

(** ** The job store applies every write it accepts *)

Section StoreStatements.
Context `{Json}.
Import Py.

(** The store accepts an update of [job_id]: the server answers, no failed
    transaction is pending, the table has the columns and the driver adapts
    the parameters. *)
Definition accepts (c : Db.pg_connection) (job_id : value)
    (updates : gmap string value) : Prop :=
  Db.online c = true ∧ Db.failed_tx c = false ∧ Db.adapts c job_id = true
  ∧ "id" ∈ Db.columns c
  ∧ map_Forall (fun k v => k ∈ Db.columns c ∧ Db.adapts c (Db.bind_update k v) = true)
               updates.

#[global] Instance accepts_dec c job_id updates : Decision (accepts c job_id updates).
Proof. unfold accepts. apply _. Defined.

(** The claim "cancellation is absorbing", at one store and one write. *)
Definition cancellation_absorbing (db : Db.client) (job_id : value)
    (updates : gmap string value) : Prop :=
  Db.job_status db job_id = Some (VStr "cancelled") →
  (updates !! "status" = Some (VStr "completed")
   ∨ updates !! "status" = Some (VStr "failed")) →
  Db.job_status (Db.update_generation_job db job_id updates).2 job_id
  = Some (VStr "cancelled").

(** The parameters [update_generation_job] binds for [updates]. *)
Definition bound (updates : gmap string value) : gmap string value :=
  map_imap (fun k v => Some (Db.bind_update k v)) updates.

End StoreStatements.

(** ** The worker *)

Section WorkerStatements.
Context `{Json} `{Host} `{Interpreter}.
Import Py Worker.

(** The worker after one [_update_job_status] call that built [updates]:
    the clock was read once, the write is in the history and the store, if
    there is one, was asked to apply it. *)
Definition after_write (w : t) (job_id : value) (updates : gmap string value) : t :=
  GenerationWorker (redis_client w)
    (match db_client w with
     | Some db => Some (Db.update_generation_job db job_id updates).2
     | None => None
     end)
    (video_client w) (is_running w) (worker_id w) (job_queue w) (uuid_reads w)
    (S (clock_reads w)) (status_writes w ++ [(job_id, updates)]).

(** The [updates] a status write builds in state [w]. *)
Definition status_update (w : t) (status : string) (progress : Z) (step : string)
    (url : value) (data : option (gmap string value)) (err : value) : gmap string value :=
  build_updates (worker_id w) (utcnow (clock_reads w)) status progress step url data err.

(** [if not self.video_client: self.video_client = UnifiedVideoClient()];
    the worker is left as it is when the import raises. *)
Definition with_video_client (w : t) : t :=
  match video_client w with
  | Some _ => w
  | None =>
      match import_video_client with
      | Ok client => set_video w (Some client)
      | Raise _ => w
      end
  end.

(** The worker after a write with status "processing". *)
Definition processing (w : t) (job_id : value) (progress : Z) (step : string) : t :=
  after_write w job_id (status_update w "processing" progress step VNone None VNone).

(** The status and the progress a write carries. *)
Definition summary (x : status_write) : option value * option value :=
  (x.2 !! "status", x.2 !! "progress").

Definition summaries (w : t) : list (option value * option value) :=
  map summary (status_writes w).

Definition wrote (status : string) (progress : Z) : option value * option value :=
  (Some (VStr status), Some (VInt progress)).

(** The worker after a write with status "failed"; its progress is 0. *)
Definition failed_with (w : t) (job_id : value) (step : string) (err : value) : t :=
  after_write w job_id (status_update w "failed" 0 step VNone None err).

(** The status writes of one [_process_job] call. *)
Definition attempt_outcomes : list (list (option value * option value)) :=
  [ [];
    [wrote "processing" 10; wrote "failed" 0];
    [wrote "processing" 10; wrote "processing" 30; wrote "failed" 0];
    [wrote "processing" 10; wrote "processing" 30; wrote "processing" 90; wrote "failed" 0];
    [wrote "processing" 10; wrote "processing" 30; wrote "processing" 90;
     wrote "completed" 100] ].

(** *** What a computation leaves alone *)

(** [m] never changes the component [proj] of the worker. *)
Definition keeps {A B} (proj : t → B) (m : M A) : Prop :=
  ∀ w, proj (m w).2 = proj w.

(** The queues and the running flag: what processing a job leaves alone. *)
Definition queue_side (w : t) : option redis * list value * bool :=
  (redis_client w, job_queue w, is_running w).

(** *** Enqueueing *)

(** The worker after [_add_to_queue]. *)
Definition enqueued (w : t) (job_data : gmap string value) : t :=
  match redis_client w with
  | Some r =>
      if reachable r
      then set_redis w (Some (Redis true (json_dumps (dict_value job_data)
                                           :: generation_queue r)))
      else set_queue w (job_queue w ++ [dict_value job_data])
  | None => set_queue w (job_queue w ++ [dict_value job_data])
  end.

(** The worker after the database step of [queue_generation_job]. *)
Definition saved (w : t) (job_data : gmap string value) : t :=
  let w' := tick_clock (tick_uuid w) in
  match db_client w with
  | Some db => set_db w' (Some (Db.create_generation_job db job_data).2)
  | None => w'
  end.

(** The job record a submission in state [w] builds. *)
Definition submitted (w : t) (job_type persona_ids prompt parameters : value)
    : gmap string value :=
  new_job_data (uuid4 (uuid_reads w)) (utcnow (clock_reads w))
    job_type persona_ids prompt parameters.

(** *** The claims about the worker *)

(** C2 as stated, at one worker and one submission. *)
Definition enqueue_fails_when_redis_is_down (w : t)
    (job_type persona_ids prompt parameters : value) : Prop :=
  (∃ r, redis_client w = Some r ∧ reachable r = false) →
  ∃ e, (queue_generation_job job_type persona_ids prompt parameters w).1 = Raise e.

(** The status writes [_process_job] adds to the history. *)
Definition new_writes (job : value) (w : t) : list status_write :=
  drop (length (status_writes w)) (status_writes (_process_job job w).2).

Definition int_of (v : option value) : option Z :=
  match v with Some (VInt n) => Some n | _ => None end.

(** The progress values of one attempt, in the order written. *)
Definition progress_written (job : value) (w : t) : list Z :=
  omap (fun x : status_write => int_of (x.2 !! "progress")) (new_writes job w).

Fixpoint non_decreasing (l : list Z) : bool :=
  match l with
  | a :: rest =>
      match rest with
      | b :: _ => (a <=? b) && non_decreasing rest
      | [] => true
      end
  | [] => true
  end.

(** C5 as stated, at one job and one worker. *)
Definition progress_never_drops (job : value) (w : t) : Prop :=
  non_decreasing (progress_written job w) = true.

(** C8 as stated, at one worker: whenever the job it dequeues raises
    while it is processed, the turn leaves a last status write that marks a
    job failed. *)
Definition raising_job_is_marked_failed (w0 : t) : Prop :=
  ∀ job w e w1,
    _get_next_job w0 = (Ok (Some job), w) →
    truthy job = true →
    _process_job job w = (Raise e, w1) →
    ∃ job_id u, last (status_writes (worker_iteration w0).2) = Some (job_id, u)
                ∧ u !! "status" = Some (VStr "failed").

(** The progress values written before the terminal Failed write. *)
Definition progress_before_failure (l : list (option value * option value)) : list Z :=
  omap (fun x : option value * option value =>
          if from_option (fun v => is_str v "failed") false x.1 then None else int_of x.2) l.

End WorkerStatements.

(** ** The router *)

Section RouterStatements.
Context `{Interpreter}.
Import Py Router.

(** A call that did not produce a video: it raised, or its result
    reports a failure. *)
Definition provider_failed (r : res (gmap string value)) : Prop :=
  match r with
  | Ok result => result_success result = false
  | Raise _ => True
  end.

(** C3 as stated, at one router and one call. *)
Definition unavailable_explicit_provider_fails (self : t) (script : gmap string value)
    (provider : string) (quality format : value) (kwargs : gmap string value) : Prop :=
  registered self provider = false →
  provider_failed (generate_video self script (Some provider) quality format kwargs).

(** The metadata [generate_video] adds to a provider's result. *)
Definition with_selection (self : t) (selected : string) (requested : option string)
    (result : gmap string value) : gmap string value :=
  <["provider_selection_reason" := VStr (_get_selection_reason self selected requested)]>
 (<["selected_provider" := VStr selected]>
 (<["unified_client_version" := VStr "1.0.0"]> result)).

(** Whether a string occurs in a value, at any depth. *)
Fixpoint value_mentions (s : string) (v : value) : bool :=
  match v with
  | VStr x => contains s x
  | VList xs => existsb (value_mentions s) xs
  | VDict kvs => existsb (fun kv => value_mentions s (snd kv)) kvs
  | _ => false
  end.

Definition result_mentions (result : gmap string value) (s : string) : bool :=
  existsb (fun kv : string * value => value_mentions s kv.2) (map_to_list result).

(** C4 as stated: the failure names each attempted provider and carries
    its error. *)
Definition failure_enumerates_errors (result : gmap string value)
    (attempts : list (string * string)) : Prop :=
  ∀ provider error, (provider, error) ∈ attempts →
    result_mentions result provider = true ∧ result_mentions result error = true.

(** The same at one call without a named provider. *)
Definition call_enumerates_errors (self : t) (script : gmap string value)
    (quality format : value) (kwargs : gmap string value)
    (attempts : list (string * string)) : Prop :=
  ∃ result, generate_video self script None quality format kwargs = Ok result
            ∧ failure_enumerates_errors result attempts.

End RouterStatements.

(** ** Decoding a provider response *)

Section DecodeStatements.
Context `{Disk}.
Import Py Velo.



End DecodeStatements.

(** ** Polling *)

Section PollStatements.
Context {service : Type} (post : service → VeoOp.request → Py.res VeoOp.response * service).
Import Py VeoOp.


End PollStatements.

(** ** Stores, queues and endpoints *)

Section JobStoreStatements.
Context `{Json} `{Host} `{Interpreter}.
Import Py Worker.

(** The [updates] of [cancel_job]; [now] is the clock reading. *)
Definition cancel_updates (now : string) : gmap string value :=
  <["status" := VStr "cancelled"]> (<["current_step" := VStr "cancelled"]>
 (<["updated_at" := VStr now]> ∅)).

(** The rows of the job table, none for the mock database. *)
Definition stored (db : Db.client) : list (gmap string value) :=
  match Db.connection db with
  | Some c => Db.table c
  | None => []
  end.

(** The store accepts the [INSERT] of [row]. *)
Definition accepts_insert (c : Db.pg_connection) (row : gmap string value) : Prop :=
  Db.online c = true ∧ Db.failed_tx c = false
  ∧ map_Forall (fun k v => k ∈ Db.columns c ∧ Db.adapts c v = true) row.

#[global] Instance accepts_insert_dec c row : Decision (accepts_insert c row).
Proof. unfold accepts_insert. apply _. Defined.

(** The keys of a job record as [get_generation_job] returns it. *)
Definition job_record_keys : gset string :=
  list_to_set ["id"; "type"; "persona_ids"; "prompt"; "parameters"; "status"; "created_at"].

(** [n] calls of [_get_next_job], one after the other: what each
    returned ([None] also for a call that raised) and the worker left. *)
Fixpoint take_jobs (n : nat) (w : t) : list (option value) * t :=
  match n with
  | O => ([], w)
  | S n =>
      let '(r, w') := _get_next_job w in
      let '(l, w'') := take_jobs n w' in
      (match r with Ok j => j | Raise _ => None end :: l, w'')
  end.

End JobStoreStatements.

(** ** Fallback and the command line *)

Section RoutingStatements.
Context `{Interpreter}.
Import Py Router.

(** The metadata [_try_fallback] adds to the result it returns. *)
Definition with_fallback (provider failed_provider : string) (result : gmap string value)
    : gmap string value :=
  <["provider_selection_reason" :=
      VStr ("Fallback to " +:+ provider +:+ " after " +:+ failed_provider +:+ " failed")]>
 (<["selected_provider" := VStr provider]>
 (<["original_provider" := VStr failed_provider]>
 (<["fallback_used" := VBool true]> result))).

(** The text [generate_video_from_prompt] prints for an operation id
    that is a string. *)
Definition printed_id (operation_id : string) : string :=
  if contains "/" operation_id then split_last "/" operation_id else operation_id.

End RoutingStatements.

(** * Proofs *)

(** ** The job store applies every write it accepts *)

Section StoreFacts.
Context `{Json}.
Import Py.

Lemma bound_lookup (updates : gmap string value) (k : string) :
  bound updates !! k = Db.bind_update k <$> updates !! k.
Proof.
  unfold bound. rewrite map_lookup_imap.
  by destruct (updates !! k).
Qed.

Lemma bound_empty (updates : gmap string value) :
  bound updates = ∅ → updates = ∅.
Proof.
  intros Hb. apply map_eq. intros k. rewrite lookup_empty.
  assert (Hk : bound updates !! k = None) by (rewrite Hb; apply lookup_empty).
  rewrite bound_lookup in Hk. by destruct (updates !! k).
Qed.

Lemma accepts_not_refused (c : Db.pg_connection) (job_id : value)
    (updates : gmap string value) :
  accepts c job_id updates → Db.refused c (bound updates) (Some job_id) = None.
Proof.
  intros (Hon & Htx & Hid & Hcol & Hall).
  unfold Db.refused, Db.all_adapted, Db.known_columns. simpl.
  rewrite Hon, Htx, Hid. simpl.
  rewrite bool_decide_eq_true_2; simpl.
  - rewrite bool_decide_eq_true_2; simpl.
    + by rewrite bool_decide_eq_true_2.
    + intros k v Hk. rewrite bound_lookup in Hk.
      destruct (updates !! k) as [u|] eqn:Hu; [|done]. by apply (Hall k u).
  - intros k v Hk. rewrite bound_lookup in Hk.
    destruct (updates !! k) as [u|] eqn:Hu; [|done].
    simpl in Hk. injection Hk as <-. by apply (Hall k u).
Qed.

Lemma accepts_plain_keys (c : Db.pg_connection) (job_id : value)
    (updates : gmap string value) :
  accepts c job_id updates → Db.plain_keys c (bound updates) = true.
Proof.
  intros (_ & _ & _ & _ & Hall). unfold Db.plain_keys.
  apply bool_decide_eq_true_2. intros k v Hk. rewrite bound_lookup in Hk.
  destruct (updates !! k) as [u|] eqn:Hu; [|done]. left. by apply (Hall k u).
Qed.

Lemma has_id_union (sets row : gmap string value) (job_id : value) :
  sets !! "id" = None → Db.has_id job_id (sets ∪ row) = Db.has_id job_id row.
Proof.
  intros Hs. unfold Db.has_id, Db.cell. by rewrite lookup_union_r.
Qed.

(** The rows of [job_id] after an [UPDATE] that leaves the [id] column
    alone are the rows it had, updated. *)
Lemma updated_rows (sets : gmap string value) (job_id : value)
    (rows : list (gmap string value)) :
  sets !! "id" = None →
  filter (fun row => Db.has_id job_id row = true)
         (map (fun row => if Db.has_id job_id row then sets ∪ row else row) rows)
  = map (fun row => sets ∪ row) (filter (fun row => Db.has_id job_id row = true) rows).
Proof.
  intros Hs. induction rows as [|row rows IH]; [done|].
  simpl. rewrite !filter_cons.
  destruct (Db.has_id job_id row) eqn:Hrow.
  - rewrite has_id_union by done. rewrite Hrow.
    destruct (decide (true = true)); [|done]. simpl. by rewrite IH.
  - rewrite Hrow. destruct (decide (false = true)); [done|]. by rewrite IH.
Qed.

(** An accepted write replaces the status, whatever it was. *)
Lemma accepted_write_sets_status (c : Db.pg_connection) (job_id st old : value)
    (updates : gmap string value) :
  accepts c job_id updates →
  Db.job_status (Db.Client (Some c)) job_id = Some old →
  updates !! "status" = Some st →
  updates !! "id" = None →
  (Db.update_generation_job (Db.Client (Some c)) job_id updates).1 = true
  ∧ Db.job_status (Db.update_generation_job (Db.Client (Some c)) job_id updates).2 job_id
    = Some st.
Proof.
  intros Hacc Hold Hst Hid.
  unfold Db.update_generation_job, Db.execute_update. simpl.
  fold (bound updates).
  rewrite (accepts_plain_keys _ _ _ Hacc), (accepts_not_refused _ _ _ Hacc).
  rewrite bool_decide_eq_false_2.
  2:{ intros Hb. apply bound_empty in Hb. by rewrite Hb, lookup_empty in Hst. }
  simpl. split; [done|].
  unfold Db.job_status in *. simpl in *.
  rewrite updated_rows by (rewrite bound_lookup, Hid; done).
  destruct (filter _ (Db.table c)) as [|row rest]; [done|]. simpl.
  f_equal. unfold Db.cell.
  rewrite (lookup_union_Some_l _ _ _ st); [done|].
  rewrite bound_lookup, Hst. done.
Qed.

(** C1 (as amended). [update_generation_job] has no guard on the stored
    status: a write the store accepts is applied to a Cancelled job like to
    any other, it returns [True] and the job's status becomes the one
    written, Completed and Failed included. *)
Theorem cancelled_job_is_overwritten (c : Db.pg_connection) (job_id st : value)
    (updates : gmap string value) :
  Db.job_status (Db.Client (Some c)) job_id = Some (VStr "cancelled") →
  accepts c job_id updates →
  updates !! "status" = Some st →
  updates !! "id" = None →
  (Db.update_generation_job (Db.Client (Some c)) job_id updates).1 = true
  ∧ Db.job_status (Db.update_generation_job (Db.Client (Some c)) job_id updates).2 job_id
    = Some st.
Proof.
  intros Hcancelled Hacc Hst Hid.
  by apply (accepted_write_sets_status c job_id st (VStr "cancelled")).
Qed.

End StoreFacts.

(** ** The worker *)

Section WorkerFacts.
Context `{Json} `{Host} `{Interpreter}.
Import Py Worker.

(** *** Status writes *)

(** [_update_job_status] never raises, whatever the store does. *)
Lemma update_job_status_eq job_id status progress step url data err w :
  _update_job_status job_id status progress step url data err w
  = (Ok tt, after_write w job_id (status_update w status progress step url data err)).
Proof.
  unfold _update_job_status, try_except, after_write, status_update, mbind, M_bind,
    read_clock, get, modify, mret, M_ret, db_update.
  simpl. destruct (db_client w) as [db|] eqn:Hdb; simpl.
  - destruct (Db.update_generation_job db job_id _) as [ok db'] eqn:Hup. simpl.
    unfold set_db, log_write, tick_clock. simpl. done.
  - unfold log_write, tick_clock. simpl. by rewrite Hdb.
Qed.

Lemma getitem_raise_msg (v : value) (k : string) (e : exn) :
  getitem v k = Raise e → exn_msg e ≠ "".
Proof.
  destruct v; simpl; try (intros [= <-]; done).
  destruct (assoc_get kvs k); intros [= <-]; done.
Qed.

Lemma get_method_raise_msg (v dflt : value) (k : string) (e : exn) :
  get_method v k dflt = Raise e → exn_msg e ≠ "".
Proof. destruct v; simpl; intros [= <-]; done. Qed.

Lemma append_not_empty (a b : string) : b ≠ "" → a +:+ b ≠ "".
Proof. intros Hb. destruct a; simpl; [done|discriminate]. Qed.

Lemma merge_keywords_raise_msg (kvs : list (string * value)) (e : exn) :
  merge_keywords kvs = Raise e → exn_msg e ≠ "".
Proof.
  unfold merge_keywords. destruct (duplicate_keyword kvs).
  - intros [= <-]. simpl. by apply append_not_empty.
  - destruct (assoc_has kvs "self"); [|done].
    intros [= <-]. simpl. by apply append_not_empty.
Qed.

Lemma generate_video_raise_msg (client : Router.t) (script : gmap string value)
    (provider : option string) (quality format : value) (kwargs : gmap string value)
    (e : exn) :
  Router.generate_video client script provider quality format kwargs = Raise e →
  exn_msg e ≠ "".
Proof.
  unfold Router.generate_video.
  destruct (Router._select_provider client provider) as [selected|]; [|done].
  destruct (negb (str_truthy selected)); [done|].
  destruct (Router.find_client _ selected) as [c|]; simpl.
  - destruct (Router.client_generate c script _); simpl; [done|].
    destruct provider; [done|].
    destruct (1 <? length (Router.providers client))%nat; [|done].
    unfold Router._try_fallback. destruct (kwargs !! "failed_provider").
    + intros [= <-]. simpl. by apply append_not_empty.
    + by destruct (Router.fallback_loop _ _ _ _ _ _ _).
  - destruct provider; [done|].
    destruct (1 <? length (Router.providers client))%nat; [|done].
    unfold Router._try_fallback. destruct (kwargs !! "failed_provider").
    + intros [= <-]. simpl. by apply append_not_empty.
    + by destruct (Router.fallback_loop _ _ _ _ _ _ _).
Qed.

(** The block that makes sure there is a video client: nothing happens
    when there is one, otherwise the outcome is that of the import. *)
Lemma ensure_video_client_eq (w : t) :
  ensure_video_client w
  = match video_client w, import_video_client with
    | None, Raise e => (Raise e, w)
    | _, _ => (Ok tt, with_video_client w)
    end.
Proof.
  unfold ensure_video_client, with_video_client, mbind, M_bind, get, lift, modify,
    mret, M_ret.
  destruct (video_client w); [done|]. by destruct import_video_client.
Qed.

Lemma video_client_after_ensure (w : t) :
  (ensure_video_client w).1 = Ok tt → video_client (with_video_client w) ≠ None.
Proof.
  rewrite ensure_video_client_eq. unfold with_video_client.
  destruct (video_client w) eqn:Hc; [by rewrite Hc|].
  destruct import_video_client; [done|]. by intros [=].
Qed.

Lemma process_video_job_cases (job : value) (w : t) (r : res (gmap string value)) (w' : t) :
  _process_video_job job w = (r, w') →
  (∃ e, r = Raise e ∧ w' = with_video_client w
        ∧ (exn_msg e ≠ "" ∨ (video_client w = None ∧ import_video_client = Raise e)))
  ∨ (∃ e job_id, r = Raise e ∧ exn_msg e ≠ "" ∧ getitem job "id" = Ok job_id
        ∧ w' = processing (with_video_client w) job_id 30 "Generating video")
  ∨ (∃ result job_id, r = Ok result ∧ getitem job "id" = Ok job_id
        ∧ w' = processing (processing (with_video_client w) job_id 30 "Generating video")
                 job_id 90 "Finalizing").
Proof.
  unfold _process_video_job. unfold mbind at 1, M_bind at 1.
  pose proof (video_client_after_ensure w) as Hclient.
  rewrite ensure_video_client_eq in *.
  destruct (video_client w) as [c0|] eqn:Hc0, import_video_client as [c1|e1] eqn:Himport;
    try (intros [= <- <-]; left; exists e1; split; [done|];
         split; [unfold with_video_client; by rewrite Hc0, Himport|by right]).
  all: specialize (Hclient eq_refl).
  all: unfold mbind, M_bind, lift, get, mret, M_ret, modify.
  all: destruct (getitem job "prompt") as [prompt|e] eqn:Hprompt;
    [|intros [= <- <-]; left; eauto 6 using getitem_raise_msg].
  all: destruct (getitem job "parameters") as [params|e] eqn:Hparams;
    [|intros [= <- <-]; left; eauto 6 using getitem_raise_msg].
  all: destruct (get_method params "duration" (VInt 30)) as [duration|e] eqn:Hduration;
    [|intros [= <- <-]; left; eauto 6 using get_method_raise_msg].
  all: destruct (getitem job "persona_ids") as [personas|e] eqn:Hpersonas;
    [|intros [= <- <-]; left; eauto 6 using getitem_raise_msg].
  all: destruct (getitem job "id") as [job_id|e] eqn:Hid;
    [|intros [= <- <-]; left; eauto 6 using getitem_raise_msg].
  all: rewrite update_job_status_eq.
  all: destruct (match params with
                 | VDict kvs => merge_keywords kvs
                 | _ => Raise (attribute_error params "get")
                 end) as [[format kwargs]|e] eqn:Hmerge;
    [|intros [= <- <-]; right; left; exists e, job_id; repeat split; try done;
      destruct params; try (injection Hmerge as <-; done);
      eauto using merge_keywords_raise_msg].
  all: unfold call_video_client, mbind, M_bind, get, lift, raise.
  all: fold (processing (with_video_client w) job_id 30 "Generating video").
  all: change (video_client (processing (with_video_client w) job_id 30 "Generating video"))
         with (video_client (with_video_client w)).
  all: destruct (video_client (with_video_client w)) as [client|]; [|done].
  all: destruct (Router.generate_video client _ _ _ _ _) as [result|e] eqn:Hcall;
    [|intros [= <- <-]; right; left; exists e, job_id;
      eauto using generate_video_raise_msg].
  all: rewrite update_job_status_eq; intros [= <- <-]; right; right; eauto.
Qed.

(** The [updates] of a status write always carry the status and the
    progress, and never the job id. *)
Lemma build_updates_lookup (worker now status step : string) (progress : Z)
    (url err : value) (data : option (gmap string value)) :
  let u := build_updates worker now status progress step url data err in
  u !! "status" = Some (VStr status) ∧ u !! "progress" = Some (VInt progress)
  ∧ u !! "id" = None
  ∧ u !! "error_message" = (if truthy err then Some err else None).
Proof.
  unfold build_updates.
  destruct (truthy url), data as [d|], (truthy err);
    try destruct (bool_decide (d = ∅)); simpl; by simplify_map_eq.
Qed.

Lemma summaries_after_write w job_id status progress step url data err :
  summaries (after_write w job_id (status_update w status progress step url data err))
  = (summaries w ++ [wrote status progress])%list.
Proof.
  unfold summaries, after_write. simpl. rewrite map_app. simpl. f_equal.
  unfold summary, wrote, status_update. simpl.
  destruct (build_updates_lookup (worker_id w) (utcnow (clock_reads w)) status step
              progress url err data) as (-> & -> & _). done.
Qed.

Lemma summaries_with_video_client w : summaries (with_video_client w) = summaries w.
Proof. unfold with_video_client. by destruct (video_client w), import_video_client. Qed.

Lemma process_attempt_cases (job job_id job_type : value) (w : t) (r : res unit) (w' : t) :
  getitem job "id" = Ok job_id →
  process_attempt job job_id job_type w = (r, w') →
  let w10 := processing w job_id 10 "Starting generation" in
  let w30 := processing (with_video_client w10) job_id 30 "Generating video" in
  let w90 := processing w30 job_id 90 "Finalizing" in
  (∃ e, r = Raise e
        ∧ (exn_msg e ≠ "" ∨ import_video_client = Raise e)
        ∧ (w' = w10 ∨ w' = with_video_client w10 ∨ w' = w30))
  ∨ (∃ result, r = Ok tt
        ∧ ((Router.result_success result = true
            ∧ w' = after_write w90 job_id
                     (status_update w90 "completed" 100 "Generation completed"
                        (default VNone (result !! "video_url")) (Some result) VNone))
           ∨ (Router.result_success result = false
              ∧ w' = failed_with w90 job_id "Generation failed"
                       (default (VStr "Unknown error") (result !! "error"))))).
Proof.
  intros Hid. unfold process_attempt, mbind, M_bind.
  rewrite update_job_status_eq. fold (processing w job_id 10 "Starting generation").
  destruct (is_str job_type "video").
  - destruct (_process_video_job job _) as [r1 w1] eqn:Hvideo.
    apply process_video_job_cases in Hvideo
      as [(e & -> & -> & He)|[(e & jid & -> & He & Hjid & ->)|(result & jid & -> & Hjid & ->)]].
    + intros [= <- <-]. left. exists e. split; [done|]. split; [|eauto].
      destruct He as [He|[_ He]]; eauto.
    + rewrite Hid in Hjid. injection Hjid as <-. intros [= <- <-]. left. eauto 10.
    + rewrite Hid in Hjid. injection Hjid as <-.
      destruct (Router.result_success result) eqn:Hsuccess;
        rewrite update_job_status_eq; intros [= <- <-]; right; exists result; eauto.
  - unfold raise. intros [= <- <-]. left. eexists. split; [done|].
    split; [left; done|]. eauto.
Qed.

Lemma process_job_raised (job job_id job_type : value) (w w1 : t) (e : exn) :
  getitem job "id" = Ok job_id →
  getitem job "type" = Ok job_type →
  process_attempt job job_id job_type w = (Raise e, w1) →
  _process_job job w = (Ok tt, failed_with w1 job_id "Processing error" (VStr (exn_msg e))).
Proof.
  intros Hid Hty Hraise. unfold _process_job, mbind, M_bind, lift, try_except.
  rewrite Hid, Hty, Hraise. by rewrite update_job_status_eq.
Qed.

Lemma process_job_trace (job : value) (w : t) :
  ∃ l, summaries (_process_job job w).2 = (summaries w ++ l)%list ∧ l ∈ attempt_outcomes.
Proof.
  unfold _process_job, mbind, M_bind, lift, try_except.
  destruct (getitem job "id") as [job_id|e] eqn:Hid.
  2:{ exists []. rewrite app_nil_r. split; [done|]. unfold attempt_outcomes. set_solver. }
  destruct (getitem job "type") as [job_type|e] eqn:Hty.
  2:{ exists []. rewrite app_nil_r. split; [done|]. unfold attempt_outcomes. set_solver. }
  destruct (process_attempt job job_id job_type w) as [r w1] eqn:Hattempt.
  apply (process_attempt_cases _ _ _ _ _ _ Hid) in Hattempt
    as [(e & -> & _ & Hw)|(result & -> & Hw)].
  - rewrite update_job_status_eq. simpl. rewrite summaries_after_write.
    destruct Hw as [->|[->| ->]]; unfold processing;
      rewrite ?summaries_after_write, ?summaries_with_video_client, ?summaries_after_write,
        <- ?app_assoc; simpl; eexists; (split; [reflexivity|]);
      unfold attempt_outcomes; set_solver.
  - destruct Hw as [(_ & ->)|(_ & ->)]; simpl; unfold failed_with, processing;
      rewrite ?summaries_after_write, ?summaries_with_video_client, ?summaries_after_write,
        <- ?app_assoc; simpl; eexists; (split; [reflexivity|]);
      unfold attempt_outcomes; set_solver.
Qed.

(** *** What a computation leaves alone *)

Lemma keeps_ret {A B} (proj : t → B) (a : A) : keeps proj (mret a).
Proof. done. Qed.

Lemma keeps_lift {A B} (proj : t → B) (r : res A) : keeps proj (lift r).
Proof. done. Qed.

Lemma keeps_raise {A B} (proj : t → B) (e : exn) : keeps proj (@raise A e).
Proof. done. Qed.

Lemma keeps_get {B} (proj : t → B) : keeps proj get.
Proof. done. Qed.

Lemma keeps_bind {A A' B} (proj : t → B) (m : M A) (k : A → M A') :
  keeps proj m → (∀ a, keeps proj (k a)) → keeps proj (m ≫= k).
Proof.
  intros Hm Hk w. unfold mbind, M_bind. specialize (Hm w).
  destruct (m w) as [[a|e] w']; simpl in *; [|done].
  by rewrite Hk.
Qed.

Lemma keeps_try {A B} (proj : t → B) (body : M A) (handler : exn → M A) :
  keeps proj body → (∀ e, keeps proj (handler e)) → keeps proj (try_except body handler).
Proof.
  intros Hm Hk w. unfold try_except. specialize (Hm w).
  destruct (body w) as [[a|e] w']; simpl in *; [done|].
  by rewrite Hk.
Qed.

Lemma keeps_modify {B} (proj : t → B) (f : t → t) :
  (∀ w, proj (f w) = proj w) → keeps proj (modify f).
Proof. intros Hf w. apply Hf. Qed.

Lemma keeps_update_job_status {B} (proj : t → B) job_id status progress step url data err :
  (∀ w d n l, proj (GenerationWorker (redis_client w) d (video_client w) (is_running w)
                      (worker_id w) (job_queue w) (uuid_reads w) n l) = proj w) →
  keeps proj (_update_job_status job_id status progress step url data err).
Proof. intros Hproj w. rewrite update_job_status_eq. apply Hproj. Qed.

Lemma queue_side_update_job_status job_id status progress step url data err :
  keeps queue_side (_update_job_status job_id status progress step url data err).
Proof. by apply keeps_update_job_status. Qed.

Lemma queue_side_process_video_job job : keeps queue_side (_process_video_job job).
Proof.
  intros w. destruct (_process_video_job job w) as [r w'] eqn:Hrun.
  apply process_video_job_cases in Hrun
    as [(e & _ & -> & _)|[(e & jid & _ & _ & _ & ->)|(result & jid & _ & _ & ->)]];
    simpl; unfold queue_side, with_video_client;
    by destruct (video_client w), import_video_client.
Qed.

Lemma queue_side_process_job job : keeps queue_side (_process_job job).
Proof.
  unfold _process_job, process_attempt.
  repeat first
    [ apply queue_side_update_job_status
    | apply queue_side_process_video_job
    | apply keeps_lift | apply keeps_ret | apply keeps_raise
    | apply keeps_bind; [|intros ?]
    | apply keeps_try; [|intros ?]
    | case_match ].
Qed.

Lemma running_get_next_job : keeps is_running _get_next_job.
Proof.
  assert (Hpop : keeps is_running pop_mock_queue).
  { intros w. unfold pop_mock_queue. by destruct (job_queue w). }
  assert (Hbrpop : keeps is_running brpop).
  { intros w. unfold brpop. destruct (redis_client w) as [r|]; [|done].
    destruct (reachable r); [|done]. by destruct (pop_tail _) as [[rest item]|]. }
  unfold _get_next_job, _get_from_redis_queue.
  repeat first
    [ apply Hpop | apply Hbrpop
    | apply keeps_lift | apply keeps_ret | apply keeps_get
    | apply keeps_bind; [|intros ?]
    | apply keeps_try; [|intros ?]
    | case_match ].
Qed.

(** A dequeue changes the two queues and nothing else. *)
Lemma keeps_get_next_job {B} (proj : t → B) :
  (∀ w r, proj (set_redis w r) = proj w) →
  (∀ w q, proj (set_queue w q) = proj w) →
  keeps proj _get_next_job.
Proof.
  intros Hredis Hqueue.
  assert (Hpop : keeps proj pop_mock_queue).
  { intros w. unfold pop_mock_queue. destruct (job_queue w); [done|apply Hqueue]. }
  assert (Hbrpop : keeps proj brpop).
  { intros w. unfold brpop. destruct (redis_client w) as [r|]; [|done].
    destruct (reachable r); [|done].
    destruct (pop_tail _) as [[rest item]|]; [apply Hredis|done]. }
  unfold _get_next_job, _get_from_redis_queue.
  repeat first
    [ apply Hpop | apply Hbrpop
    | apply keeps_lift | apply keeps_ret | apply keeps_get
    | apply keeps_bind; [|intros ?]
    | apply keeps_try; [|intros ?]
    | case_match ].
Qed.

Lemma writes_get_next_job : keeps status_writes _get_next_job.
Proof. by apply keeps_get_next_job. Qed.

Lemma worker_iteration_ok (w : t) :
  ∃ w', worker_iteration w = (Ok tt, w') ∧ is_running w' = is_running w.
Proof.
  assert (Hkeeps : keeps is_running worker_iteration).
  { unfold worker_iteration.
    apply keeps_try; [|intros ?; apply keeps_ret].
    apply keeps_bind; [apply running_get_next_job|].
    intros [job|]; [|apply keeps_ret].
    destruct (truthy job); [|apply keeps_ret].
    intros w0. pose proof (queue_side_process_job job w0) as Hq.
    unfold queue_side in Hq. by injection Hq. }
  specialize (Hkeeps w). unfold worker_iteration, try_except in *.
  match goal with
  | |- context [let (_, _) := ?run in _] => destruct run as [[[]|e] w']
  end; simpl in *; eauto.
Qed.

(** While nothing clears [is_running], the loop runs every turn it is
    given. *)
Lemma worker_loop_runs (turns : nat) (w : t) :
  is_running w = true →
  ∃ w', worker_loop turns w = (Ok StillRunning, w') ∧ is_running w' = true.
Proof.
  revert w. induction turns as [|n IH]; intros w Hrun; simpl;
    unfold mbind, M_bind, get; simpl; rewrite Hrun.
  - eauto.
  - destruct (worker_iteration_ok w) as (w' & -> & Hw'). simpl.
    apply IH. congruence.
Qed.

(** *** Enqueueing *)

(** [_add_to_queue] never raises, whatever Redis does. *)
Lemma add_to_queue_eq (job_data : gmap string value) (job_id : value) (w : t) :
  job_data !! "id" = Some job_id →
  _add_to_queue job_data w = (Ok tt, enqueued w job_data).
Proof.
  intros Hid.
  unfold _add_to_queue, enqueued, try_except, mbind, M_bind, get, lift, lpush,
    append_mock_queue, modify, mret, M_ret, Db.lookup_key.
  rewrite Hid. simpl.
  destruct (redis_client w) as [r|] eqn:Hredis; simpl; [|done].
  rewrite Hredis. by destruct (reachable r).
Qed.

Lemma queue_generation_job_eq (job_type persona_ids prompt parameters : value) (w : t) :
  let job_data := submitted w job_type persona_ids prompt parameters in
  queue_generation_job job_type persona_ids prompt parameters w
  = (Ok (uuid4 (uuid_reads w)), enqueued (saved w job_data) job_data).
Proof.
  intros job_data.
  assert (Hid : job_data !! "id" = Some (VStr (uuid4 (uuid_reads w)))) by done.
  unfold queue_generation_job, mbind, M_bind, read_uuid, read_clock, get, mret, M_ret,
    try_except, db_create.
  cbn -[_add_to_queue new_job_data]. fold (submitted w job_type persona_ids prompt parameters).
  fold job_data. unfold saved.
  destruct (db_client w) as [db|] eqn:Hdb; cbn -[_add_to_queue].
  - destruct (Db.create_generation_job db job_data) as [[v|e] db'];
      cbn -[_add_to_queue]; by rewrite (add_to_queue_eq _ _ _ Hid).
  - by rewrite (add_to_queue_eq _ _ _ Hid).
Qed.

Lemma refused_keeps_table (c c' : Db.pg_connection) (params : gmap string value)
    (job_id : option value) :
  Db.refused c params job_id = Some c' → Db.table c' = Db.table c.
Proof. unfold Db.refused. repeat case_match; intros [= <-]; done. Qed.


(** *** Draining the in-memory queue *)

Lemma get_next_job_from_memory (w : t) :
  redis_client w = None →
  _get_next_job w = (Ok (head (job_queue w)), set_queue w (tail (job_queue w))).
Proof.
  intros Hredis.
  unfold _get_next_job, try_except, mbind, M_bind, get, mret, M_ret, pop_mock_queue.
  rewrite Hredis. simpl.
  destruct w as [r d v run wid q u c l]. simpl in *. by destruct q.
Qed.

Lemma iteration_takes_one_job (w : t) :
  redis_client w = None →
  redis_client (worker_iteration w).2 = None
  ∧ job_queue (worker_iteration w).2 = tail (job_queue w).
Proof.
  intros Hredis. unfold worker_iteration, try_except, mbind, M_bind.
  rewrite (get_next_job_from_memory w Hredis).
  destruct (head (job_queue w)) as [job|]; simpl; [|done].
  destruct (truthy job); simpl; [|done].
  pose proof (queue_side_process_job job (set_queue w (tail (job_queue w)))) as Hq.
  unfold queue_side in Hq. simpl in Hq.
  destruct (_process_job job _) as [[[]|e] w']; simpl in *;
    injection Hq as Hr Hq _; by rewrite Hr, Hq.
Qed.

Lemma worker_loop_drains (turns : nat) (w : t) :
  is_running w = true → redis_client w = None →
  job_queue (worker_loop turns w).2 = drop turns (job_queue w).
Proof.
  revert w. induction turns as [|n IH]; intros w Hrun Hredis; simpl;
    unfold mbind, M_bind, get; simpl.
  - by rewrite drop_0.
  - rewrite Hrun.
    destruct (worker_iteration_ok w) as (w' & Hiter & Hw').
    destruct (iteration_takes_one_job w Hredis) as [Hr Hq].
    rewrite Hiter in *. simpl in *. rewrite IH by congruence.
    rewrite Hq. destruct (job_queue w); simpl; [by destruct n|done].
Qed.

(** *** Jobs as the queue holds them *)

Lemma assoc_get_elem_of (l : list (string * value)) (k : string) (v : value) :
  NoDup (l.*1) → assoc_get l k = Some v ↔ (k, v) ∈ l.
Proof.
  induction l as [|[k' v'] l IH]; simpl; intros Hnodup.
  - split; [done|]. intros Hin. by apply elem_of_nil in Hin.
  - apply NoDup_cons in Hnodup as [Hfresh Hnodup].
    destruct (String.eqb_spec k' k) as [->|Hne].
    + split.
      * intros [= ->]. apply elem_of_cons. by left.
      * intros Hin. apply elem_of_cons in Hin as [[= ->]|Hin]; [done|].
        destruct Hfresh. apply list_elem_of_fmap. by exists (k, v).
    + rewrite (IH Hnodup). split.
      * intros Hin. apply elem_of_cons. by right.
      * intros Hin. apply elem_of_cons in Hin as [[= -> ->]|Hin]; done.
Qed.

(** A dictionary stored as a value answers like the map it came from. *)
Lemma assoc_get_map_to_list (m : gmap string value) (k : string) :
  assoc_get (map_to_list m) k = m !! k.
Proof.
  destruct (m !! k) as [v|] eqn:Hm.
  - apply assoc_get_elem_of; [apply NoDup_fst_map_to_list|].
    by apply elem_of_map_to_list.
  - destruct (assoc_get (map_to_list m) k) as [v|] eqn:Hget; [|done].
    apply assoc_get_elem_of in Hget; [|apply NoDup_fst_map_to_list].
    apply elem_of_map_to_list in Hget. congruence.
Qed.

Lemma getitem_dict_value (m : gmap string value) (k : string) :
  getitem (dict_value m) k = Db.lookup_key m k.
Proof.
  unfold dict_value, Db.lookup_key. simpl. rewrite assoc_get_map_to_list.
  by destruct (m !! k).
Qed.

Lemma truthy_dict_value (m : gmap string value) (k : string) (v : value) :
  m !! k = Some v → truthy (dict_value m) = true.
Proof.
  intros Hk. unfold dict_value. simpl.
  destruct (map_to_list m) eqn:Hl; [|done].
  apply map_to_list_empty_iff in Hl. by rewrite Hl, lookup_empty in Hk.
Qed.


(** *** The claims about the worker *)

(** C2 (as amended). When [lpush] raises because Redis does not answer,
    [_add_to_queue] catches the exception and appends the job to the
    in-memory queue; the submission reports success (the new job id) and
    Redis holds nothing new. *)
Theorem unreachable_redis_falls_back_to_memory (w : t) (r : redis)
    (job_type persona_ids prompt parameters : value) :
  redis_client w = Some r →
  reachable r = false →
  (queue_generation_job job_type persona_ids prompt parameters w).1
  = Ok (uuid4 (uuid_reads w))
  ∧ job_queue (queue_generation_job job_type persona_ids prompt parameters w).2
    = (job_queue w
       ++ [dict_value (submitted w job_type persona_ids prompt parameters)])%list
  ∧ redis_client (queue_generation_job job_type persona_ids prompt parameters w).2
    = Some r.
Proof.
  intros Hredis Hdown. rewrite queue_generation_job_eq. simpl.
  unfold enqueued, saved.
  destruct (db_client w) as [db|]; simpl; rewrite Hredis, Hdown; simpl; by rewrite ?Hredis.
Qed.


(** C10. Without a database client [get_job_status] answers every job id,
    submitted or not, with the same fabricated record: status completed,
    progress 100 and a mock result URL; it never answers "not found". *)
Theorem status_without_database_is_fabricated (w : t) (job_id : string) :
  db_client w = None →
  get_job_status job_id w = (Ok (Some (mock_status job_id)), w)
  ∧ mock_status job_id !! "status" = Some (VStr "completed")
  ∧ mock_status job_id !! "progress" = Some (VInt 100)
  ∧ ∃ url, mock_status job_id !! "result_url" = Some (VStr url) ∧ url ≠ "".
Proof.
  intros Hdb. unfold get_job_status, try_except, mbind, M_bind, get. simpl.
  rewrite Hdb. simpl. repeat split; try done.
  eexists. split; [done|]. done.
Qed.

(** C5 (as amended). One call of [_process_job] writes one of five
    histories: nothing (the job has no id or type), or progress 10, then 30,
    then 90 while Processing and 100 with Completed, or such a prefix cut
    short by the terminal Failed write, which always carries progress 0.
    So the values are non-decreasing up to the terminal write, and through
    it when the attempt ends Completed. *)
Theorem attempt_progress_profile (job : value) (w : t) :
  map summary (new_writes job w) ∈ attempt_outcomes
  ∧ non_decreasing (progress_before_failure (map summary (new_writes job w))) = true
  ∧ ∀ x, x ∈ map summary (new_writes job w) →
         x.1 = Some (VStr "failed") → x.2 = Some (VInt 0).
Proof.
  destruct (process_job_trace job w) as (l & Hl & Hin).
  assert (Hnew : map summary (new_writes job w) = l).
  { unfold new_writes. rewrite <- skipn_map. fold (summaries (_process_job job w).2).
    rewrite Hl. unfold summaries.
    rewrite <- (length_map summary (status_writes w)). apply drop_app_length. }
  rewrite Hnew. split; [done|].
  unfold attempt_outcomes in Hin.
  repeat (apply elem_of_cons in Hin as [->|Hin]); [..|by apply elem_of_nil in Hin].
  all: split; [done|].
  all: intros x Hx; repeat (apply elem_of_cons in Hx as [->|Hx]);
    try (by apply elem_of_nil in Hx); simpl; done.
Qed.

(** C8 (as amended). A job taken from the queue whose processing raises
    never stops the worker, but it is marked failed only when the error
    arises inside the [try] block of [_process_job].  For a job that has an
    id and a type and whose attempt raises, the turn of the loop ends
    normally, its last status write marks the job failed with step
    "Processing error" and [str(e)] as the error message (no message is
    written only for the empty message of a failed import), and a store
    that accepts the write then shows the job as failed.  For a dequeued
    item without an id or without a type the lookups before the [try]
    raise: the loop swallows the error, no status is written and the item
    is gone.  In both cases the loop goes on for every further turn it is
    given, and no turn, whatever it dequeues, ends the loop. *)
Theorem failed_job_does_not_stop_the_worker (w0 w : t) (job : value) :
  is_running w0 = true →
  _get_next_job w0 = (Ok (Some job), w) →
  truthy job = true →
  (∀ job_id job_type e w1,
     getitem job "id" = Ok job_id →
     getitem job "type" = Ok job_type →
     process_attempt job job_id job_type w = (Raise e, w1) →
     let u := status_update w1 "failed" 0 "Processing error" VNone None
                (VStr (exn_msg e)) in
     let w2 := after_write w1 job_id u in
     worker_iteration w0 = (Ok tt, w2)
     ∧ last (status_writes w2) = Some (job_id, u)
     ∧ u !! "status" = Some (VStr "failed")
     ∧ u !! "progress" = Some (VInt 0)
     ∧ (u !! "error_message" = Some (VStr (exn_msg e))
        ∨ (import_video_client = Raise e ∧ exn_msg e = ""
           ∧ u !! "error_message" = None))
     ∧ (∀ c old, db_client w1 = Some (Db.Client (Some c)) →
                 accepts c job_id u →
                 Db.job_status (Db.Client (Some c)) job_id = Some old →
                 ∃ db', db_client w2 = Some db'
                        ∧ Db.job_status db' job_id = Some (VStr "failed")))
  ∧ (∀ e,
       getitem job "id" = Raise e
       ∨ (∃ job_id, getitem job "id" = Ok job_id ∧ getitem job "type" = Raise e) →
       _process_job job w = (Raise e, w)
       ∧ worker_iteration w0 = (Ok tt, w)
       ∧ status_writes w = status_writes w0
       ∧ db_client w = db_client w0)
  ∧ (∀ turns,
       worker_loop (S turns) w0 = worker_loop turns (worker_iteration w0).2
       ∧ (worker_loop (S turns) w0).1 = Ok StillRunning
       ∧ (redis_client w0 = None →
          job_queue (worker_loop (S turns) w0).2 = drop (S turns) (job_queue w0)))
  ∧ ∀ w' turns, is_running w' = true → (worker_loop turns w').1 = Ok StillRunning.
Proof.
  intros Hrun Hnext Htruthy.
  split; [|split; [|split]].
  - intros job_id job_type e w1 Hid Hty Hraise u w2.
    assert (Hmsg : exn_msg e ≠ "" ∨ import_video_client = Raise e).
    { apply (process_attempt_cases _ _ _ _ _ _ Hid) in Hraise
        as [(e' & [= <-] & He & _)|(result & [=] & _)]. done. }
    assert (Hiter : worker_iteration w0 = (Ok tt, w2)).
    { unfold worker_iteration, try_except, mbind, M_bind. rewrite Hnext, Htruthy.
      by rewrite (process_job_raised _ _ _ _ _ _ Hid Hty Hraise). }
    destruct (build_updates_lookup (worker_id w1) (utcnow (clock_reads w1)) "failed"
                "Processing error" 0 VNone (VStr (exn_msg e)) None)
      as (Hstatus & Hprogress & Hnoid & Herr).
    split; [done|]. split; [apply last_snoc|]. split; [done|]. split; [done|]. split.
    { unfold u, status_update. rewrite Herr. simpl.
      destruct (String.eqb_spec (exn_msg e) "") as [Hempty|Hfull]; simpl.
      - right. destruct Hmsg as [Hmsg|Hmsg]; done.
      - by left. }
    intros c old Hdb Hacc Hold. unfold w2, after_write. simpl. rewrite Hdb.
    eexists. split; [done|].
    by apply (accepted_write_sets_status c job_id (VStr "failed") old u).
  - intros e Hmissing.
    assert (Hprocess : _process_job job w = (Raise e, w)).
    { unfold _process_job, mbind, M_bind, lift.
      destruct Hmissing as [->|(job_id & -> & ->)]; done. }
    split; [done|]. split.
    { unfold worker_iteration, try_except, mbind, M_bind.
      by rewrite Hnext, Htruthy, Hprocess. }
    pose proof (writes_get_next_job w0) as Hwrites.
    pose proof (keeps_get_next_job db_client (fun _ _ => eq_refl) (fun _ _ => eq_refl) w0)
      as Hdb.
    rewrite Hnext in Hwrites, Hdb. done.
  - intros turns.
    destruct (worker_iteration_ok w0) as (w' & Hiter & Hw').
    assert (Hstep : worker_loop (S turns) w0 = worker_loop turns (worker_iteration w0).2).
    { simpl. unfold mbind at 1, M_bind at 1, get. simpl. rewrite Hrun.
      unfold mbind at 1, M_bind at 1. by rewrite Hiter. }
    split; [done|]. split.
    + by destruct (worker_loop_runs (S turns) w0 Hrun) as (w3 & -> & _).
    + intros Hredis. by apply worker_loop_drains.
  - intros w' turns Hrun'. by destruct (worker_loop_runs turns w' Hrun') as (w3 & -> & _).
Qed.

End WorkerFacts.

(** ** The router *)

Section RouterFacts.
Context `{Interpreter}.
Import Py Router.

Lemma find_client_registered (self : t) (name : string) (c : provider_client) :
  find_client (providers self) name = Some c → registered self name = true.
Proof. unfold registered. by intros ->. Qed.

Lemma auto_select_registered (self : t) (order : list string) (name : string) :
  auto_select self order = Some name → registered self name = true.
Proof.
  unfold registered. induction order as [|p rest IH]; simpl; [done|].
  destruct (find_client (providers self) p) as [c|] eqn:Hc; [|done].
  destruct (has_api_key c); [intros [= <-]; by rewrite Hc|].
  destruct (String.eqb p "sora"); [intros [= <-]; by rewrite Hc|done].
Qed.

(** Whatever is selected is a registered provider. *)
Lemma selected_is_registered (self : t) (requested : option string) (name : string) :
  _select_provider self requested = Some name → registered self name = true.
Proof.
  unfold _select_provider.
  destruct requested as [r|].
  - destruct (str_truthy r && registered self r) eqn:Hr.
    + intros [= <-]. by apply andb_prop in Hr as [_ Hr].
    + clear Hr. destruct (negb _ && registered self (preferred_provider self)) eqn:Hpref.
      * intros [= <-]. by apply andb_prop in Hpref as [_ Hpref].
      * destruct (auto_select self (fallback_order self)) as [q|] eqn:Hauto.
        -- intros [= <-]. by apply (auto_select_registered _ _ _ Hauto).
        -- unfold provider_names, registered.
           destruct (providers self) as [|[n c] rest]; simpl; [done|].
           intros [= <-]. by rewrite String.eqb_refl.
  - destruct (negb _ && registered self (preferred_provider self)) eqn:Hpref.
    + intros [= <-]. by apply andb_prop in Hpref as [_ Hpref].
    + destruct (auto_select self (fallback_order self)) as [q|] eqn:Hauto.
      * intros [= <-]. by apply (auto_select_registered _ _ _ Hauto).
      * unfold provider_names, registered.
        destruct (providers self) as [|[n c] rest]; simpl; [done|].
        intros [= <-]. by rewrite String.eqb_refl.
Qed.

Lemma generate_video_selected (self : t) (script : gmap string value)
    (provider : option string) (quality format : value) (kwargs : gmap string value)
    (selected : string) (client : provider_client) :
  _select_provider self provider = Some selected →
  str_truthy selected = true →
  find_client (providers self) selected = Some client →
  generate_video self script provider quality format kwargs
  = match client_generate client script (call_kwargs selected quality format kwargs) with
    | Ok result => Ok (with_selection self selected provider result)
    | Raise e =>
        match provider with
        | None =>
            if (1 <? length (providers self))%nat
            then _try_fallback self script selected quality format kwargs
            else Ok (generation_failed_result selected e)
        | Some _ => Ok (generation_failed_result selected e)
        end
    end.
Proof.
  intros Hsel Htruthy Hclient. unfold generate_video.
  rewrite Hsel, Htruthy, Hclient. simpl.
  by destruct (client_generate client script _).
Qed.

(** C3 (as amended). A named provider that is registered is the one
    selected, and when its call raises the router returns that failure
    without trying another provider.  A named provider that is not
    registered is never selected and raises no error: selection proceeds
    as if none had been named, the provider chosen that way is called, and its result is
    returned with the reason "User requested X but Y was selected due to
    availability". *)
Theorem explicit_provider_selection (self : t) (p : string) :
  str_truthy p = true →
  (registered self p = true → _select_provider self (Some p) = Some p)
  ∧ (registered self p = false →
     _select_provider self (Some p) = _select_provider self None
     ∧ _select_provider self (Some p) ≠ Some p)
  ∧ (∀ script quality format kwargs selected client e,
       _select_provider self (Some p) = Some selected →
       str_truthy selected = true →
       find_client (providers self) selected = Some client →
       client_generate client script (call_kwargs selected quality format kwargs) = Raise e →
       generate_video self script (Some p) quality format kwargs
       = Ok (generation_failed_result selected e))
  ∧ (∀ script quality format kwargs selected client result,
       registered self p = false →
       _select_provider self None = Some selected →
       str_truthy selected = true →
       find_client (providers self) selected = Some client →
       client_generate client script (call_kwargs selected quality format kwargs) = Ok result →
       generate_video self script (Some p) quality format kwargs
       = Ok (<["provider_selection_reason" :=
                VStr ("User requested " +:+ p +:+ " but " +:+ selected
                      +:+ " was selected due to availability")]>
            (<["selected_provider" := VStr selected]>
            (<["unified_client_version" := VStr "1.0.0"]> result)))).
Proof.
  intros Hp.
  assert (Hmiss : registered self p = false →
                  _select_provider self (Some p) = _select_provider self None).
  { intros Hreg. unfold _select_provider. by rewrite Hp, Hreg. }
  split; [|split; [|split]].
  2:{ intros Hreg. split; [by apply Hmiss|]. intros Hsel.
      apply selected_is_registered in Hsel. congruence. }
  - intros Hreg. unfold _select_provider. by rewrite Hp, Hreg.
  - intros script quality format kwargs selected client e Hsel Htruthy Hclient Hraise.
    rewrite (generate_video_selected _ _ _ _ _ _ _ _ Hsel Htruthy Hclient).
    by rewrite Hraise.
  - intros script quality format kwargs selected client result Hreg Hsel Htruthy Hclient Hok.
    rewrite <- (Hmiss Hreg) in Hsel.
    rewrite (generate_video_selected _ _ _ _ _ _ _ _ Hsel Htruthy Hclient).
    rewrite Hok. unfold with_selection, _get_selection_reason. rewrite Hp.
    destruct (String.eqb_spec p selected) as [->|Hne]; [|done].
    apply find_client_registered in Hclient. congruence.
Qed.

Lemma fallback_loop_all_failed (self : t) (script : gmap string value)
    (failed_provider : string) (quality format : value) (kwargs : gmap string value)
    (remaining : list string) :
  Forall (fun p => ∀ c, find_client (providers self) p = Some c →
                        provider_failed
                          (client_generate c script (call_kwargs p quality format kwargs)))
         remaining →
  fallback_loop self script failed_provider quality format kwargs remaining = None.
Proof.
  induction 1 as [|p rest Hp Hrest IH]; simpl; [done|].
  destruct (find_client (providers self) p) as [c|] eqn:Hc; [|done].
  specialize (Hp c eq_refl).
  destruct (client_generate c script _) as [result|e]; simpl in Hp; [|done].
  by rewrite Hp.
Qed.

(** C4 (as amended). When the provider selected automatically raises and
    every remaining provider of the fallback order raises or reports a
    failure, the router returns the fixed text "All providers failed. Last
    error from <first provider>" and the list of the providers attempted,
    first provider first; the result is the same whatever the providers'
    errors were, none of them is in it.  (The fallback is called with the
    caller's extra options as keywords: when one of them is named
    [failed_provider] that call raises a [TypeError], which reaches the
    caller instead of a result.) *)
Theorem all_providers_failed_lists_names_only (self : t) (script : gmap string value)
    (quality format : value) (kwargs : gmap string value) (first : string)
    (client : provider_client) (e : exn) :
  _select_provider self None = Some first →
  str_truthy first = true →
  find_client (providers self) first = Some client →
  client_generate client script (call_kwargs first quality format kwargs) = Raise e →
  (1 < length (providers self))%nat →
  Forall (fun p => ∀ c, find_client (providers self) p = Some c →
                        provider_failed
                          (client_generate c script (call_kwargs p quality format kwargs)))
         (remaining_providers self first) →
  (kwargs !! "failed_provider" = None →
   generate_video self script None quality format kwargs
   = Ok (<["success" := VBool false]>
        (<["error" := VStr ("All providers failed. Last error from " +:+ first)]>
        (<["attempted_providers" :=
             VList (map VStr (first :: remaining_providers self first))]> ∅))))
  ∧ (kwargs !! "failed_provider" ≠ None →
     generate_video self script None quality format kwargs
     = Raise (type_error (function_str "UnifiedVideoClient._try_fallback"
                          +:+ " got multiple values for argument 'failed_provider'"))).
Proof.
  intros Hsel Htruthy Hclient Hraise Hmany Hrest.
  rewrite (generate_video_selected _ _ _ _ _ _ _ _ Hsel Htruthy Hclient).
  rewrite Hraise.
  destruct (Nat.ltb_spec 1 (length (providers self))) as [_|Hle]; [|lia].
  unfold _try_fallback. rewrite (fallback_loop_all_failed _ _ _ _ _ _ _ Hrest).
  destruct (kwargs !! "failed_provider"); split; done.
Qed.

End RouterFacts.

(** ** Decoding a provider response *)

Section DecodeFacts.
Context `{Disk}.
Import Py Velo.



End DecodeFacts.

(** ** Strings: [in], [startswith] and [split] *)

Section StringFacts.
Import Py.











Lemma prefix_slash_cons (c : Ascii.ascii) (s : string) :
  String.prefix "/" (String c s) = String.prefix "/" (String c "").
Proof.
  cbn [String.prefix]. destruct (Ascii.ascii_dec _ c); [by destruct s|done].
Qed.

Lemma contains_slash_cons (c : Ascii.ascii) (s : string) :
  contains "/" (String c s)
  = String.prefix "/" (String c "") || contains "/" s.
Proof.
  cbn [contains String.prefix].
  destruct (Ascii.ascii_dec _ c); [by destruct s|done].
Qed.

Lemma contains_slash_app (a b : string) :
  contains "/" (a +:+ b) = contains "/" a || contains "/" b.
Proof.
  induction a as [|c a IH].
  - by destruct b.
  - change (String c a +:+ b) with (String c (a +:+ b)).
    by rewrite !contains_slash_cons, IH, orb_assoc.
Qed.

Lemma prefix_has_slash (p x : string) :
  String.prefix p x = true → contains "/" p = true → contains "/" x = true.
Proof.
  revert x. induction p as [|a p IH]; intros x Hprefix Hslash; [done|].
  destruct x as [|b x]; [done|]. simpl in Hprefix.
  destruct (Ascii.ascii_dec a b) as [<-|]; [|done].
  rewrite contains_slash_cons in *.
  destruct (String.prefix "/" (String a "")); [done|]. simpl in *. by apply IH.
Qed.

Lemma contains_has_slash (sub x : string) :
  contains sub x = true → contains "/" sub = true → contains "/" x = true.
Proof.
  intros Hsub Hslash. induction x as [|c x IH].
  - simpl in Hsub. rewrite orb_false_r in Hsub. by apply (prefix_has_slash sub).
  - cbn [contains] in Hsub. apply orb_prop in Hsub as [Hprefix|Hrest].
    + by apply (prefix_has_slash sub).
    + rewrite contains_slash_cons. rewrite (IH Hrest). apply orb_true_r.
Qed.

Lemma split_go_not_nil (sep : string) (skip : nat) (s cur : string) :
  split_go sep skip s cur ≠ [].
Proof.
  revert skip cur. induction s as [|c s IH]; intros skip cur; cbn [split_go]; [done|].
  destruct skip; [|apply IH]. destruct (String.prefix sep (String c s)); [done|apply IH].
Qed.

Lemma split_slash_last (s cur : string) :
  contains "/" cur = false →
  contains "/" (List.last (split_go "/" 0 s cur) "") = false.
Proof.
  revert cur. induction s as [|c s IH]; intros cur Hcur; [done|].
  cbn [split_go]. change (String.length "/" - 1)%nat with 0%nat.
  rewrite prefix_slash_cons.
  destruct (String.prefix "/" (String c "")) eqn:Hc.
  - pose proof (split_go_not_nil "/" 0 s "") as Hnil.
    cbn [List.last]. destruct (split_go "/" 0 s "") as [|x l] eqn:Hsplit; [done|].
    rewrite <- Hsplit. by apply IH.
  - apply IH. by rewrite contains_slash_app, Hcur, contains_slash_cons, Hc.
Qed.

End StringFacts.

(** ** Polling an operation *)

Section PollFacts.
Context {service : Type} (post : service → VeoOp.request → Py.res VeoOp.response * service).
Import Py VeoOp.







End PollFacts.

(** ** The job store, the queues and the endpoints *)

Section JobStoreFacts.
Context `{Json} `{Host} `{Web} `{Interpreter}.
Import Py Worker.

Lemma cancel_job_eq (job_id : string) (w : t) :
  cancel_job job_id w
  = (Ok true,
     match db_client w with
     | Some db =>
         set_db (tick_clock w)
           (Some (Db.update_generation_job db (VStr job_id)
                    (cancel_updates (utcnow (clock_reads w)))).2)
     | None => w
     end).
Proof.
  unfold cancel_job, try_except, mbind, M_bind, get, read_clock, db_update, mret, M_ret.
  simpl. destruct (db_client w) as [db|]; simpl; [|done].
  fold (cancel_updates (utcnow (clock_reads w))).
  by destruct (Db.update_generation_job db _ _).
Qed.

(** X1. [cancel_job] never reports a failure: for every worker, store and
    job id, known or not, it returns [True], and the endpoint answers
    "Job cancelled successfully"; neither queue nor the write history
    changes. *)
Theorem cancel_always_reports_success (job_id : string) (w : t) :
  (cancel_job job_id w).1 = Ok true
  ∧ (Api.cancel_job job_id w).1
    = Api.Reply (<["message" := VStr "Job cancelled successfully"]> ∅)
  ∧ job_queue (cancel_job job_id w).2 = job_queue w
  ∧ redis_client (cancel_job job_id w).2 = redis_client w
  ∧ status_writes (cancel_job job_id w).2 = status_writes w.
Proof.
  unfold Api.cancel_job. rewrite cancel_job_eq. simpl.
  repeat split; by destruct (db_client w).
Qed.

(** X2. [cancel_job] does not look at the stored status: on a store that
    accepts the write, a job in any state, Completed and Failed included,
    is Cancelled afterwards. *)
Theorem cancel_overwrites_any_status (job_id : string) (w : t) (c : Db.pg_connection)
    (old : value) :
  db_client w = Some (Db.Client (Some c)) →
  accepts c (VStr job_id) (cancel_updates (utcnow (clock_reads w))) →
  Db.job_status (Db.Client (Some c)) (VStr job_id) = Some old →
  ∃ db', db_client (cancel_job job_id w).2 = Some db'
         ∧ Db.job_status db' (VStr job_id) = Some (VStr "cancelled").
Proof.
  intros Hdb Hacc Hold. rewrite cancel_job_eq. simpl. rewrite Hdb. simpl.
  eexists. split; [done|].
  by apply (accepted_write_sets_status c (VStr job_id) (VStr "cancelled") old).
Qed.

Lemma set_table_same (c : Db.pg_connection) : Db.set_table c (Db.table c) = c.
Proof. by destruct c. Qed.

Lemma map_unmatched (sets : gmap string value) (job_id : value)
    (rows : list (gmap string value)) :
  Forall (fun row => Db.has_id job_id row = false) rows →
  map (fun row => if Db.has_id job_id row then sets ∪ row else row) rows = rows.
Proof.
  induction 1 as [|row rows Hrow _ IH]; simpl; [done|]. by rewrite Hrow, IH.
Qed.

(** X3. An update of a job id the table does not hold is not an error:
    on a store that accepts the statement [update_generation_job]
    returns [True] and the store is what it was. *)
Theorem update_of_unknown_job_reports_success (c : Db.pg_connection) (job_id : value)
    (updates : gmap string value) :
  accepts c job_id updates →
  updates ≠ ∅ →
  Forall (fun row => Db.has_id job_id row = false) (Db.table c) →
  Db.update_generation_job (Db.Client (Some c)) job_id updates
  = (true, Db.Client (Some c)).
Proof.
  intros Hacc Hne Hnone. unfold Db.update_generation_job, Db.execute_update. simpl.
  fold (bound updates).
  rewrite (accepts_plain_keys _ _ _ Hacc), (accepts_not_refused _ _ _ Hacc).
  rewrite bool_decide_eq_false_2 by (intros Hb; by apply bound_empty in Hb).
  by rewrite (map_unmatched _ _ _ Hnone), set_table_same.
Qed.

Lemma names_are_plain (c : Db.pg_connection) (updates : gmap string value) :
  map_Forall (fun k _ => Db.is_identifier k = true) updates →
  Db.plain_keys c (bound updates) = true.
Proof.
  intros Hnames. unfold Db.plain_keys. apply bool_decide_eq_true_2.
  intros k v Hk. rewrite bound_lookup in Hk.
  destruct (updates !! k) as [u|] eqn:Hu; [|done]. right. by apply (Hnames k u).
Qed.

Lemma stored_after_update (db : Db.client) (job_id : value) (updates : gmap string value) :
  map_Forall (fun k _ => Db.is_identifier k = true) updates →
  stored (Db.update_generation_job db job_id updates).2 = stored db
  ∨ stored (Db.update_generation_job db job_id updates).2
    = map (fun row => if Db.has_id job_id row then bound updates ∪ row else row) (stored db).
Proof.
  intros Hnames. unfold Db.update_generation_job, stored.
  destruct db as [[c|]]; simpl; [|by left].
  fold (bound updates). unfold Db.execute_update.
  rewrite (names_are_plain c updates Hnames).
  destruct (Db.refused c (bound updates) (Some job_id)) as [c'|] eqn:Hrefused; simpl.
  - left. by apply (refused_keeps_table _ _ _ _ Hrefused).
  - destruct (bool_decide (bound updates = ∅)); simpl; [by left|by right].
Qed.

(** X4. An update whose keys are names (lower-case letters, digits and
    underscores) touches the rows of its job id only: every row stored
    under another id is, after [update_generation_job], the row it was, at
    the place it was, whether the statement was applied or refused.  The
    keys are written into the statement as they are, so nothing of the
    kind holds for a key that is not a name. *)
Theorem update_leaves_other_jobs_alone (db : Db.client) (job_id : value)
    (updates : gmap string value) (i : nat) (row : gmap string value) :
  map_Forall (fun k _ => Db.is_identifier k = true) updates →
  stored db !! i = Some row →
  Db.has_id job_id row = false →
  stored (Db.update_generation_job db job_id updates).2 !! i = Some row.
Proof.
  intros Hnames Hrow Hother.
  destruct (stored_after_update db job_id updates Hnames) as [-> | ->]; [done|].
  change (map ?f ?l) with (f <$> l). by rewrite list_lookup_fmap, Hrow; simpl; rewrite Hother.
Qed.

Lemma accepts_insert_not_refused (c : Db.pg_connection) (row : gmap string value) :
  accepts_insert c row → Db.refused c row None = None.
Proof.
  intros (Hon & Htx & Hall). unfold Db.refused, Db.all_adapted, Db.known_columns.
  rewrite Hon, Htx. simpl.
  rewrite !bool_decide_eq_true_2; [done| |];
    intros k v Hk; by destruct (Hall k v Hk).
Qed.

Lemma select_not_refused (c : Db.pg_connection) (job_id : value) :
  Db.online c = true → Db.failed_tx c = false → Db.adapts c job_id = true →
  "id" ∈ Db.columns c →
  Db.refused c ∅ (Some job_id) = None.
Proof.
  intros Hon Htx Had Hid. unfold Db.refused, Db.all_adapted, Db.known_columns.
  simpl. rewrite Hon, Htx, Had. simpl.
  rewrite !bool_decide_eq_true_2; [done|done| |]; apply map_Forall_empty.
Qed.

Lemma filter_unmatched (job_id : value) (rows : list (gmap string value)) :
  Forall (fun row => Db.has_id job_id row = false) rows →
  filter (fun row => Db.has_id job_id row = true) rows = [].
Proof.
  induction 1 as [|row rows Hrow _ IH]; [done|].
  rewrite filter_cons_False by congruence. done.
Qed.

Lemma insert_row_lookups (job_data row : gmap string value) :
  Db.insert_row job_data = Ok row →
  ∃ id ty personas prompt params status created,
    job_data !! "id" = Some id ∧ job_data !! "type" = Some ty
    ∧ job_data !! "persona_ids" = Some personas ∧ job_data !! "prompt" = Some prompt
    ∧ job_data !! "parameters" = Some params ∧ job_data !! "status" = Some status
    ∧ job_data !! "created_at" = Some created
    ∧ row = <["id" := id]> (<["type" := ty]>
           (<["persona_ids" := VStr (json_dumps personas)]> (<["prompt" := prompt]>
           (<["parameters" := VStr (json_dumps params)]> (<["status" := status]>
           (<["created_at" := created]> ∅)))))).
Proof.
  unfold Db.insert_row, Db.lookup_key, mbind, res_bind.
  destruct (job_data !! "id") as [id|]; [|done].
  destruct (job_data !! "type") as [ty|]; [|done].
  destruct (job_data !! "persona_ids") as [personas|]; [|done].
  destruct (job_data !! "prompt") as [prompt|]; [|done].
  destruct (job_data !! "parameters") as [params|]; [|done].
  destruct (job_data !! "status") as [status|]; [|done].
  destruct (job_data !! "created_at") as [created|]; [|done].
  intros [= <-]. eauto 15.
Qed.

(** X5. A job created with a timestamp as its creation time, on a
    store that accepts the insert, reads back: [get_generation_job] returns
    the seven stored fields, the creation time as the ISO text of the
    timestamp, the two JSON columns decoded and the other four with the
    values [create_generation_job] was given, and nothing else of the job
    record (no progress, worker or result). *)
Theorem created_job_reads_back (c : Db.pg_connection) (job_data row : gmap string value)
    (job_id now created_at : string) (personas params : value) :
  Db.insert_row job_data = Ok row →
  accepts_insert c row →
  job_data !! "id" = Some (VStr job_id) →
  job_data !! "persona_ids" = Some personas →
  job_data !! "parameters" = Some params →
  job_data !! "created_at" = Some (VDatetime created_at) →
  Forall (fun r => Db.has_id (VStr job_id) r = false) (Db.table c) →
  json_dumps personas ≠ "" → json_loads (json_dumps personas) = Ok personas →
  json_dumps params ≠ "" → json_loads (json_dumps params) = Ok params →
  let created := Db.create_generation_job (Db.Client (Some c)) job_data in
  created.1 = Ok (VStr job_id)
  ∧ ∃ job, (Db.get_generation_job created.2 (VStr job_id) now).1 = Some job
           ∧ dom job = job_record_keys
           ∧ job !! "created_at" = Some (VStr created_at)
           ∧ ∀ k, k ∈ job_record_keys → k ≠ "created_at" → job !! k = job_data !! k.
Proof.
  intros Hrow Hacc Hid Hpersonas Hparams Hcreated Hfresh Hp1 Hp2 Hq1 Hq2.
  unfold Db.create_generation_job, Db.execute_insert. simpl. rewrite Hrow.
  rewrite (accepts_insert_not_refused _ _ Hacc). simpl.
  unfold Db.lookup_key. rewrite Hid. split; [done|].
  destruct (insert_row_lookups _ _ Hrow)
    as (id & ty & ps & prompt & pa & status & at' & Hk1 & Hk2 & Hk3 & Hk4 & Hk5 & Hk6 & Hk7 & ->).
  assert (id = VStr job_id) as -> by congruence.
  assert (ps = personas) as -> by congruence.
  assert (pa = params) as -> by congruence.
  assert (at' = VDatetime created_at) as -> by congruence.
  destruct Hacc as (Hon & Htx & Hall).
  destruct (Hall "id" (VStr job_id) ltac:(by simplify_map_eq)) as [Hcol Had].
  unfold Db.get_generation_job, Db.execute_select. simpl.
  rewrite select_not_refused by done. simpl.
  rewrite filter_app, (filter_unmatched _ _ Hfresh). simpl.
  rewrite filter_cons_True.
  2:{ unfold Db.has_id, Db.cell. simplify_map_eq. simpl. apply String.eqb_refl. }
  simpl. unfold Db._format_job_result, Db.loads_or, Db.isoformat_or_none, Db.cell.
  simplify_map_eq. simpl.
  rewrite (proj2 (String.eqb_neq _ _) Hp1), (proj2 (String.eqb_neq _ _) Hq1). simpl.
  rewrite Hp2, Hq2. simpl.
  eexists. split; [done|]. split; [|split].
  - unfold job_record_keys. rewrite !dom_insert_L, dom_empty_L. set_solver.
  - by simplify_map_eq.
  - intros k Hk Hother. unfold job_record_keys in Hk.
    repeat (apply elem_of_list_to_set in Hk || idtac).
    rewrite !elem_of_cons in Hk.
    destruct Hk as [->|[->|[->|[->|[->|[->|[->|Hk]]]]]]]; simplify_map_eq; try done.
    by apply elem_of_nil in Hk.
Qed.

(** X6. With a database configured, a status query answers from the job
    table, whose records have exactly the seven creation fields: no
    [progress], [current_step], [result_url] or [error_message] is ever
    returned, whatever the worker wrote. *)
Theorem stored_status_has_creation_fields_only (w w' : t) (db : Db.client)
    (job_id : string) (record : gmap string value) :
  db_client w = Some db →
  get_job_status job_id w = (Ok (Some record), w') →
  dom record = job_record_keys.
Proof.
  intros Hdb. unfold get_job_status, try_except, mbind, M_bind, get, db_get.
  rewrite Hdb. unfold Db.get_generation_job.
  destruct (Db.connection db) as [c|] eqn:Hc; simpl.
  - destruct (Db.execute_select c (VStr job_id)) as [[[row|]|e] c']; simpl; try done.
    unfold Db._format_job_result, mbind, res_bind.
    destruct (Db.loads_or _ _); simpl; [|done].
    destruct (Db.loads_or _ _); simpl; [|done].
    destruct (Db.isoformat_or_none _); simpl; [|done].
    intros [= <- <-]. unfold job_record_keys.
    rewrite !dom_insert_L, dom_empty_L. set_solver.
  - intros [= <- <-]. unfold job_record_keys, Db._generate_mock_job.
    rewrite !dom_insert_L, dom_empty_L. set_solver.
Qed.

(** X7. On the mock database (no connection) every job id, submitted or
    not, reads as a completed video job with the fixed sample prompt;
    the status endpoint therefore never answers 404. *)
Theorem mock_database_completes_every_job (w : t) (job_id : string) :
  db_client w = Some (Db.Client None) →
  ∃ record,
    get_job_status job_id w = (Ok (Some record), tick_clock w)
    ∧ (Api.get_job_status job_id w).1 = Api.Reply record
    ∧ record !! "id" = Some (VStr job_id)
    ∧ record !! "status" = Some (VStr "completed")
    ∧ record !! "prompt" = Some (VStr "Generate a sample video").
Proof.
  intros Hdb. unfold Api.get_job_status.
  unfold get_job_status, try_except, mbind, M_bind, get, db_get.
  rewrite Hdb. simpl. eexists. split; [done|]. split.
  - rewrite bool_decide_eq_false_2; [done|].
    intros Hempty. apply (f_equal (fun m => m !! "id")) in Hempty.
    by simplify_map_eq.
  - by simplify_map_eq.
Qed.

End JobStoreFacts.

Section QueueFacts.
Context `{Json} `{Host} `{Web} `{Interpreter}.
Import Py Worker.

Lemma take_jobs_from_memory (n : nat) (w : t) :
  redis_client w = None →
  take_jobs n w
  = (((Some <$> take n (job_queue w)) ++ replicate (n - length (job_queue w)) None)%list,
     set_queue w (drop n (job_queue w))).
Proof.
  revert w. induction n as [|n IH]; intros w Hredis.
  - simpl. rewrite drop_0. by destruct w.
  - cbn [take_jobs]. rewrite (get_next_job_from_memory w Hredis).
    rewrite IH by done. simpl.
    destruct (job_queue w) as [|job q]; simpl.
    + rewrite take_nil, drop_nil, Nat.sub_0_r. done.
    + done.
Qed.

(** X8. Without Redis the in-memory queue is first in, first out: after
    a submission, the jobs that were waiting are handed out in the order
    they were queued, then the new job, then [None]; the queue is empty
    afterwards. *)
Theorem memory_queue_is_first_in_first_out (w : t)
    (job_type persona_ids prompt parameters : value) :
  redis_client w = None →
  let job := dict_value (submitted w job_type persona_ids prompt parameters) in
  let w1 := (queue_generation_job job_type persona_ids prompt parameters w).2 in
  (take_jobs (S (S (length (job_queue w)))) w1).1
  = ((Some <$> job_queue w) ++ [Some job; None])%list
  ∧ job_queue (take_jobs (S (S (length (job_queue w)))) w1).2 = [].
Proof.
  intros Hredis job w1.
  assert (Hw1 : redis_client w1 = None ∧ job_queue w1 = (job_queue w ++ [job])%list).
  { unfold w1. rewrite queue_generation_job_eq. unfold enqueued, saved. simpl.
    destruct (db_client w); simpl; rewrite Hredis; simpl; by rewrite Hredis. }
  destruct Hw1 as [Hr Hq].
  rewrite take_jobs_from_memory by done. rewrite Hq. simpl.
  rewrite length_app. simpl.
  rewrite take_ge by (rewrite length_app; simpl; lia).
  rewrite drop_ge by (rewrite length_app; simpl; lia).
  replace (S (S (length (job_queue w))) - (length (job_queue w) + 1))%nat with 1%nat by lia.
  rewrite fmap_app. simpl. rewrite <- app_assoc. done.
Qed.

Lemma pop_tail_snoc {A} (items : list A) (x : A) :
  pop_tail (items ++ [x]) = Some (items, x).
Proof. unfold pop_tail. by rewrite reverse_snoc, reverse_involutive. Qed.




(** X10. A Redis item that [json.loads] cannot decode is lost: it has
    been popped when the error is caught, the call serves the in-memory
    queue instead, and nothing is raised. *)
Theorem undecodable_redis_item_is_dropped (w : t) (rest : list string) (item : string)
    (e : exn) :
  redis_client w = Some (Redis true (rest ++ [item])) →
  json_loads item = Raise e →
  _get_next_job w
  = (Ok (head (job_queue w)),
     set_queue (set_redis w (Some (Redis true rest))) (tail (job_queue w))).
Proof.
  intros Hredis Hload.
  unfold _get_next_job, _get_from_redis_queue, try_except, mbind, M_bind, get, brpop,
    lift, mret, M_ret, pop_mock_queue.
  repeat (rewrite Hredis; cbn -[pop_tail]).
  rewrite pop_tail_snoc, Hload. simpl.
  destruct (job_queue w) eqn:Hq; simpl; [|done].
  destruct w; simpl in *. by rewrite Hq.
Qed.

(** X11. When Redis does not answer, a dequeue raises nothing and
    serves the in-memory queue: its head, or [None] when it is empty. *)
Theorem unreachable_redis_dequeues_from_memory (w : t) (r : redis) :
  redis_client w = Some r → reachable r = false →
  _get_next_job w = (Ok (head (job_queue w)), set_queue w (tail (job_queue w))).
Proof.
  intros Hredis Hdown.
  unfold _get_next_job, _get_from_redis_queue, try_except, mbind, M_bind, get, brpop,
    lift, mret, M_ret, pop_mock_queue.
  repeat (rewrite Hredis; simpl). rewrite Hdown. simpl.
  destruct (job_queue w) eqn:Hq; simpl; [|done].
  destruct w; simpl in *. by rewrite Hq.
Qed.

End QueueFacts.

Section EndpointFacts.
Context `{Json} `{Host} `{Web} `{Interpreter}.
Import Py Worker.

(** A job whose [parameters] repeat a keyword [_process_video_job]
    passes by name fails: at the call of the video client, or before it
    when there is no video client and the import raises. *)
Lemma process_job_duplicate_keyword (job job_id prompt personas : value)
    (kvs : list (string * value)) (k : string) (w : t) :
  getitem job "id" = Ok job_id →
  getitem job "type" = Ok (VStr "video") →
  getitem job "prompt" = Ok prompt →
  getitem job "parameters" = Ok (VDict kvs) →
  getitem job "persona_ids" = Ok personas →
  duplicate_keyword kvs = Some k →
  let w10 := processing w job_id 10 "Starting generation" in
  _process_job job w
  = (Ok tt,
     match video_client w, import_video_client with
     | None, Raise e => failed_with w10 job_id "Processing error" (VStr (exn_msg e))
     | _, _ =>
         failed_with (processing (with_video_client w10) job_id 30 "Generating video")
           job_id "Processing error" (VStr (exn_msg (keyword_error k)))
     end).
Proof.
  intros Hid Hty Hprompt Hparams Hpersonas Hdup w10.
  assert (Hattempt :
    process_attempt job job_id (VStr "video") w
    = match video_client w, import_video_client with
      | None, Raise e => (Raise e, w10)
      | _, _ => (Raise (keyword_error k),
                 processing (with_video_client w10) job_id 30 "Generating video")
      end).
  { unfold process_attempt, mbind, M_bind. rewrite update_job_status_eq.
    fold (processing w job_id 10 "Starting generation"). fold w10.
    change (is_str (VStr "video") "video") with true. cbn iota.
    unfold _process_video_job. unfold mbind at 1, M_bind at 1.
    rewrite ensure_video_client_eq.
    change (video_client w10) with (video_client w).
    assert (Hrest : ∀ w', (prompt ← lift (getitem job "prompt");
                           parameters ← lift (getitem job "parameters");
                           duration ← lift (get_method parameters "duration" (VInt 30));
                           persona_ids ← lift (getitem job "persona_ids");
                           let script := build_script prompt duration persona_ids in
                           job_id ← lift (getitem job "id");
                           _update_job_status job_id "processing" 30 "Generating video"
                             VNone None VNone;;
                           '(format, kwargs) ← lift (match parameters with
                                                     | VDict kvs => merge_keywords kvs
                                                     | _ => Raise (attribute_error parameters "get")
                                                     end);
                           result ← call_video_client script format kwargs;
                           job_id ← lift (getitem job "id");
                           _update_job_status job_id "processing" 90 "Finalizing"
                             VNone None VNone;;
                           mret result) w'
                         = (Raise (keyword_error k),
                            processing w' job_id 30 "Generating video")).
    { intros w'. unfold mbind, M_bind, lift.
      rewrite Hprompt, Hparams. cbn [get_method]. rewrite Hpersonas, Hid.
      rewrite update_job_status_eq. unfold merge_keywords. by rewrite Hdup. }
    destruct (video_client w) eqn:Hc, import_video_client eqn:Himport;
      rewrite ?Hrest; done. }
  rewrite (process_job_raised job job_id (VStr "video") w
             (process_attempt job job_id (VStr "video") w).2
             match (process_attempt job job_id (VStr "video") w).1 with
             | Raise e => e
             | Ok _ => keyword_error k
             end Hid Hty).
  - rewrite Hattempt. by destruct (video_client w), import_video_client.
  - rewrite Hattempt. by destruct (video_client w), import_video_client.
Qed.

Lemma submission_state (w : t) (job_type persona_ids prompt parameters : value) :
  let job_data := submitted w job_type persona_ids prompt parameters in
  let w1 := (queue_generation_job job_type persona_ids prompt parameters w).2 in
  status_writes w1 = status_writes w
  ∧ video_client w1 = video_client w
  ∧ (redis_client w = None →
     redis_client w1 = None ∧ job_queue w1 = (job_queue w ++ [dict_value job_data])%list).
Proof.
  intros job_data w1. unfold w1. rewrite queue_generation_job_eq.
  fold job_data. unfold enqueued, saved. simpl. split; [|split].
  - destruct (db_client w); simpl; destruct (redis_client w) as [[[] ?]|]; done.
  - destruct (db_client w); simpl; destruct (redis_client w) as [[[] ?]|]; done.
  - intros Hredis. destruct (db_client w); simpl; rewrite Hredis; simpl; by rewrite Hredis.
Qed.

(** X12. Every job submitted through [POST /generate/video] fails when
    it is processed: the endpoint stores [provider] and [quality] in the
    job parameters, and [_process_video_job] passes both by name and
    again through [**job["parameters"]].  On an idle worker without
    Redis the next turn ends with the write failed 0 for the job.  When
    the worker has a video client, or the import of one succeeds, the
    writes before it are processing 10 and 30 and the message is the
    interpreter's [TypeError] for the keyword [provider]; when the worker
    has none and the import raises, the only write before it is
    processing 10 and the message is that of the import error. *)
Theorem api_submitted_job_always_fails (request : Api.VideoGenerationRequest) (w : t) :
  redis_client w = None →
  job_queue w = [] →
  let w1 := (Api.generate_video request w).2 in
  ∃ w2 x,
    worker_iteration w1 = (Ok tt, w2)
    ∧ last (status_writes w2) = Some x
    ∧ x.1 = VStr (uuid4 (uuid_reads w))
    ∧ x.2 !! "status" = Some (VStr "failed")
    ∧ x.2 !! "progress" = Some (VInt 0)
    ∧ job_queue w2 = []
    ∧ match video_client w, import_video_client with
      | None, Raise e =>
          summaries w2
          = (summaries w ++ [wrote "processing" 10; wrote "failed" 0])%list
          ∧ x.2 !! "error_message"
            = (if String.eqb (exn_msg e) "" then None else Some (VStr (exn_msg e)))
      | _, _ =>
          summaries w2
          = (summaries w
             ++ [wrote "processing" 10; wrote "processing" 30; wrote "failed" 0])%list
          ∧ x.2 !! "error_message"
            = Some (VStr (callee_str "UnifiedVideoClient.generate_video"
                          +:+ " got multiple values for keyword argument 'provider'"))
      end.
Proof.
  intros Hredis Hqueue w1.
  set (ty := VStr "video").
  set (ps := VList (map VStr (Api.persona_ids request))).
  set (pr := VStr (Api.prompt request)).
  set (job_data := submitted w ty ps pr (Api.job_parameters request)).
  assert (Hw1 : w1 = (queue_generation_job ty ps pr (Api.job_parameters request) w).2).
  { unfold w1, Api.generate_video. fold ty ps pr.
    by destruct (queue_generation_job ty ps pr (Api.job_parameters request) w) as [[?|?] ?]. }
  destruct (submission_state w ty ps pr (Api.job_parameters request))
    as (Hwrites & Hvideo & Hmem).
  destruct (Hmem Hredis) as [Hr Hq]. rewrite <- Hw1 in Hwrites, Hvideo, Hr, Hq.
  rewrite Hqueue in Hq. simpl in Hq. fold job_data in Hq.
  unfold worker_iteration, try_except, mbind, M_bind.
  rewrite (get_next_job_from_memory w1 Hr), Hq. cbn [head tail].
  rewrite (truthy_dict_value job_data "id" (VStr (uuid4 (uuid_reads w)))) by done.
  rewrite (process_job_duplicate_keyword (dict_value job_data)
             (VStr (uuid4 (uuid_reads w))) pr ps
             [("provider", Api.optional (Api.provider request));
              ("quality", VStr (Api.quality request));
              ("duration", VInt (Api.duration request))] "provider");
    try (by rewrite getitem_dict_value); [|done].
  change (video_client (set_queue w1 [])) with (video_client w1). rewrite Hvideo.
  assert (Hsum : summaries (set_queue w1 []) = summaries w).
  { unfold summaries. simpl. by rewrite Hwrites. }
  assert (Hlookup : ∀ wk now msg,
            let u := build_updates wk now "failed" 0 "Processing error" VNone None
                       (VStr msg) in
            u !! "status" = Some (VStr "failed") ∧ u !! "progress" = Some (VInt 0)
            ∧ u !! "error_message" = (if String.eqb msg "" then None else Some (VStr msg))).
  { intros wk now msg. cbv zeta.
    destruct (build_updates_lookup wk now "failed" "Processing error" 0 VNone
                (VStr msg) None) as (Hs & Hp & _ & He).
    cbv zeta in Hs, Hp, He. rewrite Hs, Hp, He.
    simpl. by destruct (String.eqb msg ""). }
  assert (Hfull : ∀ a b : string, b ≠ "" → String.eqb (a +:+ b) "" = false).
  { intros a b Hb. apply String.eqb_neq. by apply append_not_empty. }
  destruct (video_client w) as [client|] eqn:Hclient,
           import_video_client as [imported|e] eqn:Himport.
  all: eexists _, _; split; [done|].
  all: split; [unfold failed_with, after_write at 1; cbn [status_writes]; apply last_snoc|].
  all: repeat split.
  all: try done.
  all: try (unfold after_write, processing, with_video_client; simpl;
            rewrite ?Hvideo, ?Hclient, ?Himport; done).
  all: try (unfold failed_with, processing;
            rewrite ?summaries_after_write, ?summaries_with_video_client,
              ?summaries_after_write, Hsum, <- ?app_assoc; done).
  all: cbn [snd]; unfold failed_with, status_update.
  all: match goal with
       | |- context [build_updates ?wk ?now "failed" 0 "Processing error" VNone None
                       (VStr ?msg)] =>
           destruct (Hlookup wk now msg) as (Hs & Hp & He)
       end.
  all: first [exact Hs | exact Hp | rewrite He; simpl; by rewrite ?Hfull].
Qed.

(** X13. The submit endpoint never answers an error: whatever the state
    of Redis and of the database, it replies with the new job id and the
    status "queued". *)
Theorem submit_endpoint_always_replies_queued (request : Api.VideoGenerationRequest)
    (w : t) :
  (Api.generate_video request w).1
  = Api.Reply (<["job_id" := VStr (uuid4 (uuid_reads w))]> (<["status" := VStr "queued"]>
              (<["message" := VStr "Video generation job queued successfully"]> ∅))).
Proof. unfold Api.generate_video. by rewrite queue_generation_job_eq. Qed.

(** X14. A database that refuses the query is indistinguishable from an
    unknown job: when the [SELECT] raises, the worker returns [None] and
    the status endpoint answers 404 "Job not found", as it does for an id
    that no row carries. *)
Theorem status_endpoint_hides_database_errors (w : t) (c : Db.pg_connection)
    (job_id : string) :
  db_client w = Some (Db.Client (Some c)) →
  Db.online c = false
  ∨ Db.failed_tx c = true
  ∨ Forall (fun row => Db.has_id (VStr job_id) row = false) (Db.table c) →
  (get_job_status job_id w).1 = Ok None
  ∧ (Api.get_job_status job_id w).1 = Api.HTTPException 404 "Job not found".
Proof.
  intros Hdb Hcase. unfold Api.get_job_status.
  unfold get_job_status, try_except, mbind, M_bind, get, db_get.
  rewrite Hdb. unfold Db.get_generation_job, Db.execute_select. simpl.
  destruct (Db.refused c ∅ (Some (VStr job_id))) as [c'|] eqn:Hrefused; simpl; [done|].
  destruct Hcase as [Hoff|[Htx|Hnone]].
  - unfold Db.refused in Hrefused. rewrite Hoff in Hrefused. simpl in Hrefused.
    by destruct (negb _).
  - unfold Db.refused in Hrefused. rewrite Htx, orb_true_r in Hrefused.
    by destruct (negb _).
  - by rewrite (filter_unmatched _ _ Hnone).
Qed.

End EndpointFacts.

(** ** Fallback between providers *)

Section FallbackFacts.
Context `{Interpreter}.
Import Py Router.

Lemma fallback_loop_first_success (self : t) (script : gmap string value)
    (failed_provider : string) (quality format : value) (kwargs : gmap string value)
    (before after : list string) (p : string) (c : provider_client)
    (result : gmap string value) :
  Forall (fun q => ∀ c, find_client (providers self) q = Some c →
                        provider_failed
                          (client_generate c script (call_kwargs q quality format kwargs)))
         before →
  find_client (providers self) p = Some c →
  client_generate c script (call_kwargs p quality format kwargs) = Ok result →
  result_success result = true →
  fallback_loop self script failed_provider quality format kwargs (before ++ p :: after)
  = Some (with_fallback p failed_provider result).
Proof.
  intros Hbefore Hc Hok Hsuccess.
  induction Hbefore as [|q rest Hq _ IH]; simpl.
  - by rewrite Hc, Hok, Hsuccess.
  - destruct (find_client (providers self) q) as [cq|] eqn:Hcq; [|done].
    specialize (Hq cq eq_refl).
    destruct (client_generate cq script _) as [r|e]; simpl in Hq; [|done].
    by rewrite Hq.
Qed.

(** X15. When the provider selected automatically raises, the result is
    that of the first remaining provider of the fallback order whose call
    succeeds, marked with [fallback_used], the provider that failed, the
    provider that answered and the reason; the providers after it are not
    consulted.  (When the caller's extra options name [failed_provider]
    the call of the fallback raises a [TypeError] instead, and no
    provider is tried.) *)
Theorem fallback_returns_first_success (self : t) (script : gmap string value)
    (quality format : value) (kwargs : gmap string value) (first p : string)
    (client c : provider_client) (e : exn) (before after : list string)
    (result : gmap string value) :
  _select_provider self None = Some first →
  str_truthy first = true →
  find_client (providers self) first = Some client →
  client_generate client script (call_kwargs first quality format kwargs) = Raise e →
  (1 < length (providers self))%nat →
  remaining_providers self first = (before ++ p :: after)%list →
  Forall (fun q => ∀ c, find_client (providers self) q = Some c →
                        provider_failed
                          (client_generate c script (call_kwargs q quality format kwargs)))
         before →
  find_client (providers self) p = Some c →
  client_generate c script (call_kwargs p quality format kwargs) = Ok result →
  result_success result = true →
  (kwargs !! "failed_provider" = None →
   generate_video self script None quality format kwargs
   = Ok (<["provider_selection_reason" :=
            VStr ("Fallback to " +:+ p +:+ " after " +:+ first +:+ " failed")]>
        (<["selected_provider" := VStr p]>
        (<["original_provider" := VStr first]>
        (<["fallback_used" := VBool true]> result)))))
  ∧ (kwargs !! "failed_provider" ≠ None →
     generate_video self script None quality format kwargs
     = Raise (type_error (function_str "UnifiedVideoClient._try_fallback"
                          +:+ " got multiple values for argument 'failed_provider'"))).
Proof.
  intros Hsel Htruthy Hclient Hraise Hmany Hrem Hbefore Hc Hok Hsuccess.
  rewrite (generate_video_selected _ _ _ _ _ _ _ _ Hsel Htruthy Hclient).
  rewrite Hraise.
  destruct (Nat.ltb_spec 1 (length (providers self))) as [_|Hle]; [|lia].
  unfold _try_fallback. rewrite Hrem.
  rewrite (fallback_loop_first_success _ _ _ _ _ _ _ _ _ _ _ Hbefore Hc Hok Hsuccess).
  destruct (kwargs !! "failed_provider"); split; done.
Qed.

(** X16. Only an exception starts the fallback.  When the selected
    provider returns a result that reports a failure ([success] false or
    missing), the router returns that result with its selection metadata
    and calls no other provider, also in automatic mode with several
    providers registered. *)
Theorem reported_failure_is_not_retried (self : t) (script : gmap string value)
    (provider : option string) (quality format : value) (kwargs : gmap string value)
    (selected : string) (client : provider_client) (result : gmap string value) :
  _select_provider self provider = Some selected →
  str_truthy selected = true →
  find_client (providers self) selected = Some client →
  client_generate client script (call_kwargs selected quality format kwargs) = Ok result →
  result_success result = false →
  let answer :=
    <["provider_selection_reason" := VStr (_get_selection_reason self selected provider)]>
   (<["selected_provider" := VStr selected]>
   (<["unified_client_version" := VStr "1.0.0"]> result)) in
  generate_video self script provider quality format kwargs = Ok answer
  ∧ result_success answer = false
  ∧ answer !! "fallback_used" = result !! "fallback_used".
Proof.
  intros Hsel Htruthy Hclient Hok Hfail answer. unfold answer.
  rewrite (generate_video_selected _ _ _ _ _ _ _ _ Hsel Htruthy Hclient), Hok.
  unfold with_selection. split; [done|].
  unfold result_success in *. by simplify_map_eq.
Qed.

Lemma auto_select_none_empty (self : t) (order : list string) :
  providers self = [] → auto_select self order = None.
Proof. intros Hnone. induction order as [|p rest IH]; simpl; [done|]. by rewrite Hnone. Qed.

(** X17. Selection fails exactly when no provider is registered: with
    an empty registry every request, named or not, selects nothing and
    [generate_video] answers "No video generation providers available";
    with at least one provider something registered is always selected. *)
Theorem selection_fails_only_without_providers (self : t) (requested : option string) :
  (_select_provider self requested = None ↔ providers self = [])
  ∧ (providers self = [] →
     ∀ script quality format kwargs,
       generate_video self script requested quality format kwargs
       = Ok (<["success" := VBool false]>
            (<["error" := VStr "No video generation providers available"]>
            (<["available_providers" := VList []]> ∅))))
  ∧ (∀ name, _select_provider self requested = Some name → registered self name = true).
Proof.
  assert (Hempty : providers self = [] → _select_provider self requested = None).
  { intros Hnone. unfold _select_provider, registered, provider_names.
    rewrite Hnone. simpl. rewrite andb_false_r.
    rewrite (auto_select_none_empty self _ Hnone).
    destruct requested as [r|]; [by rewrite andb_false_r|done]. }
  split; [split; [|done]|split].
  - intros Hsel. destruct (providers self) as [|[n c] rest] eqn:Hps; [done|].
    exfalso. revert Hsel. unfold _select_provider, provider_names. rewrite Hps.
    repeat case_match; done.
  - intros Hnone script quality format kwargs.
    unfold generate_video. rewrite (Hempty Hnone).
    unfold no_provider_result, provider_names. by rewrite Hnone.
  - apply selected_is_registered.
Qed.

End FallbackFacts.

(** ** The status script and the command line *)

Section OperationFacts.
Context {service : Type} (post : service → VeoOp.request → Py.res VeoOp.response * service).
Import Py VeoOp.

(** X18. A poll sends at most two requests.  Each goes to the
    [fetchPredictOperation] address of the configured model and carries
    the bearer token of the environment, so that without a token, or with
    an empty one, nothing is sent; the first request names the qualified
    path, and a run that sent nothing returns [None]. *)
Theorem poll_sends_at_most_two_authorised_requests (env : environ) (s : service)
    (operation_id : string) :
  let run := check_operation_status post env s operation_id in
  (length (sent run) ≤ 2)%nat
  ∧ Forall (fun q => url q = fetch_url env
                     ∧ ∃ token, GOOGLE_ACCESS_TOKEN env = Some token
                                ∧ str_truthy token = true
                                ∧ authorization q = "Bearer " +:+ token)
           (sent run)
  ∧ (∀ q, head (sent run) = Some q → operationName q = full_operation_path env operation_id)
  ∧ (sent run = [] → returned run = None ∧ service_after run = s).
Proof.
  unfold check_operation_status.
  destruct (GOOGLE_ACCESS_TOKEN env) as [token|] eqn:Htoken; simpl.
  2:{ split; [lia|]. split; [constructor|]. split; [done|done]. }
  destruct (str_truthy token) eqn:Htruthy; simpl.
  2:{ split; [lia|]. split; [constructor|]. split; [done|done]. }
  assert (Hq : ∀ name, url (Request (fetch_url env) ("Bearer " +:+ token) name) = fetch_url env
                       ∧ ∃ token0, Some token = Some token0 ∧ str_truthy token0 = true
                                   ∧ authorization (Request (fetch_url env)
                                                      ("Bearer " +:+ token) name)
                                     = "Bearer " +:+ token0) by eauto.
  destruct (post s _) as [[r1|e1] s1]; simpl.
  - destruct (status_code r1 =? 404); simpl.
    + destruct (post s1 _) as [[r2|e2] s2]; simpl;
        (split; [lia|]; split; [repeat constructor; apply Hq|];
         split; [by intros ? [= <-]|done]).
    + split; [lia|]. split; [repeat constructor; apply Hq|].
      split; [by intros ? [= <-]|done].
  - split; [lia|]. split; [repeat constructor; apply Hq|].
    split; [by intros ? [= <-]|done].
Qed.

Lemma conclude_some (r : response) (v : value) :
  conclude r = Some v → status_code r = 200 ∧ json r = Ok v.
Proof.
  unfold conclude. destruct (Z.eqb_spec (status_code r) 200) as [H200|]; [|done].
  destruct (json r) as [result|e]; simpl; [|done].
  destruct (get_method result "done" (VBool false)) as [d|]; simpl; [|done].
  destruct (truthy d).
  - destruct (inspect_done result); simpl; [|done]. by intros [= <-].
  - destruct (py_in "metadata" result); simpl; [|done]. by intros [= <-].
Qed.

(** X19. Whatever a poll returns is the JSON body of an answer with
    status 200 to one of the requests it sent; every other outcome (a
    transport error, another status, a body that is not JSON) is [None]. *)
Theorem poll_returns_only_a_200_body (env : environ) (s : service)
    (operation_id : string) (v : value) :
  returned (check_operation_status post env s operation_id) = Some v →
  ∃ q s0 s1 r,
    q ∈ sent (check_operation_status post env s operation_id)
    ∧ post s0 q = (Ok r, s1)
    ∧ status_code r = 200
    ∧ json r = Ok v.
Proof.
  unfold check_operation_status.
  destruct (GOOGLE_ACCESS_TOKEN env) as [token|]; simpl; [|done].
  destruct (str_truthy token); simpl; [|done].
  destruct (post s _) as [[r1|e1] s1] eqn:Hfirst; simpl; [|done].
  destruct (status_code r1 =? 404); simpl.
  - destruct (post s1 _) as [[r2|e2] s2] eqn:Hsecond; simpl; [|done].
    intros Hsome. apply conclude_some in Hsome as [H200 Hjson].
    eexists _, s1, s2, r2. split; [|done]. set_solver.
  - intros Hsome. apply conclude_some in Hsome as [H200 Hjson].
    eexists _, s, s1, r1. split; [|done]. set_solver.
Qed.

(** X20. An operation without a [response] member is returned as it
    is, finished or not: one that completed with an [error] reaches the
    caller exactly like one still running, and is not reported as [None]. *)
Theorem operation_with_error_is_returned (r : response) (kvs : list (string * value)) :
  status_code r = 200 →
  json r = Ok (VDict kvs) →
  assoc_get kvs "response" = None →
  conclude r = Some (VDict kvs).
Proof.
  intros Hstatus Hjson Hnone. unfold conclude. rewrite Hstatus, Hjson. simpl.
  destruct (truthy _); simpl; [|done].
  unfold inspect_done. simpl. unfold assoc_has. rewrite Hnone. simpl.
  by destruct (assoc_get kvs "error").
Qed.

End OperationFacts.

Section CommandLineFacts.
Context `{Interpreter}.
Import Py.

Lemma printed_id_has_no_slash (operation_id : string) :
  contains "/" (printed_id operation_id) = false.
Proof.
  unfold printed_id. destruct (contains "/" operation_id) eqn:Hslash; [|done].
  by apply split_slash_last.
Qed.

(** X21. The operation id [generate_video.py] prints for the status
    script never contains a "/".  Given that id, the status script
    therefore leaves it as its short form and always builds the qualified
    path under the literal project [your-project-id], whatever project
    the operation was created in. *)
Theorem printed_operation_id_loses_its_project (env : VeoOp.environ)
    (operation_id : string) :
  Cli.short_id (VStr operation_id) = Ok (VStr (printed_id operation_id))
  ∧ contains "/" (printed_id operation_id) = false
  ∧ VeoOp.operation_name (printed_id operation_id) = printed_id operation_id
  ∧ VeoOp.full_operation_path env (printed_id operation_id)
    = "projects/your-project-id/locations/us-central1/publishers/google/models/"
      +:+ VeoOp.model_name env +:+ "/operations/" +:+ printed_id operation_id
  ∧ (∀ client prompt duration result printed,
       Cli.generate_video_from_prompt client prompt duration = Ok (result, Some printed) →
       result !! "operation_id" = Some (VStr operation_id) →
       printed = VStr (printed_id operation_id)).
Proof.
  pose proof (printed_id_has_no_slash operation_id) as Hnone.
  split; [|split; [|split; [|split]]].
  5:{ intros client prompt duration result printed Hrun Hop.
      unfold Cli.generate_video_from_prompt in Hrun.
      destruct (Router.generate_video _ _ _ _ _ _) as [answer|e]; [|done].
      simpl in Hrun.
      destruct (Router.result_success answer); [|by injection Hrun].
      destruct (truthy (default VNone (answer !! "operation_id"))) eqn:Htruthy;
        [|by injection Hrun].
      destruct (Cli.short_id _) as [p|e] eqn:Hshort; [|done].
      simpl in Hrun. injection Hrun as <- <-. rewrite Hop in Hshort.
      revert Hshort. unfold Cli.short_id, printed_id. simpl.
      destruct (contains "/" operation_id); by intros [= <-]. }
  - unfold Cli.short_id, printed_id. simpl. by destruct (contains "/" operation_id).
  - done.
  - unfold VeoOp.operation_name.
    destruct (contains "/operations/" (printed_id operation_id)) eqn:Hops; [|done].
    apply contains_has_slash in Hops; [congruence|done].
  - unfold VeoOp.full_operation_path.
    destruct (String.prefix "projects/" (printed_id operation_id)) eqn:Hprefix; [|done].
    apply prefix_has_slash in Hprefix; [congruence|done].
Qed.

End CommandLineFacts.

(** ** Decoding the answers of the provider *)

Section DecodeResultFacts.
Context `{Disk}.
Import Py Velo.

(** X22. A response that names a long-running operation and carries no
    inline video decodes to a result with [success] true and [status]
    "processing" that hands the operation name on as [operation_id]; it
    has no [video_url], [video_path] or [video_id]. *)
Theorem operation_response_is_reported_as_processing (model_name : string)
    (script : gmap string value) (prompt : string) (now : value)
    (video_hex url_hex : string) (kvs : list (string * value)) (operation : value) :
  inline_asset (VDict kvs) = Ok None →
  assoc_get kvs "name" = Some operation →
  ∃ result,
    decode_result model_name script prompt now video_hex url_hex (VDict kvs) = Ok result
    ∧ result !! "success" = Some (VBool true)
    ∧ result !! "status" = Some (VStr "processing")
    ∧ result !! "operation_id" = Some operation
    ∧ result !! "video_url" = None ∧ result !! "video_path" = None
    ∧ result !! "video_id" = None.
Proof.
  intros Hasset Hname. unfold decode_result. rewrite Hasset. simpl.
  unfold assoc_has. rewrite Hname. simpl.
  eexists. split; [done|]. unfold common_fields. by simplify_map_eq.
Qed.

(** X23. An inline video has priority: when the first sample of the
    first prediction carries base64 data that decodes and the file can be
    written, the result names the saved file
    [veo_video_<timestamp>.mp4] as [video_path], also when the response
    names an operation or a URL as well. *)
Theorem inline_video_is_saved_first (model_name : string) (script : gmap string value)
    (prompt : string) (now : value) (video_hex url_hex : string)
    (kvs prediction sample video : list (string * value))
    (predictions samples : list value) (data bytes : string) :
  assoc_get kvs "predictions" = Some (VList (VDict prediction :: predictions)) →
  assoc_get prediction "generatedSamples" = Some (VList (VDict sample :: samples)) →
  assoc_get sample "video" = Some (VDict video) →
  assoc_get video "bytesBase64Encoded" = Some (VStr data) →
  data ≠ "" →
  b64decode data = Ok bytes →
  store ("veo_video_" +:+ timestamp +:+ ".mp4") bytes = true →
  decode_result model_name script prompt now video_hex url_hex (VDict kvs)
  = Ok (<["video_id" := VStr ("velo_" +:+ String.substring 0 8 video_hex)]>
       (<["video_path" := VStr ("veo_video_" +:+ timestamp +:+ ".mp4")]>
       (common_fields model_name script prompt now))).
Proof.
  intros Hpredictions Hsamples Hvideo Hdata Hne Hdecode Hstore.
  unfold decode_result, inline_asset, _save_video_from_response, save_video.
  simpl. unfold assoc_has. rewrite Hpredictions. simpl.
  rewrite Hsamples. simpl. rewrite Hvideo. simpl. rewrite Hdata. simpl.
  rewrite (proj2 (String.eqb_neq _ _) Hne). simpl. rewrite Hdecode. simpl.
  rewrite Hstore. simpl. done.
Qed.

(** X24. Without an inline video, an operation name, predictions or
    candidates, a top-level [videoUrl] is handed on unchanged as
    [video_url], whatever it is, with the raw response beside it as
    [api_response]; [video_uri] is read only when [videoUrl] is absent. *)
Theorem top_level_url_is_passed_through (model_name : string)
    (script : gmap string value) (prompt : string) (now : value)
    (video_hex url_hex : string) (kvs : list (string * value)) (link : value) :
  assoc_get kvs "predictions" = None →
  assoc_get kvs "candidates" = None →
  assoc_get kvs "name" = None →
  assoc_get kvs "videoUrl" = Some link
  ∨ (assoc_get kvs "videoUrl" = None ∧ assoc_get kvs "video_uri" = Some link) →
  decode_result model_name script prompt now video_hex url_hex (VDict kvs)
  = Ok (<["video_id" := VStr ("velo_" +:+ String.substring 0 8 video_hex)]>
       (<["video_url" := link]> (<["api_response" := VDict kvs]>
       (common_fields model_name script prompt now)))).
Proof.
  intros Hpredictions Hcandidates Hname Hlink.
  unfold decode_result, inline_asset, _extract_video_url_from_response, find_video_url,
    return_either.
  cbn [py_in getitem mbind res_bind]. unfold assoc_has.
  rewrite Hpredictions, Hcandidates, Hname. cbn [mbind res_bind].
  destruct Hlink as [Hurl|[Hnone Huri]].
  - by rewrite Hurl.
  - by rewrite Hnone, Huri.
Qed.

End DecodeResultFacts.

(** ** Personas *)

Section PersonaFacts.
Context `{Json}.
Import Py.

(** X25. A persona created on a store that accepts the insert reads
    back with the defaults [create_persona] fills in: an empty
    description, the consent status "pending", the creation time of the
    call and empty metadata, wherever the caller gave none.  The creation
    time is a timestamp, that of the call or the one the caller gave, and
    is read back as its ISO text. *)
Theorem created_persona_reads_back (c : Db.pg_connection)
    (persona_data row : gmap string value) (persona_id now read_at : string)
    (created : value) :
  Personas.insert_row persona_data now = Ok row →
  accepts_insert c row →
  persona_data !! "id" = Some (VStr persona_id) →
  Forall (fun r => Db.has_id (VStr persona_id) r = false) (Db.table c) →
  isoformat (default (VDatetime now) (persona_data !! "created_at")) = Ok created →
  let metadata := default (VDict []) (persona_data !! "metadata") in
  json_dumps metadata ≠ "" → json_loads (json_dumps metadata) = Ok metadata →
  let stored := Personas.create_persona (Personas.Client (Some c)) persona_data now in
  stored.1 = Ok (VStr persona_id)
  ∧ ∃ persona,
      (Personas.get_persona stored.2 persona_id read_at).1 = Some persona
      ∧ persona !! "id" = Some (VStr persona_id)
      ∧ persona !! "name" = persona_data !! "name"
      ∧ persona !! "description" = Some (default (VStr "") (persona_data !! "description"))
      ∧ persona !! "consent_status"
        = Some (default (VStr "pending") (persona_data !! "consent_status"))
      ∧ persona !! "created_at" = Some created
      ∧ (persona_data !! "created_at" = None → created = VStr now)
      ∧ persona !! "metadata" = Some metadata.
Proof.
  intros Hrow Hacc Hid Hfresh Hat metadata Hm1 Hm2.
  unfold Personas.create_persona, Db.execute_insert. simpl. rewrite Hrow.
  rewrite (accepts_insert_not_refused _ _ Hacc). simpl.
  unfold Db.lookup_key at 1. rewrite Hid. split; [done|].
  revert Hrow. unfold Personas.insert_row, Db.lookup_key, mbind, res_bind. rewrite Hid.
  destruct (persona_data !! "name") as [name|] eqn:Hname; [|done].
  intros [= <-].
  destruct Hacc as (Hon & Htx & Hall).
  destruct (Hall "id" (VStr persona_id) ltac:(by simplify_map_eq)) as [Hcol Had].
  unfold Personas.get_persona, Db.execute_select. simpl.
  rewrite select_not_refused by done. simpl.
  rewrite filter_app, (filter_unmatched _ _ Hfresh). simpl.
  rewrite filter_cons_True.
  2:{ unfold Db.has_id, Db.cell. simplify_map_eq. simpl. apply String.eqb_refl. }
  simpl. unfold Personas._format_persona_result, Db.loads_or, Db.isoformat_or_none,
    Db.cell.
  simplify_map_eq. simpl. fold metadata.
  assert (Htruthy : truthy (default (VDatetime now) (persona_data !! "created_at")) = true).
  { destruct (default (VDatetime now) (persona_data !! "created_at")); by simpl in Hat. }
  rewrite Htruthy, Hat. simpl.
  rewrite (proj2 (String.eqb_neq _ _) Hm1). simpl. rewrite Hm2. simpl.
  eexists. split; [done|]. simplify_map_eq. repeat split; try done.
  intros Hnone. rewrite Hnone in Hat. simpl in Hat. by injection Hat as <-.
Qed.

Lemma filter_out_id (persona_id : value) (rows : list (gmap string value)) :
  filter (fun row => Db.has_id persona_id row = true)
    (filter (fun row => Db.has_id persona_id row = false) rows) = [].
Proof.
  induction rows as [|row rows IH]; [done|].
  destruct (Db.has_id persona_id row) eqn:Hrow.
  - by rewrite (filter_cons_False _ _ rows) by congruence.
  - rewrite (filter_cons_True _ _ rows) by done.
    by rewrite filter_cons_False by congruence.
Qed.

(** X26. Deleting a persona reports success whether or not the id was
    stored; afterwards no row carries the id, so [get_persona] returns
    [None], and the rows of every other id are kept in their order. *)
Theorem deleted_persona_is_gone (c : Db.pg_connection) (persona_id read_at : string) :
  Db.online c = true → Db.failed_tx c = false →
  Db.adapts c (VStr persona_id) = true → "id" ∈ Db.columns c →
  let deleted := Personas.delete_persona (Personas.Client (Some c)) persona_id in
  deleted.1 = true
  ∧ (Personas.get_persona deleted.2 persona_id read_at).1 = None
  ∧ ∃ c', Personas.connection deleted.2 = Some c'
          ∧ Db.table c'
            = filter (fun row => Db.has_id (VStr persona_id) row = false) (Db.table c).
Proof.
  intros Hon Htx Had Hcol.
  unfold Personas.delete_persona, Personas.execute_delete. simpl.
  rewrite select_not_refused by done. simpl. split; [done|]. split; [|eauto].
  unfold Personas.get_persona, Db.execute_select. simpl.
  rewrite select_not_refused by done. simpl. by rewrite filter_out_id.
Qed.

(** X27. On the mock database (no connection) nothing written is ever
    read: whatever persona was created, with whatever consent status, and
    also after it was deleted, [get_persona] answers for every id with a
    fabricated persona whose consent status is "approved". *)
Theorem mock_persona_is_always_approved (persona_data : gmap string value)
    (persona_id now read_at : string) :
  let self := Personas.Client None in
  (Personas.create_persona self persona_data now).2 = self
  ∧ Personas.delete_persona self persona_id = (true, self)
  ∧ (∀ updates, Personas.update_persona self persona_id updates = (true, self))
  ∧ ∃ persona,
      Personas.get_persona self persona_id read_at = (Some persona, self)
      ∧ persona !! "id" = Some (VStr persona_id)
      ∧ persona !! "consent_status" = Some (VStr "approved")
      ∧ persona !! "name" = Some (VStr ("Mock Persona " +:+ persona_id)).
Proof.
  simpl. split; [done|]. split; [done|]. split; [done|].
  eexists. split; [done|]. unfold Personas._generate_mock_persona. by simplify_map_eq.
Qed.

End PersonaFacts.

(** ** The outcome of a job *)

Section OutcomeFacts.
Context `{Json} `{Host} `{Interpreter}.
Import Py Worker.

(** A video job whose parameters meet no argument of the call reaches
    the router; its last write follows the outcome of the router. *)
Lemma process_job_routed (job job_id prompt personas : value)
    (kvs : list (string * value)) (format : value) (kwargs : gmap string value)
    (client : Router.t) (w : t) :
  getitem job "id" = Ok job_id →
  getitem job "type" = Ok (VStr "video") →
  getitem job "prompt" = Ok prompt →
  getitem job "parameters" = Ok (VDict kvs) →
  getitem job "persona_ids" = Ok personas →
  merge_keywords kvs = Ok (format, kwargs) →
  video_client w = Some client →
  let w30 := processing (processing w job_id 10 "Starting generation")
               job_id 30 "Generating video" in
  let w90 := processing w30 job_id 90 "Finalizing" in
  _process_job job w
  = (Ok tt,
     match Router.generate_video client
             (build_script prompt (default (VInt 30) (assoc_get kvs "duration")) personas)
             None (VStr "hd") format kwargs with
     | Ok result =>
         if Router.result_success result
         then after_write w90 job_id
                (status_update w90 "completed" 100 "Generation completed"
                   (default VNone (result !! "video_url")) (Some result) VNone)
         else failed_with w90 job_id "Generation failed"
                (default (VStr "Unknown error") (result !! "error"))
     | Raise e => failed_with w30 job_id "Processing error" (VStr (exn_msg e))
     end).
Proof.
  intros Hid Hty Hprompt Hparams Hpersonas Hmerge Hclient w30 w90.
  unfold _process_job, mbind, M_bind, lift, try_except. rewrite Hid, Hty.
  unfold process_attempt, mbind, M_bind. rewrite update_job_status_eq.
  fold (processing w job_id 10 "Starting generation").
  change (is_str (VStr "video") "video") with true. cbn iota.
  unfold _process_video_job. unfold mbind at 1, M_bind at 1.
  rewrite ensure_video_client_eq.
  set (w10 := processing w job_id 10 "Starting generation").
  assert (Hc10 : video_client w10 = Some client) by done.
  assert (Hw10 : with_video_client w10 = w10)
    by (unfold with_video_client; by rewrite Hc10).
  rewrite Hc10, Hw10.
  unfold call_video_client, mbind, M_bind, lift, get, raise.
  rewrite Hprompt, Hparams. cbn [get_method]. rewrite Hpersonas, Hid.
  rewrite update_job_status_eq, Hmerge.
  fold (processing w10 job_id 30 "Generating video").
  change (video_client (processing w10 job_id 30 "Generating video"))
    with (video_client w).
  rewrite Hclient.
  destruct (Router.generate_video client _ _ _ _ _) as [result|e].
  - rewrite update_job_status_eq. unfold mret, M_ret. cbv beta iota.
    destruct (Router.result_success result); cbv beta iota;
      by rewrite update_job_status_eq.
  - by rewrite update_job_status_eq.
Qed.

Lemma build_updates_outcome (worker now status step : string) (progress : Z)
    (url err : value) (data : option (gmap string value)) :
  let u := build_updates worker now status progress step url data err in
  u !! "result_url" = (if truthy url then Some url else None)
  ∧ u !! "result_data"
    = match data with
      | Some d => if bool_decide (d = ∅) then None else Some (dict_value d)
      | None => None
      end.
Proof.
  unfold build_updates.
  destruct (truthy url), data as [d|], (truthy err);
    try destruct (bool_decide (d = ∅)); simpl; by simplify_map_eq.
Qed.

Lemma success_not_empty (result : gmap string value) :
  Router.result_success result = true → result ≠ ∅.
Proof. intros Hsuccess ->. by vm_compute in Hsuccess. Qed.

(** X28. A video job that reaches the router ends as the router says.
    The job has its fields, its parameters name no argument of the call
    (no [script], [provider], [quality] or [self]) and the worker has a
    video client.  After processing 10 and 30: when the router returns a
    result, processing 90 is written and the last write is completed 100
    with the result's [video_url] as [result_url] and the whole result as
    [result_data] if the result reports success, and failed 0 with the
    result's [error] (or "Unknown error") if it does not; when the call of
    the router raises, the last write is failed 0 with the message of the
    exception.  A failed job carries no result, a completed one no
    error. *)
Theorem job_outcome_follows_the_router (job job_id prompt personas : value)
    (kvs : list (string * value)) (format : value) (kwargs : gmap string value)
    (client : Router.t) (w : t) :
  getitem job "id" = Ok job_id →
  getitem job "type" = Ok (VStr "video") →
  getitem job "prompt" = Ok prompt →
  getitem job "parameters" = Ok (VDict kvs) →
  getitem job "persona_ids" = Ok personas →
  merge_keywords kvs = Ok (format, kwargs) →
  video_client w = Some client →
  ∃ w' x,
    _process_job job w = (Ok tt, w')
    ∧ last (status_writes w') = Some x
    ∧ x.1 = job_id
    ∧ match Router.generate_video client
              (build_script prompt (default (VInt 30) (assoc_get kvs "duration")) personas)
              None (VStr "hd") format kwargs with
      | Ok result =>
          let url := default VNone (result !! "video_url") in
          let err := default (VStr "Unknown error") (result !! "error") in
          if Router.result_success result
          then summaries w'
               = (summaries w ++ [wrote "processing" 10; wrote "processing" 30;
                                  wrote "processing" 90; wrote "completed" 100])%list
               ∧ x.2 !! "result_url" = (if truthy url then Some url else None)
               ∧ x.2 !! "result_data" = Some (dict_value result)
               ∧ x.2 !! "error_message" = None
          else summaries w'
               = (summaries w ++ [wrote "processing" 10; wrote "processing" 30;
                                  wrote "processing" 90; wrote "failed" 0])%list
               ∧ x.2 !! "error_message" = (if truthy err then Some err else None)
               ∧ x.2 !! "result_url" = None
               ∧ x.2 !! "result_data" = None
      | Raise e =>
          summaries w'
          = (summaries w ++ [wrote "processing" 10; wrote "processing" 30;
                             wrote "failed" 0])%list
          ∧ x.2 !! "error_message" = Some (VStr (exn_msg e))
          ∧ x.2 !! "result_url" = None
          ∧ x.2 !! "result_data" = None
      end.
Proof.
  intros Hid Hty Hprompt Hparams Hpersonas Hmerge Hclient.
  rewrite (process_job_routed job job_id prompt personas kvs format kwargs client w)
    by done.
  destruct (Router.generate_video client _ _ _ _ _) as [result|e] eqn:Hcall;
    [destruct (Router.result_success result) eqn:Hsuccess|].
  all: eexists _, _; split; [done|].
  all: split; [unfold failed_with, after_write at 1; cbn [status_writes]; apply last_snoc|].
  all: split; [done|].
  all: cbv zeta; unfold failed_with, processing;
    rewrite !summaries_after_write, <- !app_assoc; split; [done|].
  all: cbn [snd]; unfold status_update.
  all: match goal with
       | |- context [build_updates ?wk ?now ?st ?pg ?step ?u ?data ?er] =>
           destruct (build_updates_lookup wk now st step pg u er data) as (_ & _ & _ & ->);
           destruct (build_updates_outcome wk now st step pg u er data) as (-> & ->)
       end.
  - rewrite bool_decide_eq_false_2 by by apply success_not_empty. done.
  - done.
  - split; [|done]. simpl.
    rewrite (proj2 (String.eqb_neq _ _) (generate_video_raise_msg _ _ _ _ _ _ _ Hcall)).
    done.
Qed.

(** X29. The write that marks a job completed carries the result
    dictionary as a statement parameter.  On a connection whose driver
    does not adapt that dictionary the statement is refused: the update
    returns [False] and the store is what it was, so the job is not
    stored as completed. *)
Theorem completed_write_needs_a_dictionary_adapter (c : Db.pg_connection)
    (job_id url : value) (result : gmap string value) (w : t) :
  Router.result_success result = true →
  Db.adapts c (dict_value result) = false →
  Db.update_generation_job (Db.Client (Some c)) job_id
    (status_update w "completed" 100 "Generation completed" url (Some result) VNone)
  = (false, Db.Client (Some c)).
Proof.
  intros Hsuccess Hadapt.
  unfold Db.update_generation_job, Db.execute_update. simpl.
  set (updates := status_update w "completed" 100 "Generation completed" url
                    (Some result) VNone).
  fold (bound updates).
  assert (Hdata : bound updates !! "result_data" = Some (dict_value result)).
  { rewrite bound_lookup. unfold updates, status_update.
    destruct (build_updates_outcome (worker_id w) (utcnow (clock_reads w)) "completed"
                "Generation completed" 100 url VNone (Some result)) as (_ & ->).
    rewrite bool_decide_eq_false_2 by by apply success_not_empty. done. }
  assert (Hnot : Db.all_adapted c (bound updates) = false).
  { unfold Db.all_adapted. apply bool_decide_eq_false_2.
    intros Hall. specialize (Hall _ _ Hdata). simpl in Hall. congruence. }
  destruct (Db.plain_keys c (bound updates)).
  - unfold Db.refused. by rewrite Hnot.
  - by rewrite Hnot.
Qed.

(** X30. A job whose type is not "video" is never handed to a provider:
    after the write processing 10 it fails with progress 0 and the
    message "Unknown job type: <type>". *)
Theorem unknown_job_type_fails (job job_id : value) (job_type : string) (w : t) :
  getitem job "id" = Ok job_id →
  getitem job "type" = Ok (VStr job_type) →
  job_type ≠ "video" →
  ∃ w' x,
    _process_job job w = (Ok tt, w')
    ∧ summaries w' = (summaries w ++ [wrote "processing" 10; wrote "failed" 0])%list
    ∧ last (status_writes w') = Some x
    ∧ x.1 = job_id
    ∧ x.2 !! "error_message" = Some (VStr ("Unknown job type: " +:+ job_type))
    ∧ video_client w' = video_client w.
Proof.
  intros Hid Hty Hne.
  rewrite (process_job_raised job job_id (VStr job_type) w
             (processing w job_id 10 "Starting generation")
             (Exn "ValueError" ("Unknown job type: " +:+ job_type)) Hid Hty).
  2:{ unfold process_attempt, mbind, M_bind. rewrite update_job_status_eq.
      simpl. by rewrite (proj2 (String.eqb_neq _ _) Hne). }
  eexists _, _. split; [done|]. unfold failed_with, processing.
  rewrite !summaries_after_write, <- !app_assoc. split; [done|].
  split; [unfold after_write at 1; cbn [status_writes]; apply last_snoc|].
  split; [done|]. split; [|done].
  cbn [snd]. unfold status_update.
  match goal with
  | |- context [build_updates ?wk ?now ?st ?pg ?step ?u ?data ?e] =>
      by destruct (build_updates_lookup wk now st step pg u e data) as (_ & _ & _ & ->)
  end.
Qed.

End OutcomeFacts.

(** * The claims at concrete inputs *)

Section Witnesses.
Import Py Scenario.
#[local] Existing Instances Scenario.json Scenario.host Scenario.disk Scenario.interpreter.

(** C1, counterexample: a job stored as cancelled, then the worker's late
    "failed" write; the store applies it. *)
Lemma cancellation_is_not_absorbing :
  ¬ cancellation_absorbing cancelled_store (VStr "job-1") late_failure.
Proof.
  intros Habsorbing.
  assert (Hstatus : Db.job_status
                      (Db.update_generation_job cancelled_store (VStr "job-1") late_failure).2
                      (VStr "job-1") = Some (VStr "cancelled")).
  { apply Habsorbing; [by vm_compute|right; by vm_compute]. }
  vm_compute in Hstatus. discriminate Hstatus.
Qed.

(** C1 at that store: the write is accepted and the status becomes "failed". *)
Lemma cancelled_job_is_overwritten_witness :
  (Db.update_generation_job cancelled_store (VStr "job-1") late_failure).1 = true
  ∧ Db.job_status (Db.update_generation_job cancelled_store (VStr "job-1") late_failure).2
      (VStr "job-1") = Some (VStr "failed").
Proof.
  apply (cancelled_job_is_overwritten cancelled_connection (VStr "job-1") (VStr "failed")
           late_failure).
  - vm_compute. reflexivity.
  - compute_done.
  - vm_compute. reflexivity.
  - vm_compute. reflexivity.
Defined.

(** C2, counterexample: Redis does not answer, the submission returns the
    job id all the same. *)
Lemma enqueue_succeeds_with_redis_down :
  ¬ enqueue_fails_when_redis_is_down redis_down_worker
      (VStr "video") (VList []) (VStr "a calm lake at sunrise") (VDict []).
Proof.
  intros Hfails. destruct Hfails as [e He].
  - exists (Worker.Redis false []). split; reflexivity.
  - vm_compute in He. discriminate He.
Qed.

(** C2 at that worker: the id is returned and the job sits in memory. *)
Lemma unreachable_redis_falls_back_to_memory_witness :
  (Worker.queue_generation_job (VStr "video") (VList []) (VStr "a calm lake at sunrise")
     (VDict []) redis_down_worker).1 = Ok "job-0"
  ∧ length (Worker.job_queue
              (Worker.queue_generation_job (VStr "video") (VList [])
                 (VStr "a calm lake at sunrise") (VDict []) redis_down_worker).2) = 1%nat.
Proof.
  destruct (unreachable_redis_falls_back_to_memory redis_down_worker (Worker.Redis false [])
              (VStr "video") (VList []) (VStr "a calm lake at sunrise") (VDict [])
              eq_refl eq_refl) as (Hid & Hqueue & _).
  split; [exact Hid|]. rewrite Hqueue. reflexivity.
Defined.

(** C3, counterexample: "runway" is not registered; the router calls
    Sora instead and the call succeeds. *)
Lemma unregistered_provider_is_replaced :
  ¬ unavailable_explicit_provider_fails mock_router ∅ "runway" (VStr "hd") (VStr "mp4") ∅.
Proof.
  intros Hfails. specialize (Hfails eq_refl).
  vm_compute in Hfails. discriminate Hfails.
Qed.

(** C3 at the mock router (a registered and an unregistered name) and at
    the router whose providers raise. *)
Lemma explicit_provider_selection_witness :
  Router._select_provider mock_router (Some "velo") = Some "velo"
  ∧ Router._select_provider mock_router (Some "runway") = Some "sora"
  ∧ Router.generate_video broken_router ∅ (Some "sora") (VStr "hd") (VStr "mp4") ∅
    = Ok (Router.generation_failed_result "sora"
            (Exn "RuntimeError" "sora: service unavailable"))
  ∧ ∃ result,
      Router.generate_video mock_router ∅ (Some "runway") (VStr "hd") (VStr "mp4") ∅
      = Ok result
      ∧ result !! "provider_selection_reason"
        = Some (VStr "User requested runway but sora was selected due to availability").
Proof.
  destruct (explicit_provider_selection mock_router "velo" eq_refl) as (Hreg & _).
  destruct (explicit_provider_selection mock_router "runway" eq_refl)
    as (_ & Hmiss & _ & Hreplaced).
  destruct (explicit_provider_selection broken_router "sora" eq_refl)
    as (_ & _ & Hraise & _).
  split; [by apply Hreg|]. split; [by rewrite (proj1 (Hmiss eq_refl))|]. split.
  - by apply (Hraise ∅ (VStr "hd") (VStr "mp4") ∅ "sora"
                (failing "sora: service unavailable")).
  - eexists. split.
    + by apply (Hreplaced ∅ (VStr "hd") (VStr "mp4") ∅ "sora" mock_sora
                  (<["success" := VBool true]> (<["provider" := VStr "sora"]>
                  (<["video_url" := VStr "https://mock-openai-sora.com/videos/mock_sora_1.mp4"]> ∅)))).
    + reflexivity.
Defined.

(** C4, counterexample: both providers raise; the failure returned names
    them but carries neither error. *)
Lemma aggregate_failure_omits_errors :
  ¬ call_enumerates_errors broken_router ∅ (VStr "hd") (VStr "mp4") ∅
      [("velo", "velo: quota exceeded"); ("sora", "sora: service unavailable")].
Proof.
  intros (result & Hresult & Henumerates).
  vm_compute in Hresult. injection Hresult as <-.
  destruct (Henumerates "velo" "velo: quota exceeded") as [_ Herror]; [set_solver|].
  vm_compute in Herror. discriminate Herror.
Qed.

(** C4 at the router whose providers raise. *)
Lemma all_providers_failed_lists_names_only_witness :
  Router.generate_video broken_router ∅ None (VStr "hd") (VStr "mp4") ∅
  = Ok (<["success" := VBool false]>
       (<["error" := VStr "All providers failed. Last error from velo"]>
       (<["attempted_providers" := VList [VStr "velo"; VStr "sora"]]> ∅))).
Proof.
  destruct (all_providers_failed_lists_names_only broken_router ∅ (VStr "hd") (VStr "mp4")
              ∅ "velo" (failing "velo: quota exceeded")
              (Exn "RuntimeError" "velo: quota exceeded") eq_refl eq_refl eq_refl eq_refl)
    as [Hplain _].
  - simpl. lia.
  - repeat constructor. intros c [= <-]. exact I.
  - by apply Hplain.
Defined.

(** An extra option named [failed_provider] meets the argument of the
    fallback: the call raises instead of answering. *)
Example fallback_rejects_failed_provider_option :
  Router.generate_video broken_router ∅ None (VStr "hd") (VStr "mp4")
    (<["failed_provider" := VStr "velo"]> ∅)
  = Raise (Exn "TypeError"
             "UnifiedVideoClient._try_fallback() got multiple values for argument 'failed_provider'").
Proof. vm_compute. reflexivity. Qed.

(** C5, counterexample: Velo reports a failure; the progress written is
    10, 30, 90 and then 0. *)
Lemma failed_attempt_resets_progress :
  ¬ progress_never_drops (lake_job []) (idle_worker None None (Some rejecting_router)).
Proof.
  unfold progress_never_drops. intros Hsorted. vm_compute in Hsorted.
  discriminate Hsorted.
Qed.



(** The two forms of a handle, from a resource path and from a bare id. *)
Example short_form_of_a_path :
  VeoOp.operation_name
    "projects/p/locations/us-central1/publishers/google/models/veo/operations/abc-123"
  = "abc-123".
Proof. reflexivity. Qed.

Example qualified_form_of_a_bare_id :
  VeoOp.full_operation_path token_env "abc-123"
  = "projects/your-project-id/locations/us-central1/publishers/google/models/veo-3.1-generate-preview/operations/abc-123".
Proof. reflexivity. Qed.



(** C8 at a worker whose queue holds one job with the provider among its
    parameters: the call of the router raises a [TypeError]. *)
Lemma failed_job_does_not_stop_the_worker_witness :
  (Worker.worker_iteration busy_worker).1 = Ok tt
  ∧ (Worker.worker_loop 3 busy_worker).1 = Ok Worker.StillRunning.
Proof.
  destruct (failed_job_does_not_stop_the_worker busy_worker dequeued_worker api_job
              eq_refl eq_refl eq_refl) as (Hfailed & _ & Hloop & _).
  split.
  - destruct (Hfailed (VStr "job-1") (VStr "video") api_job_error
                (Worker.process_attempt api_job (VStr "job-1") (VStr "video")
                   dequeued_worker).2 eq_refl eq_refl) as (Hturn & _).
    + vm_compute. reflexivity.
    + by rewrite Hturn.
  - destruct (Hloop 2%nat) as (Hstep & Hrunning & _). exact Hrunning.
Defined.


(** C10 at an id that was never submitted. *)
Lemma status_without_database_is_fabricated_witness :
  (Worker.get_job_status "never-submitted" (idle_worker None None None)).1
  = Ok (Some (Worker.mock_status "never-submitted")).
Proof.
  destruct (status_without_database_is_fabricated (idle_worker None None None)
              "never-submitted" eq_refl) as (Hstatus & _).
  by rewrite Hstatus.
Defined.

End Witnesses.

(** * Further properties at concrete inputs *)

Section MoreWitnesses.
Import Py Scenario Cases.
#[local] Existing Instances Cases.json Scenario.host Scenario.disk Cases.web
  Scenario.interpreter.

(** C8, counterexample: the Redis list holds an item without a type.
    The worker takes it, the lookup of the type raises before the [try]
    block, the loop swallows the error and nothing marks the job failed. *)
Lemma job_without_type_is_dropped :
  ¬ raising_job_is_marked_failed untyped_redis_worker.
Proof.
  intros Hmarked.
  destruct (Hmarked untyped_job
              (Worker.set_redis untyped_redis_worker (Some (Worker.Redis true [])))
              (key_error "type")
              (Worker.set_redis untyped_redis_worker (Some (Worker.Redis true []))))
    as (job_id & u & Hlast & _); try (vm_compute; reflexivity).
  vm_compute in Hlast. discriminate Hlast.
Qed.

(** X2 at a job stored as completed. *)
Lemma cancel_overwrites_any_status_witness :
  ∃ db', Worker.db_client (Worker.cancel_job "job-1" finished_worker).2 = Some db'
         ∧ Db.job_status db' (VStr "job-1") = Some (VStr "cancelled").
Proof.
  apply (cancel_overwrites_any_status "job-1" finished_worker completed_connection
           (VStr "completed")).
  - reflexivity.
  - compute_done.
  - vm_compute. reflexivity.
Defined.

(** X3 at an id the table does not hold. *)
Lemma update_of_unknown_job_reports_success_witness :
  Db.update_generation_job (Db.Client (Some completed_connection)) (VStr "job-9")
    progress_update
  = (true, Db.Client (Some completed_connection)).
Proof.
  apply (update_of_unknown_job_reports_success completed_connection (VStr "job-9")
           progress_update).
  - compute_done.
  - compute_done.
  - compute_done.
Defined.

(** X4: an update of [job-2] leaves the row of [job-1] alone. *)
Lemma update_leaves_other_jobs_alone_witness :
  stored (Db.update_generation_job (Db.Client (Some two_jobs_connection)) (VStr "job-2")
            progress_update).2 !! 0%nat
  = Some completed_row.
Proof.
  apply (update_leaves_other_jobs_alone (Db.Client (Some two_jobs_connection))
           (VStr "job-2") progress_update 0 completed_row).
  - compute_done.
  - reflexivity.
  - vm_compute. reflexivity.
Defined.

(** Why X4 asks for names: an update of [job-2] under the injected key
    cancels [job-1] as well. *)
Example injected_key_rewrites_every_job :
  Db.job_status
    (Db.update_generation_job (Db.Client (Some unguarded_connection)) (VStr "job-2")
       (<[injected_key := VInt 1]> ∅)).2 (VStr "job-1")
  = Some (VStr "cancelled").
Proof. vm_compute. reflexivity. Qed.

(** X5: the first submission, stamped, created on an empty table and read
    back. *)
Lemma created_job_reads_back_witness :
  (Db.create_generation_job (Db.Client (Some empty_connection)) stamped_job).1
  = Ok (VStr "job-0")
  ∧ ∃ job,
      (Db.get_generation_job
         (Db.create_generation_job (Db.Client (Some empty_connection)) stamped_job).2
         (VStr "job-0") "2025-01-01T00:00:09").1 = Some job
      ∧ dom job = job_record_keys
      ∧ job !! "created_at" = Some (VStr "2025-01-01T00:00:00")
      ∧ ∀ k, k ∈ job_record_keys → k ≠ "created_at" → job !! k = stamped_job !! k.
Proof.
  apply (created_job_reads_back empty_connection stamped_job stamped_row "job-0"
            "2025-01-01T00:00:09" "2025-01-01T00:00:00" lake_personas lake_parameters).
  - vm_compute. reflexivity.
  - compute_done.
  - reflexivity.
  - reflexivity.
  - reflexivity.
  - reflexivity.
  - constructor.
  - done.
  - reflexivity.
  - done.
  - reflexivity.
Defined.

(** X6 at the job stored as completed with progress 100. *)
Lemma stored_status_has_creation_fields_only_witness :
  dom (match (Worker.get_job_status "job-1" finished_worker).1 with
       | Ok (Some record) => record
       | _ => ∅
       end) = job_record_keys.
Proof.
  eapply (stored_status_has_creation_fields_only finished_worker _
            (Db.Client (Some completed_connection)) "job-1").
  - reflexivity.
  - vm_compute. reflexivity.
Defined.

(** X7 at an id that was never submitted. *)
Lemma mock_database_completes_every_job_witness :
  ∃ record,
    Worker.get_job_status "never-submitted" mock_database_worker
    = (Ok (Some record), Worker.tick_clock mock_database_worker)
    ∧ (Api.get_job_status "never-submitted" mock_database_worker).1 = Api.Reply record
    ∧ record !! "id" = Some (VStr "never-submitted")
    ∧ record !! "status" = Some (VStr "completed")
    ∧ record !! "prompt" = Some (VStr "Generate a sample video").
Proof.
  apply (mock_database_completes_every_job mock_database_worker "never-submitted").
  reflexivity.
Defined.

(** X8 at a worker with one job waiting in memory. *)
Lemma memory_queue_is_first_in_first_out_witness :
  (take_jobs 3
     (Worker.queue_generation_job (VStr "video") lake_personas
        (VStr "a calm lake at sunrise") lake_parameters busy_worker).2).1
  = [Some api_job; Some (Worker.dict_value first_job); None].
Proof.
  destruct (memory_queue_is_first_in_first_out busy_worker (VStr "video") lake_personas
              (VStr "a calm lake at sunrise") lake_parameters eq_refl) as [Horder _].
  exact Horder.
Defined.


(** X10 at a Redis list whose only item is not JSON. *)
Lemma undecodable_redis_item_is_dropped_witness :
  (Worker._get_next_job garbled_redis_worker).1 = Ok (Some (lake_job []))
  ∧ Worker.redis_client (Worker._get_next_job garbled_redis_worker).2
    = Some (Worker.Redis true []).
Proof.
  rewrite (undecodable_redis_item_is_dropped garbled_redis_worker [] "{not json"
             (Exn "JSONDecodeError" "Expecting value") eq_refl)
    by (vm_compute; reflexivity).
  split; reflexivity.
Defined.

(** X11 at a worker whose Redis does not answer. *)
Lemma unreachable_redis_dequeues_from_memory_witness :
  (Worker._get_next_job silent_redis_worker).1 = Ok (Some (lake_job [])).
Proof.
  rewrite (unreachable_redis_dequeues_from_memory silent_redis_worker
             (Worker.Redis false []) eq_refl eq_refl).
  reflexivity.
Defined.

(** X12 at a request that names no provider. *)
Lemma api_submitted_job_always_fails_witness :
  ∃ w2 x,
    Worker.worker_iteration (Api.generate_video lake_request dequeued_worker).2 = (Ok tt, w2)
    ∧ summaries w2
      = [wrote "processing" 10; wrote "processing" 30; wrote "failed" 0]
    ∧ last (Worker.status_writes w2) = Some x
    ∧ x.1 = VStr (uuid4 0)
    ∧ x.2 !! "error_message" = Some (VStr (exn_msg api_job_error))
    ∧ Worker.job_queue w2 = [].
Proof.
  destruct (api_submitted_job_always_fails lake_request dequeued_worker eq_refl eq_refl)
    as (w2 & x & Hturn & Hlast & Hid & _ & _ & Hqueue & Hwrites & Hmessage).
  exists w2, x. repeat split; done.
Defined.

(** The same request at a worker that has no video client yet: the
    import fails, and its message is what the job records. *)
Example api_job_fails_at_the_import :
  summaries (Worker.worker_iteration
               (Api.generate_video lake_request (idle_worker None None None)).2).2
  = [wrote "processing" 10; wrote "failed" 0]
  ∧ (λ x : Worker.status_write, x.2 !! "error_message")
      <$> last (Worker.status_writes
                  (Worker.worker_iteration
                     (Api.generate_video lake_request (idle_worker None None None)).2).2)
    = Some (Some (VStr "No module named 'scripts.video_clients'")).
Proof. split; vm_compute; reflexivity. Qed.

(** X14 at a database server that does not answer. *)
Lemma status_endpoint_hides_database_errors_witness :
  (Worker.get_job_status "job-1" offline_worker).1 = Ok None
  ∧ (Api.get_job_status "job-1" offline_worker).1 = Api.HTTPException 404 "Job not found".
Proof.
  apply (status_endpoint_hides_database_errors offline_worker
           (Db.PgConnection false false no_dicts job_columns [] syntax_errors) "job-1").
  - reflexivity.
  - left. reflexivity.
Defined.

(** X15 at a router whose Velo raises while Sora answers. *)
Lemma fallback_returns_first_success_witness :
  Router.generate_video velo_down_router ∅ None (VStr "hd") (VStr "mp4") ∅
  = Ok (<["provider_selection_reason" := VStr "Fallback to sora after velo failed"]>
       (<["selected_provider" := VStr "sora"]> (<["original_provider" := VStr "velo"]>
       (<["fallback_used" := VBool true]> sora_result)))).
Proof.
  destruct (fallback_returns_first_success velo_down_router ∅ (VStr "hd") (VStr "mp4") ∅
              "velo" "sora" (failing "velo: quota exceeded") mock_sora
              (Exn "RuntimeError" "velo: quota exceeded") [] [] sora_result)
    as [Hplain _].
  - reflexivity.
  - reflexivity.
  - reflexivity.
  - reflexivity.
  - simpl. lia.
  - reflexivity.
  - constructor.
  - reflexivity.
  - reflexivity.
  - reflexivity.
  - by apply Hplain.
Defined.

(** X16 at a router whose Velo reports a failure while Sora would
    answer. *)
Lemma reported_failure_is_not_retried_witness :
  ∃ answer,
    Router.generate_video rejecting_router ∅ None (VStr "hd") (VStr "mp4") ∅ = Ok answer
    ∧ Router.result_success answer = false
    ∧ answer !! "selected_provider" = Some (VStr "velo").
Proof.
  destruct (reported_failure_is_not_retried rejecting_router ∅ None (VStr "hd")
              (VStr "mp4") ∅ "velo" (rejecting "Velo API error (429): quota exceeded")
              velo_rejection eq_refl eq_refl eq_refl eq_refl eq_refl)
    as (Hanswer & Hfailed & _).
  eexists. split; [exact Hanswer|]. split; [exact Hfailed|reflexivity].
Defined.

(** X19 at the service that knows the operation under its short name. *)
Lemma poll_returns_only_a_200_body_witness :
  ∃ q s0 s1 r,
    q ∈ VeoOp.sent (VeoOp.check_operation_status short_form_only token_env 0%nat "abc-123")
    ∧ short_form_only s0 q = (Ok r, s1)
    ∧ VeoOp.status_code r = 200
    ∧ VeoOp.json r = Ok (VDict [("name", VStr "abc-123"); ("done", VBool false)]).
Proof.
  apply (poll_returns_only_a_200_body short_form_only token_env 0%nat "abc-123"
           (VDict [("name", VStr "abc-123"); ("done", VBool false)])).
  reflexivity.
Defined.

(** X20 at an operation that finished with an error. *)
Lemma operation_with_error_is_returned_witness :
  VeoOp.conclude (VeoOp.Response 200 (Ok (VDict failed_operation)) "{}")
  = Some (VDict failed_operation).
Proof.
  apply (operation_with_error_is_returned
           (VeoOp.Response 200 (Ok (VDict failed_operation)) "{}") failed_operation);
    reflexivity.
Defined.

(** X22 at the answer of [predictLongRunning]. *)
Lemma operation_response_is_reported_as_processing_witness :
  ∃ result,
    Velo.decode_result "veo" ∅ "a calm lake at sunrise" (VInt 1735689600)
      "0123456789abcdef" "fedcba9876543210" (VDict operation_reply) = Ok result
    ∧ result !! "success" = Some (VBool true)
    ∧ result !! "status" = Some (VStr "processing")
    ∧ result !! "operation_id"
      = Some (VStr "projects/p1/locations/us-central1/publishers/google/models/veo/operations/abc-123")
    ∧ result !! "video_url" = None ∧ result !! "video_path" = None
    ∧ result !! "video_id" = None.
Proof.
  apply (operation_response_is_reported_as_processing "veo" ∅ "a calm lake at sunrise"
           (VInt 1735689600) "0123456789abcdef" "fedcba9876543210" operation_reply);
    reflexivity.
Defined.

(** X23 at a response that carries both a video and an operation name. *)
Lemma inline_video_is_saved_first_witness :
  Velo.decode_result "veo" ∅ "a calm lake at sunrise" (VInt 1735689600)
    "0123456789abcdef" "fedcba9876543210" (VDict inline_reply)
  = Ok (<["video_id" := VStr "velo_01234567"]>
       (<["video_path" := VStr "veo_video_20250101_000000.mp4"]>
       (Velo.common_fields "veo" ∅ "a calm lake at sunrise" (VInt 1735689600)))).
Proof.
  rewrite (inline_video_is_saved_first "veo" ∅ "a calm lake at sunrise" (VInt 1735689600)
           "0123456789abcdef" "fedcba9876543210" inline_reply
           [("generatedSamples",
             VList [VDict [("video", VDict [("bytesBase64Encoded", VStr "AAAAIGZ0eXA=")])]])]
           [("video", VDict [("bytesBase64Encoded", VStr "AAAAIGZ0eXA=")])]
           [("bytesBase64Encoded", VStr "AAAAIGZ0eXA=")] [] [] "AAAAIGZ0eXA=" "AAAAIGZ0eXA=")
    by (reflexivity || done).
  reflexivity.
Defined.

(** X24 at a response that is only a link. *)
Lemma top_level_url_is_passed_through_witness :
  Velo.decode_result "veo" ∅ "a calm lake at sunrise" (VInt 1735689600)
    "0123456789abcdef" "fedcba9876543210" (VDict url_reply)
  = Ok (<["video_id" := VStr "velo_01234567"]>
       (<["video_url" := VStr "https://storage.googleapis.com/bucket/lake.mp4"]>
       (<["api_response" := VDict url_reply]>
       (Velo.common_fields "veo" ∅ "a calm lake at sunrise" (VInt 1735689600))))).
Proof.
  rewrite (top_level_url_is_passed_through "veo" ∅ "a calm lake at sunrise"
             (VInt 1735689600) "0123456789abcdef" "fedcba9876543210" url_reply
             (VStr "https://storage.googleapis.com/bucket/lake.mp4"))
    by (reflexivity || (left; reflexivity)).
  reflexivity.
Defined.

(** X25 at a persona given by id and name only. *)
Lemma created_persona_reads_back_witness :
  ∃ persona,
    (Personas.get_persona
       (Personas.create_persona (Personas.Client (Some no_personas)) ada
          "2025-01-01T00:00:00").2 "p-1" "2025-01-01T00:00:09").1 = Some persona
    ∧ persona !! "consent_status" = Some (VStr "pending")
    ∧ persona !! "description" = Some (VStr "")
    ∧ persona !! "created_at" = Some (VStr "2025-01-01T00:00:00")
    ∧ persona !! "metadata" = Some (VDict []).
Proof.
  destruct (created_persona_reads_back no_personas ada
              (<["id" := VStr "p-1"]> (<["name" := VStr "Ada"]>
              (<["description" := VStr ""]> (<["consent_status" := VStr "pending"]>
              (<["created_at" := VDatetime "2025-01-01T00:00:00"]>
              (<["metadata" := VStr "{}"]> ∅))))))
              "p-1" "2025-01-01T00:00:00" "2025-01-01T00:00:09"
              (VStr "2025-01-01T00:00:00"))
    as (_ & persona & Hget & _ & _ & Hdescription & Hconsent & Hcreated & _ & Hmetadata).
  - vm_compute. reflexivity.
  - compute_done.
  - reflexivity.
  - constructor.
  - reflexivity.
  - done.
  - reflexivity.
  - exists persona. split; [exact Hget|]. split; [exact Hconsent|].
    split; [exact Hdescription|]. split; [exact Hcreated|exact Hmetadata].
Defined.

(** X26 at a table that holds the persona. *)
Lemma deleted_persona_is_gone_witness :
  (Personas.delete_persona (Personas.Client (Some one_persona)) "p-1").1 = true
  ∧ (Personas.get_persona
       (Personas.delete_persona (Personas.Client (Some one_persona)) "p-1").2
       "p-1" "2025-01-01T00:00:09").1 = None.
Proof.
  destruct (deleted_persona_is_gone one_persona "p-1" "2025-01-01T00:00:09")
    as (Hok & Hgone & _); try reflexivity.
  - compute_done.
  - split; [exact Hok|exact Hgone].
Defined.

(** X28 at a job whose parameters give the duration only. *)
Lemma job_outcome_follows_the_router_witness :
  summaries (Worker._process_job (lake_job [("duration", VInt 8)]) dequeued_worker).2
  = [wrote "processing" 10; wrote "processing" 30; wrote "processing" 90;
     wrote "completed" 100].
Proof.
  destruct (job_outcome_follows_the_router (lake_job [("duration", VInt 8)])
              (VStr "job-1") (VStr "a calm lake at sunrise") (VList [])
              [("duration", VInt 8)] (VStr "mp4") (<["duration" := VInt 8]> ∅)
              mock_router dequeued_worker eq_refl eq_refl eq_refl eq_refl eq_refl eq_refl
              eq_refl)
    as (w' & x & Hrun & _ & _ & Hcase).
  rewrite Hrun. simpl.
  destruct (Router.generate_video _ _ _ _ _ _) as [result|e] eqn:Hcall;
    [|vm_compute in Hcall; discriminate Hcall].
  destruct (Router.result_success result) eqn:Hsuccess.
  - destruct Hcase as [Hsummaries _]. exact Hsummaries.
  - vm_compute in Hcall. injection Hcall as <-.
    vm_compute in Hsuccess. discriminate Hsuccess.
Defined.

(** X29 at a driver that adapts no dictionary. *)
Lemma completed_write_needs_a_dictionary_adapter_witness :
  Db.update_generation_job (Db.Client (Some completed_connection)) (VStr "job-1")
    (status_update dequeued_worker "completed" 100 "Generation completed"
       (VStr "https://mock-openai-sora.com/videos/mock_sora_1.mp4") (Some sora_result) VNone)
  = (false, Db.Client (Some completed_connection)).
Proof.
  apply (completed_write_needs_a_dictionary_adapter completed_connection (VStr "job-1")
           (VStr "https://mock-openai-sora.com/videos/mock_sora_1.mp4") sora_result
           dequeued_worker); reflexivity.
Defined.

(** X30 at a job of type "audio". *)
Lemma unknown_job_type_fails_witness :
  ∃ w' x,
    Worker._process_job audio_job dequeued_worker = (Ok tt, w')
    ∧ summaries w' = [wrote "processing" 10; wrote "failed" 0]
    ∧ last (Worker.status_writes w') = Some x
    ∧ x.1 = VStr "job-7"
    ∧ x.2 !! "error_message" = Some (VStr "Unknown job type: audio")
    ∧ Worker.video_client w' = Some mock_router.
Proof.
  apply (unknown_job_type_fails audio_job (VStr "job-7") "audio" dequeued_worker);
    try reflexivity.
  done.
Defined.

End MoreWitnesses.
